(** * kharidify: the storage contract and its two backends

    A shallow embedding of [server/storage.ts] (the [IStorage] contract and
    the in-memory [MemStorage]) and of [server/DatabaseStorage.ts] (the
    relational backend), followed by the properties of the storage
    specification.

    Conventions of the embedding:
    - a JavaScript [number] used as an id, a count, a price or an index is a
      mathematical integer [Z] (non-integral numbers and NaN are outside the
      model, and so is the loss of precision above 2^53);
    - [T | null] is [option T]; an optional insert field [x?: T | null] is
      [option T] as well, because every such field is read through [??],
      which treats [undefined] and [null] alike;
    - [new Date()] is an explicit argument: each read of the clock is one
      [Date] parameter of the operation that reads it;
    - a [Map<number, T>] is an association list in insertion order;
    - [async] methods are plain functions: no method suspends between its
      reads and its writes of the store. *)

From Stdlib Require Import ZArith List String Bool Lia.
From Stdlib Require Import Sorting.Sorted Sorting.Permutation.
Import ListNotations.
Open Scope string_scope.
Open Scope list_scope.
Open Scope Z_scope.

Definition Date := Z.

(** ** JavaScript primitives used by the storage code *)
Module Js.

(** [x || d] on an optional number: [undefined] and [0] are falsy. *)
Definition num_or (x : option Z) (d : Z) : Z :=
  match x with
  | Some v => if v =? 0 then d else v
  | None => d
  end.

(** [x ?? d]: [undefined] and [null] give the default. *)
Definition nullish {A : Type} (x : option A) (d : A) : A :=
  match x with
  | Some v => v
  | None => d
  end.

(** One field of [{ ...old, ...patch }]: a field that is present in the
    patch replaces the old one, an absent field leaves it. *)
Definition spread {A : Type} (old : A) (patch : option A) : A :=
  match patch with
  | Some v => v
  | None => old
  end.

(** [options?.field] *)
Definition chain {O A : Type} (options : option O) (field : O -> option A)
  : option A :=
  match options with
  | Some o => field o
  | None => None
  end.

(** Truthiness of an optional string: [undefined] and [""] are falsy. *)
Definition truthy_string (x : option string) : option string :=
  match x with
  | Some s => if String.eqb s "" then None else Some s
  | None => None
  end.

(** Truthiness of an optional number, as in [if (options?.limit)]. *)
Definition truthy_num (x : option Z) : option Z :=
  match x with
  | Some v => if v =? 0 then None else Some v
  | None => None
  end.

(** [s === t] where [s] may be [null] and [t] is a string. *)
Definition nullable_eqb (s : option string) (t : string) : bool :=
  match s with
  | Some s' => String.eqb s' t
  | None => false
  end.

(** [a === b] where [a] may be [null] and [b] is a boolean. *)
Definition nullable_bool_eqb (a : option bool) (b : bool) : bool :=
  match a with
  | Some a' => Bool.eqb a' b
  | None => false
  end.

(** [a === b] where [a] may be [null] and [b] is a number. *)
Definition nullable_num_eqb (a : option Z) (b : Z) : bool :=
  match a with
  | Some a' => a' =? b
  | None => false
  end.

(** A relative index of [Array.prototype.slice]: negative counts from the
    end, and the result is clamped to [0 .. len]. *)
Definition clamp_index (len i : Z) : Z :=
  if i <? 0 then Z.max (len + i) 0 else Z.min i len.

(** [Array.prototype.slice(start, end)]. *)
Definition slice {A : Type} (l : list A) (start end_ : Z) : list A :=
  let len := Z.of_nat (List.length l) in
  let k := clamp_index len start in
  let final := clamp_index len end_ in
  firstn (Z.to_nat (final - k)) (skipn (Z.to_nat k) l).

(** [Array.prototype.sort(cmp)], which is stable: insertion of each element
    after the elements that do not compare greater. *)
Section Sort.
Context {A : Type} (cmp : A -> A -> Z).

Fixpoint insert_sorted (x : A) (l : list A) : list A :=
  match l with
  | [] => [x]
  | y :: l' => if cmp y x <=? 0 then y :: insert_sorted x l' else x :: l
  end.

Definition sort (l : list A) : list A :=
  fold_left (fun acc x => insert_sorted x acc) l [].
End Sort.

End Js.

(** ** [Map<number, V>]: entries in insertion order *)
Module JsMap.
Section Ops.
Context {V : Type}.

Definition t := list (Z * V).

Definition empty : t := [].

Fixpoint get (m : t) (k : Z) : option V :=
  match m with
  | [] => None
  | (k', v) :: m' => if k' =? k then Some v else get m' k
  end.

Definition has (m : t) (k : Z) : bool :=
  match get m k with
  | Some _ => true
  | None => false
  end.

(** [set] keeps the position of a key that is already present and appends
    a new key at the end. *)
Fixpoint set (m : t) (k : Z) (v : V) : t :=
  match m with
  | [] => [(k, v)]
  | (k', v') :: m' =>
      if k' =? k then (k, v) :: m' else (k', v') :: set m' k v
  end.

Definition delete (m : t) (k : Z) : t :=
  filter (fun kv => negb (fst kv =? k)) m.

Definition keys (m : t) : list Z := map fst m.

(** [Array.from(m.values())] *)
Definition values (m : t) : list V := map snd m.
End Ops.
Arguments t : clear implicits.
End JsMap.

(** ** The entities of [shared/schema.ts]

    The select types ([User], [Product], ...) and the insert types
    ([InsertUser], ...) follow the table definitions of the schema reference:
    a column without [notNull()] is nullable, and [id] and the timestamps are
    not part of an insert payload.  A [numeric] amount is an integer here and
    a [jsonb] address is its serialised text. *)

Definition Json := string.

Module User.
Record t := mk {
  id : Z;
  username : string;
  email : string;
  password : string;
  firstName : option string;
  lastName : option string;
  phone : option string;
  createdAt : option Date
}.
End User.

Module InsertUser.
Record t := mk {
  username : string;
  email : string;
  password : string;
  firstName : option string;
  lastName : option string;
  phone : option string
}.
End InsertUser.

Module Product.
Record t := mk {
  id : Z;
  name : string;
  description : string;
  price : Z;
  discountPrice : option Z;
  images : option (list string);
  category : string;
  inStock : option bool;
  isFeatured : option bool;
  isLimited : option bool;
  limitedCount : option Z;
  sustainableMaterials : option (list string);
  madeIn : option string;
  createdAt : option Date
}.
End Product.

Module InsertProduct.
Record t := mk {
  name : string;
  description : string;
  price : Z;
  discountPrice : option Z;
  images : option (list string);
  category : string;
  inStock : option bool;
  isFeatured : option bool;
  isLimited : option bool;
  limitedCount : option Z;
  sustainableMaterials : option (list string);
  madeIn : option string
}.
End InsertProduct.

(** [Partial<InsertProduct>]: [None] is a field that is not present in the
    payload, [Some v] a field that is present with value [v] (which is itself
    [None] for a nullable field set to [null]). *)
Module PartialInsertProduct.
Record t := mk {
  name : option string;
  description : option string;
  price : option Z;
  discountPrice : option (option Z);
  images : option (option (list string));
  category : option string;
  inStock : option (option bool);
  isFeatured : option (option bool);
  isLimited : option (option bool);
  limitedCount : option (option Z);
  sustainableMaterials : option (option (list string));
  madeIn : option (option string)
}.


Definition isEmpty (product : t) : bool :=
  match product with
  | mk None None None None None None None None None None None None => true
  | _ => false
  end.
End PartialInsertProduct.

(** The object that [updateProduct] receives.  Its declared type is
    [Partial<InsertProduct>], but a type is erased when the program runs
    and [PATCH /api/products/:id] passes [req.body] as it came, so the
    object can also carry the two properties of a product that
    [InsertProduct] leaves out, [id] and [createdAt]: [{ ...existingProduct,
    ...product }] and [.set(product)] copy them like any other property.
    (A property that is no column of a product changes no field of the
    model and is left out; a value is of the type of its column.) *)
Module ProductPayload.
Record t := mk {
  id : option Z;
  createdAt : option (option Date);
  fields : PartialInsertProduct.t
}.

(** A payload of the declared type. *)
Definition typed (product : PartialInsertProduct.t) : t :=
  mk None None product.

Definition isEmpty (product : t) : bool :=
  match id product, createdAt product with
  | None, None => PartialInsertProduct.isEmpty (fields product)
  | _, _ => false
  end.
End ProductPayload.

Module Category.
Record t := mk {
  id : Z;
  name : string;
  slug : string
}.
End Category.

Module InsertCategory.
Record t := mk {
  name : string;
  slug : string
}.
End InsertCategory.

Module Article.
Record t := mk {
  id : Z;
  title : string;
  slug : string;
  content : string;
  excerpt : option string;
  coverImage : option string;
  category : option string;
  createdAt : option Date
}.
End Article.

Module InsertArticle.
Record t := mk {
  title : string;
  slug : string;
  content : string;
  excerpt : option string;
  coverImage : option string;
  category : option string
}.
End InsertArticle.

Module Order.
Record t := mk {
  id : Z;
  userId : option Z;
  status : string;
  total : Z;
  shippingAddress : option Json;
  billingAddress : option Json;
  paymentMethod : option string;
  paymentStatus : option string;
  createdAt : option Date
}.
End Order.

Module InsertOrder.
Record t := mk {
  userId : option Z;
  status : string;
  total : Z;
  shippingAddress : option Json;
  billingAddress : option Json;
  paymentMethod : option string;
  paymentStatus : option string
}.
End InsertOrder.

Module OrderItem.
Record t := mk {
  id : Z;
  orderId : Z;
  productId : Z;
  quantity : Z;
  price : Z
}.
End OrderItem.

Module InsertOrderItem.
Record t := mk {
  orderId : Z;
  productId : Z;
  quantity : Z;
  price : Z
}.
End InsertOrderItem.

Module Subscriber.
Record t := mk {
  id : Z;
  email : string;
  createdAt : option Date
}.
End Subscriber.

Module InsertSubscriber.
Record t := mk {
  email : string
}.
End InsertSubscriber.

Module Contact.
Record t := mk {
  id : Z;
  name : string;
  email : string;
  subject : option string;
  message : string;
  createdAt : option Date
}.
End Contact.

Module InsertContact.
Record t := mk {
  name : string;
  email : string;
  subject : option string;
  message : string
}.
End InsertContact.

Module Settings.
Record t := mk {
  id : Z;
  key : string;
  value : option string;
  category : string;
  description : option string;
  createdAt : option Date;
  updatedAt : option Date
}.
End Settings.

Module InsertSettings.
Record t := mk {
  key : string;
  value : option string;
  category : option string;
  description : option string
}.
End InsertSettings.

(** [Partial<InsertSettings>], read as [PartialInsertProduct]. *)
Module PartialInsertSettings.
Record t := mk {
  key : option string;
  value : option (option string);
  category : option string;
  description : option (option string)
}.

Definition isEmpty (setting : t) : bool :=
  match setting with
  | mk None None None None => true
  | _ => false
  end.
End PartialInsertSettings.

(** The [options] argument of [getProducts] and of [getArticles]. *)
Module ProductOptions.
Record t := mk {
  limit : option Z;
  offset : option Z;
  category : option string;
  featured : option bool
}.
End ProductOptions.

Module ArticleOptions.
Record t := mk {
  limit : option Z;
  offset : option Z;
  category : option string
}.
End ArticleOptions.

(** ** [MemStorage]: the in-memory backend of [server/storage.ts] *)
Module MemStorage.

Record t := mk {
  users : JsMap.t User.t;
  products : JsMap.t Product.t;
  categories : JsMap.t Category.t;
  articles : JsMap.t Article.t;
  orders : JsMap.t Order.t;
  orderItems : JsMap.t OrderItem.t;
  subscribers : JsMap.t Subscriber.t;
  contacts : JsMap.t Contact.t;
  settings : JsMap.t Settings.t;
  userId : Z;
  productId : Z;
  categoryId : Z;
  articleId : Z;
  orderId : Z;
  orderItemId : Z;
  subscriberId : Z;
  contactId : Z;
  settingId : Z
}.

(** Assignments to the fields of [this]. *)
Definition set_users (this : t) (x : JsMap.t User.t) : t :=
  mk x (products this) (categories this) (articles this) (orders this)
  (orderItems this) (subscribers this) (contacts this) (settings this)
  (userId this) (productId this) (categoryId this) (articleId this)
  (orderId this) (orderItemId this) (subscriberId this) (contactId this)
  (settingId this).

Definition set_products (this : t) (x : JsMap.t Product.t) : t :=
  mk (users this) x (categories this) (articles this) (orders this)
  (orderItems this) (subscribers this) (contacts this) (settings this)
  (userId this) (productId this) (categoryId this) (articleId this)
  (orderId this) (orderItemId this) (subscriberId this) (contactId this)
  (settingId this).

Definition set_categories (this : t) (x : JsMap.t Category.t) : t :=
  mk (users this) (products this) x (articles this) (orders this)
  (orderItems this) (subscribers this) (contacts this) (settings this)
  (userId this) (productId this) (categoryId this) (articleId this)
  (orderId this) (orderItemId this) (subscriberId this) (contactId this)
  (settingId this).

Definition set_articles (this : t) (x : JsMap.t Article.t) : t :=
  mk (users this) (products this) (categories this) x (orders this)
  (orderItems this) (subscribers this) (contacts this) (settings this)
  (userId this) (productId this) (categoryId this) (articleId this)
  (orderId this) (orderItemId this) (subscriberId this) (contactId this)
  (settingId this).

Definition set_orders (this : t) (x : JsMap.t Order.t) : t :=
  mk (users this) (products this) (categories this) (articles this) x
  (orderItems this) (subscribers this) (contacts this) (settings this)
  (userId this) (productId this) (categoryId this) (articleId this)
  (orderId this) (orderItemId this) (subscriberId this) (contactId this)
  (settingId this).

Definition set_orderItems (this : t) (x : JsMap.t OrderItem.t) : t :=
  mk (users this) (products this) (categories this) (articles this)
  (orders this) x (subscribers this) (contacts this) (settings this)
  (userId this) (productId this) (categoryId this) (articleId this)
  (orderId this) (orderItemId this) (subscriberId this) (contactId this)
  (settingId this).

Definition set_subscribers (this : t) (x : JsMap.t Subscriber.t) : t :=
  mk (users this) (products this) (categories this) (articles this)
  (orders this) (orderItems this) x (contacts this) (settings this)
  (userId this) (productId this) (categoryId this) (articleId this)
  (orderId this) (orderItemId this) (subscriberId this) (contactId this)
  (settingId this).

Definition set_contacts (this : t) (x : JsMap.t Contact.t) : t :=
  mk (users this) (products this) (categories this) (articles this)
  (orders this) (orderItems this) (subscribers this) x (settings this)
  (userId this) (productId this) (categoryId this) (articleId this)
  (orderId this) (orderItemId this) (subscriberId this) (contactId this)
  (settingId this).

Definition set_settings (this : t) (x : JsMap.t Settings.t) : t :=
  mk (users this) (products this) (categories this) (articles this)
  (orders this) (orderItems this) (subscribers this) (contacts this) x
  (userId this) (productId this) (categoryId this) (articleId this)
  (orderId this) (orderItemId this) (subscriberId this) (contactId this)
  (settingId this).

Definition set_userId (this : t) (x : Z) : t :=
  mk (users this) (products this) (categories this) (articles this)
  (orders this) (orderItems this) (subscribers this) (contacts this)
  (settings this) x (productId this) (categoryId this) (articleId this)
  (orderId this) (orderItemId this) (subscriberId this) (contactId this)
  (settingId this).

Definition set_productId (this : t) (x : Z) : t :=
  mk (users this) (products this) (categories this) (articles this)
  (orders this) (orderItems this) (subscribers this) (contacts this)
  (settings this) (userId this) x (categoryId this) (articleId this)
  (orderId this) (orderItemId this) (subscriberId this) (contactId this)
  (settingId this).

Definition set_categoryId (this : t) (x : Z) : t :=
  mk (users this) (products this) (categories this) (articles this)
  (orders this) (orderItems this) (subscribers this) (contacts this)
  (settings this) (userId this) (productId this) x (articleId this)
  (orderId this) (orderItemId this) (subscriberId this) (contactId this)
  (settingId this).

Definition set_articleId (this : t) (x : Z) : t :=
  mk (users this) (products this) (categories this) (articles this)
  (orders this) (orderItems this) (subscribers this) (contacts this)
  (settings this) (userId this) (productId this) (categoryId this) x
  (orderId this) (orderItemId this) (subscriberId this) (contactId this)
  (settingId this).

Definition set_orderId (this : t) (x : Z) : t :=
  mk (users this) (products this) (categories this) (articles this)
  (orders this) (orderItems this) (subscribers this) (contacts this)
  (settings this) (userId this) (productId this) (categoryId this)
  (articleId this) x (orderItemId this) (subscriberId this) (contactId
  this) (settingId this).

Definition set_orderItemId (this : t) (x : Z) : t :=
  mk (users this) (products this) (categories this) (articles this)
  (orders this) (orderItems this) (subscribers this) (contacts this)
  (settings this) (userId this) (productId this) (categoryId this)
  (articleId this) (orderId this) x (subscriberId this) (contactId this)
  (settingId this).

Definition set_subscriberId (this : t) (x : Z) : t :=
  mk (users this) (products this) (categories this) (articles this)
  (orders this) (orderItems this) (subscribers this) (contacts this)
  (settings this) (userId this) (productId this) (categoryId this)
  (articleId this) (orderId this) (orderItemId this) x (contactId this)
  (settingId this).

Definition set_contactId (this : t) (x : Z) : t :=
  mk (users this) (products this) (categories this) (articles this)
  (orders this) (orderItems this) (subscribers this) (contacts this)
  (settings this) (userId this) (productId this) (categoryId this)
  (articleId this) (orderId this) (orderItemId this) (subscriberId this) x
  (settingId this).

Definition set_settingId (this : t) (x : Z) : t :=
  mk (users this) (products this) (categories this) (articles this)
  (orders this) (orderItems this) (subscribers this) (contacts this)
  (settings this) (userId this) (productId this) (categoryId this)
  (articleId this) (orderId this) (orderItemId this) (subscriberId this)
  (contactId this) x.

(** The fields set by the constructor before [initializeData]. *)
Definition fresh : t :=
  mk JsMap.empty JsMap.empty JsMap.empty JsMap.empty JsMap.empty
     JsMap.empty JsMap.empty JsMap.empty JsMap.empty
     1 1 1 1 1 1 1 1 1.

(** *** Users *)
Definition getUser (this : t) (id : Z) : option User.t :=
  JsMap.get (users this) id.

Definition getUserByUsername (this : t) (username : string)
  : option User.t :=
  find (fun user => String.eqb (User.username user) username)
       (JsMap.values (users this)).

Definition getUserByEmail (this : t) (email : string) : option User.t :=
  find (fun user => String.eqb (User.email user) email)
       (JsMap.values (users this)).

Definition createUser (this : t) (insertUser : InsertUser.t) (now : Date)
  : User.t * t :=
  let id := userId this in
  let this := set_userId this (id + 1) in
  let createdAt := now in
  let user :=
    User.mk id
      (InsertUser.username insertUser)
      (InsertUser.email insertUser)
      (InsertUser.password insertUser)
      (InsertUser.firstName insertUser)
      (InsertUser.lastName insertUser)
      (InsertUser.phone insertUser)
      (Some createdAt) in
  let this := set_users this (JsMap.set (users this) id user) in
  (user, this).

(** *** Products *)
Definition getProduct (this : t) (id : Z) : option Product.t :=
  JsMap.get (products this) id.

Definition getProducts (this : t) (options : option ProductOptions.t)
  : list Product.t :=
  let products := JsMap.values (products this) in
  let products :=
    match Js.truthy_string (Js.chain options ProductOptions.category) with
    | Some category =>
        filter (fun product => String.eqb (Product.category product) category)
               products
    | None => products
    end in
  let products :=
    match Js.chain options ProductOptions.featured with
    | Some featured =>
        filter (fun product =>
                  Js.nullable_bool_eqb (Product.isFeatured product) featured)
               products
    | None => products
    end in
  let offset := Js.num_or (Js.chain options ProductOptions.offset) 0 in
  let limit :=
    Js.num_or (Js.chain options ProductOptions.limit)
              (Z.of_nat (List.length products)) in
  Js.slice products offset (offset + limit).

Definition createProduct (this : t) (insertProduct : InsertProduct.t)
  (now : Date) : Product.t * t :=
  let id := productId this in
  let this := set_productId this (id + 1) in
  let createdAt := now in
  let product :=
    Product.mk id
      (InsertProduct.name insertProduct)
      (InsertProduct.description insertProduct)
      (InsertProduct.price insertProduct)
      (InsertProduct.discountPrice insertProduct)
      (InsertProduct.images insertProduct)
      (InsertProduct.category insertProduct)
      (Some (Js.nullish (InsertProduct.inStock insertProduct) true))
      (Some (Js.nullish (InsertProduct.isFeatured insertProduct) false))
      (Some (Js.nullish (InsertProduct.isLimited insertProduct) false))
      (InsertProduct.limitedCount insertProduct)
      (InsertProduct.sustainableMaterials insertProduct)
      (InsertProduct.madeIn insertProduct)
      (Some createdAt) in
  let this := set_products this (JsMap.set (products this) id product) in
  (product, this).

(** [{ ...existingProduct, ...product }]: every property of the payload
    replaces the property of the stored product, [id] and [createdAt]
    included when the payload carries them. *)
Definition mergeProduct (existingProduct : Product.t)
  (product : ProductPayload.t) : Product.t :=
  let fields := ProductPayload.fields product in
  Product.mk
    (Js.spread (Product.id existingProduct) (ProductPayload.id product))
    (Js.spread (Product.name existingProduct)
               (PartialInsertProduct.name fields))
    (Js.spread (Product.description existingProduct)
               (PartialInsertProduct.description fields))
    (Js.spread (Product.price existingProduct)
               (PartialInsertProduct.price fields))
    (Js.spread (Product.discountPrice existingProduct)
               (PartialInsertProduct.discountPrice fields))
    (Js.spread (Product.images existingProduct)
               (PartialInsertProduct.images fields))
    (Js.spread (Product.category existingProduct)
               (PartialInsertProduct.category fields))
    (Js.spread (Product.inStock existingProduct)
               (PartialInsertProduct.inStock fields))
    (Js.spread (Product.isFeatured existingProduct)
               (PartialInsertProduct.isFeatured fields))
    (Js.spread (Product.isLimited existingProduct)
               (PartialInsertProduct.isLimited fields))
    (Js.spread (Product.limitedCount existingProduct)
               (PartialInsertProduct.limitedCount fields))
    (Js.spread (Product.sustainableMaterials existingProduct)
               (PartialInsertProduct.sustainableMaterials fields))
    (Js.spread (Product.madeIn existingProduct)
               (PartialInsertProduct.madeIn fields))
    (Js.spread (Product.createdAt existingProduct)
               (ProductPayload.createdAt product)).

Definition updateProduct (this : t) (id : Z)
  (product : ProductPayload.t) : option Product.t * t :=
  match JsMap.get (products this) id with
  | None => (None, this)
  | Some existingProduct =>
      let updatedProduct := mergeProduct existingProduct product in
      let this :=
        set_products this (JsMap.set (products this) id updatedProduct) in
      (Some updatedProduct, this)
  end.

Definition deleteProduct (this : t) (id : Z) : bool * t :=
  let exists_ := JsMap.has (products this) id in
  if exists_
  then (true, set_products this (JsMap.delete (products this) id))
  else (false, this).

(** *** Categories *)
Definition getCategories (this : t) : list Category.t :=
  JsMap.values (categories this).

Definition getCategoryBySlug (this : t) (slug : string)
  : option Category.t :=
  find (fun category => String.eqb (Category.slug category) slug)
       (JsMap.values (categories this)).

Definition createCategory (this : t) (insertCategory : InsertCategory.t)
  : Category.t * t :=
  let id := categoryId this in
  let this := set_categoryId this (id + 1) in
  let category :=
    Category.mk id
      (InsertCategory.name insertCategory)
      (InsertCategory.slug insertCategory) in
  let this := set_categories this (JsMap.set (categories this) id category) in
  (category, this).


Definition getArticleBySlug (this : t) (slug : string) : option Article.t :=
  find (fun article => String.eqb (Article.slug article) slug)
       (JsMap.values (articles this)).

Definition getArticles (this : t) (options : option ArticleOptions.t)
  : list Article.t :=
  let articles := JsMap.values (articles this) in
  let articles :=
    match Js.truthy_string (Js.chain options ArticleOptions.category) with
    | Some category =>
        filter (fun article =>
                  Js.nullable_eqb (Article.category article) category)
               articles
    | None => articles
    end in
  let offset := Js.num_or (Js.chain options ArticleOptions.offset) 0 in
  let limit :=
    Js.num_or (Js.chain options ArticleOptions.limit)
              (Z.of_nat (List.length articles)) in
  Js.slice articles offset (offset + limit).

Definition createArticle (this : t) (insertArticle : InsertArticle.t)
  (now : Date) : Article.t * t :=
  let id := articleId this in
  let this := set_articleId this (id + 1) in
  let createdAt := now in
  let article :=
    Article.mk id
      (InsertArticle.title insertArticle)
      (InsertArticle.slug insertArticle)
      (InsertArticle.content insertArticle)
      (InsertArticle.excerpt insertArticle)
      (InsertArticle.coverImage insertArticle)
      (InsertArticle.category insertArticle)
      (Some createdAt) in
  let this := set_articles this (JsMap.set (articles this) id article) in
  (article, this).

(** *** Orders *)
Definition getOrder (this : t) (id : Z) : option Order.t :=
  JsMap.get (orders this) id.

Definition getUserOrders (this : t) (userId : Z) : list Order.t :=
  filter (fun order => Js.nullable_num_eqb (Order.userId order) userId)
         (JsMap.values (orders this)).

Definition createOrder (this : t) (insertOrder : InsertOrder.t) (now : Date)
  : Order.t * t :=
  let id := orderId this in
  let this := set_orderId this (id + 1) in
  let createdAt := now in
  let order :=
    Order.mk id
      (InsertOrder.userId insertOrder)
      (InsertOrder.status insertOrder)
      (InsertOrder.total insertOrder)
      (InsertOrder.shippingAddress insertOrder)
      (InsertOrder.billingAddress insertOrder)
      (InsertOrder.paymentMethod insertOrder)
      (InsertOrder.paymentStatus insertOrder)
      (Some createdAt) in
  let this := set_orders this (JsMap.set (orders this) id order) in
  (order, this).

Definition updateOrderStatus (this : t) (id : Z) (status : string)
  : option Order.t * t :=
  match JsMap.get (orders this) id with
  | None => (None, this)
  | Some order =>
      let updatedOrder :=
        Order.mk (Order.id order) (Order.userId order) status
          (Order.total order) (Order.shippingAddress order)
          (Order.billingAddress order) (Order.paymentMethod order)
          (Order.paymentStatus order) (Order.createdAt order) in
      let this := set_orders this (JsMap.set (orders this) id updatedOrder) in
      (Some updatedOrder, this)
  end.

(** *** Order items *)
Definition getOrderItems (this : t) (orderId : Z) : list OrderItem.t :=
  filter (fun item => OrderItem.orderId item =? orderId)
         (JsMap.values (orderItems this)).

Definition createOrderItem (this : t) (insertOrderItem : InsertOrderItem.t)
  : OrderItem.t * t :=
  let id := orderItemId this in
  let this := set_orderItemId this (id + 1) in
  let orderItem :=
    OrderItem.mk id
      (InsertOrderItem.orderId insertOrderItem)
      (InsertOrderItem.productId insertOrderItem)
      (InsertOrderItem.quantity insertOrderItem)
      (InsertOrderItem.price insertOrderItem) in
  let this := set_orderItems this (JsMap.set (orderItems this) id orderItem) in
  (orderItem, this).

(** *** Subscribers *)
Definition getSubscribers (this : t) : list Subscriber.t :=
  JsMap.values (subscribers this).

Definition getSubscriberByEmail (this : t) (email : string)
  : option Subscriber.t :=
  find (fun subscriber => String.eqb (Subscriber.email subscriber) email)
       (JsMap.values (subscribers this)).

Definition createSubscriber (this : t)
  (insertSubscriber : InsertSubscriber.t) (now : Date) : Subscriber.t * t :=
  let id := subscriberId this in
  let this := set_subscriberId this (id + 1) in
  let createdAt := now in
  let subscriber :=
    Subscriber.mk id (InsertSubscriber.email insertSubscriber)
      (Some createdAt) in
  let this :=
    set_subscribers this (JsMap.set (subscribers this) id subscriber) in
  (subscriber, this).

(** *** Contacts *)
Definition createContact (this : t) (insertContact : InsertContact.t)
  (now : Date) : Contact.t * t :=
  let id := contactId this in
  let this := set_contactId this (id + 1) in
  let createdAt := now in
  let contact :=
    Contact.mk id
      (InsertContact.name insertContact)
      (InsertContact.email insertContact)
      (InsertContact.subject insertContact)
      (InsertContact.message insertContact)
      (Some createdAt) in
  let this := set_contacts this (JsMap.set (contacts this) id contact) in
  (contact, this).

(** *** Settings *)

(** [getSettings] sorts with [String.prototype.localeCompare], whose
    collation belongs to the host: it is a parameter here. *)
Definition getSettings (localeCompare : string -> string -> Z) (this : t)
  (category : option string) : list Settings.t :=
  let settings := JsMap.values (settings this) in
  let settings :=
    match Js.truthy_string category with
    | Some category =>
        filter (fun setting => String.eqb (Settings.category setting) category)
               settings
    | None => settings
    end in
  Js.sort (fun a b => localeCompare (Settings.key a) (Settings.key b))
          settings.

Definition getSettingByKey (this : t) (key : string) : option Settings.t :=
  find (fun setting => String.eqb (Settings.key setting) key)
       (JsMap.values (settings this)).

(** [createSetting] reads the clock twice. *)
Definition createSetting (this : t) (insertSetting : InsertSettings.t)
  (now now' : Date) : Settings.t * t :=
  let id := settingId this in
  let this := set_settingId this (id + 1) in
  let createdAt := now in
  let updatedAt := now' in
  let setting :=
    Settings.mk id
      (InsertSettings.key insertSetting)
      (InsertSettings.value insertSetting)
      (Js.nullish (InsertSettings.category insertSetting) "general")
      (InsertSettings.description insertSetting)
      (Some createdAt)
      (Some updatedAt) in
  let this := set_settings this (JsMap.set (settings this) id setting) in
  (setting, this).

(** [{ ...setting, ...settingData, updatedAt }].  Every caller builds
    [settingData] itself, as the object literal [{ key, value, category,
    description }] or as the output of [insertSettingsSchema.parse], so
    the payload carries these four properties and no other. *)
Definition mergeSetting (setting : Settings.t)
  (settingData : PartialInsertSettings.t) (updatedAt : Date) : Settings.t :=
  Settings.mk
    (Settings.id setting)
    (Js.spread (Settings.key setting) (PartialInsertSettings.key settingData))
    (Js.spread (Settings.value setting)
               (PartialInsertSettings.value settingData))
    (Js.spread (Settings.category setting)
               (PartialInsertSettings.category settingData))
    (Js.spread (Settings.description setting)
               (PartialInsertSettings.description settingData))
    (Settings.createdAt setting)
    (Some updatedAt).

Definition updateSetting (this : t) (id : Z)
  (settingData : PartialInsertSettings.t) (now : Date)
  : option Settings.t * t :=
  match JsMap.get (settings this) id with
  | None => (None, this)
  | Some setting =>
      let updatedAt := now in
      let updatedSetting := mergeSetting setting settingData updatedAt in
      let this :=
        set_settings this (JsMap.set (settings this) id updatedSetting) in
      (Some updatedSetting, this)
  end.

Definition deleteSetting (this : t) (id : Z) : bool * t :=
  let exists_ := JsMap.has (settings this) id in
  if exists_
  then (true, set_settings this (JsMap.delete (settings this) id))
  else (false, this).

(** *** The constructor

    [initializeData] seeds the store through the create operations; the
    [n]-th read of the clock during construction is [clock n]. *)
Definition initializeData (clock : nat -> Date) (this : t) : t :=
  let swimwear := InsertCategory.mk "Swimwear" "swimwear" in
  let this := snd (createCategory this swimwear) in
  let resort := InsertCategory.mk "Resort Wear" "resort-wear" in
  let this := snd (createCategory this resort) in
  let accessories := InsertCategory.mk "Accessories" "accessories" in
  let this := snd (createCategory this accessories) in
  let jewelry := InsertCategory.mk "Sustainable Jewelry" "jewelry" in
  let this := snd (createCategory this jewelry) in
  let homewear := InsertCategory.mk "Home Collection" "home-collection" in
  let this := snd (createCategory this homewear) in
  let comingSoon := InsertCategory.mk "Coming Soon" "coming-soon" in
  let this := snd (createCategory this comingSoon) in
  let product1 :=
    InsertProduct.mk
      "Coral Reef One-Piece"
      "Made from recycled nylon, this luxurious one-piece swimsuit features a stunning coral-inspired design and offers excellent support."
      250 None
      (Some ["https://images.unsplash.com/photo-1570900649218-2d1a3508ee65?ixlib=rb-4.0.3&ixid=M3wxMjA3fDB8MHxwaG90by1wYWdlfHx8fGVufDB8fHx8fA%3D%3D&auto=format&fit=crop&w=736&q=80"])
      "swimwear" (Some true) (Some true) (Some true) (Some 50)
      (Some ["Recycled Nylon"]) (Some "India") in
  let this := snd (createProduct this product1 (clock 0%nat)) in
  let product2 :=
    InsertProduct.mk
      "Amalfi Halter Bikini"
      "This elegant halter bikini is crafted from Econyl® regenerated nylon, offering both sustainability and timeless style."
      225 None
      (Some ["https://images.unsplash.com/photo-1574177556859-1362f72ed6f9?ixlib=rb-4.0.3&ixid=M3wxMjA3fDB8MHxwaG90by1wYWdlfHx8fGVufDB8fHx8fA%3D%3D&auto=format&fit=crop&w=765&q=80"])
      "swimwear" (Some true) (Some true) (Some true) (Some 35)
      (Some ["Econyl®"]) (Some "Italy") in
  let this := snd (createProduct this product2 (clock 1%nat)) in
  let product3 :=
    InsertProduct.mk
      "Jaipur Bandeau Set"
      "A stunning bandeau bikini set inspired by the colors of Jaipur, made with sustainable linen blend fabric."
      275 None
      (Some ["https://images.unsplash.com/photo-1625039217876-334db65a549a?ixlib=rb-4.0.3&ixid=M3wxMjA3fDB8MHxwaG90by1wYWdlfHx8fGVufDB8fHx8fA%3D%3D&auto=format&fit=crop&w=687&q=80"])
      "swimwear" (Some true) (Some true) (Some false) None
      (Some ["Sustainable Linen Blend"]) (Some "India") in
  let this := snd (createProduct this product3 (clock 2%nat)) in
  let product4 :=
    InsertProduct.mk
      "Kerala Linen Maxi Dress"
      "An elegant flowing maxi dress made from 100% organic linen, perfect for warm evenings by the sea."
      385 None
      (Some ["https://images.unsplash.com/photo-1600102587914-39f3a4a48266?ixlib=rb-4.0.3&ixid=M3wxMjA3fDB8MHxwaG90by1wYWdlfHx8fGVufDB8fHx8fA%3D%3D&auto=format&fit=crop&w=687&q=80"])
      "resort-wear" (Some true) (Some true) (Some false) None
      (Some ["Organic Linen"]) (Some "India") in
  let this := snd (createProduct this product4 (clock 3%nat)) in
  let product5 :=
    InsertProduct.mk
      "Mumbai Silk Kaftan"
      "A luxurious peace silk kaftan with hand-painted motifs inspired by Mumbai's coastal landscapes."
      420 None
      (Some ["https://images.unsplash.com/photo-1562137369-1a1a0bc66744?ixlib=rb-4.0.3&ixid=M3wxMjA3fDB8MHxwaG90by1wYWdlfHx8fGVufDB8fHx8fA%3D%3D&auto=format&fit=crop&w=1470&q=80"])
      "resort-wear" (Some true) (Some false) (Some true) (Some 25)
      (Some ["Peace Silk"]) (Some "India") in
  let this := snd (createProduct this product5 (clock 4%nat)) in
  let product6 :=
    InsertProduct.mk
      "Rajasthan Woven Tote"
      "Handcrafted tote bag made from recycled cotton and traditional Rajasthani weaving techniques."
      180 None
      (Some ["https://images.unsplash.com/photo-1590874103328-eac38a683ce7?ixlib=rb-4.0.3&ixid=M3wxMjA3fDB8MHxwaG90by1wYWdlfHx8fGVufDB8fHx8fA%3D%3D&auto=format&fit=crop&w=876&q=80"])
      "accessories" (Some true) (Some true) (Some false) None
      (Some ["Recycled Cotton"]) (Some "India") in
  let this := snd (createProduct this product6 (clock 5%nat)) in
  let product7 :=
    InsertProduct.mk
      "Bombay Sun Hat"
      "A wide-brimmed sun hat woven from sustainably harvested palm leaves, offering stylish protection from the sun."
      135 None
      (Some ["https://images.unsplash.com/photo-1575428652377-a2d80e2277fc?ixlib=rb-4.0.3&ixid=M3wxMjA3fDB8MHxwaG90by1wYWdlfHx8fGVufDB8fHx8fA%3D%3D&auto=format&fit=crop&w=1470&q=80"])
      "accessories" (Some true) (Some false) (Some false) None
      (Some ["Natural Palm"]) (Some "India") in
  let this := snd (createProduct this product7 (clock 6%nat)) in
  let product8 :=
    InsertProduct.mk
      "Ocean Wave Earrings"
      "Delicate silver earrings crafted from recycled sterling silver, inspired by the waves of the Arabian Sea."
      165 None
      (Some ["https://images.unsplash.com/photo-1630019852942-f87a2bdad8c9?ixlib=rb-4.0.3&ixid=M3wxMjA3fDB8MHxwaG90by1wYWdlfHx8fGVufDB8fHx8fA%3D%3D&auto=format&fit=crop&w=687&q=80"])
      "jewelry" (Some true) (Some true) (Some true) (Some 30)
      (Some ["Recycled Silver"]) (Some "India") in
  let this := snd (createProduct this product8 (clock 7%nat)) in
  let product9 :=
    InsertProduct.mk
      "Lotus Pendant Necklace"
      "A beautiful lotus-inspired pendant made from ethical gold, symbolizing purity and sustainability."
      210 None
      (Some ["https://images.unsplash.com/photo-1599643478518-a784e5dc4c8f?ixlib=rb-4.0.3&ixid=M3wxMjA3fDB8MHxwaG90by1wYWdlfHx8fGVufDB8fHx8fA%3D%3D&auto=format&fit=crop&w=687&q=80"])
      "jewelry" (Some true) (Some true) (Some false) None
      (Some ["Ethical Gold"]) (Some "India") in
  let this := snd (createProduct this product9 (clock 8%nat)) in
  let product10 :=
    InsertProduct.mk
      "Organic Cotton Throw"
      "A luxurious organic cotton throw with hand-block printed designs, perfect for adding sustainable elegance to your home."
      195 None
      (Some ["https://images.unsplash.com/photo-1617004887317-5ca23b82d1b3?ixlib=rb-4.0.3&ixid=M3wxMjA3fDB8MHxwaG90by1wYWdlfHx8fGVufDB8fHx8fA%3D%3D&auto=format&fit=crop&w=1470&q=80"])
      "home-collection" (Some true) (Some true) (Some false) None
      (Some ["Organic Cotton"]) (Some "India") in
  let this := snd (createProduct this product10 (clock 9%nat)) in
  let product11 :=
    InsertProduct.mk
      "Coconut Wax Candle Set"
      "Set of three coconut wax candles with essential oil fragrances inspired by Indian botanicals, in recycled brass containers."
      120 None
      (Some ["https://images.unsplash.com/photo-1588372405219-e40d64efafcb?ixlib=rb-4.0.3&ixid=M3wxMjA3fDB8MHxwaG90by1wYWdlfHx8fGVufDB8fHx8fA%3D%3D&auto=format&fit=crop&w=688&q=80"])
      "home-collection" (Some true) (Some false) (Some true) (Some 40)
      (Some ["Coconut Wax"; "Recycled Brass"]) (Some "India") in
  let this := snd (createProduct this product11 (clock 10%nat)) in
  let article1 :=
    InsertArticle.mk
      "The Making of Sustainable Fabrics"
      "making-of-sustainable-fabrics"
      "Discover how we transform renewable resources into luxurious fabrics while minimizing environmental impact..."
      (Some "Discover how we transform renewable resources into luxurious fabrics while minimizing environmental impact.")
      (Some "https://images.unsplash.com/photo-1503664974816-7691ca85b22f?ixlib=rb-4.0.3&ixid=M3wxMjA3fDB8MHxwaG90by1wYWdlfHx8fGVufDB8fHx8fA%3D%3D&auto=format&fit=crop&w=687&q=80")
      (Some "sustainability") in
  let this := snd (createArticle this article1 (clock 11%nat)) in
  let article2 :=
    InsertArticle.mk
      "kharidifyWomen: Aditi Rao Hydari"
      "shahu-women-aditi-rao-hydari"
      "A conversation with the acclaimed actress about sustainability, style, and the power of conscious choices..."
      (Some "A conversation with the acclaimed actress about sustainability, style, and the power of conscious choices.")
      (Some "https://images.unsplash.com/photo-1529626455594-4ff0802cfb7e?ixlib=rb-4.0.3&ixid=M3wxMjA3fDB8MHxwaG90by1wYWdlfHx8fGVufDB8fHx8fA%3D%3D&auto=format&fit=crop&w=687&q=80")
      (Some "shahu-women") in
  let this := snd (createArticle this article2 (clock 12%nat)) in
  let article3 :=
    InsertArticle.mk
      "Cultural Inspirations: Mumbai to Jaipur"
      "cultural-inspirations-mumbai-to-jaipur"
      "Exploring the rich textile traditions and architectural motifs that influence our design philosophy..."
      (Some "Exploring the rich textile traditions and architectural motifs that influence our design philosophy.")
      (Some "https://images.unsplash.com/photo-1596547615875-bced1ffb5c6b?ixlib=rb-4.0.3&ixid=M3wxMjA3fDB8MHxwaG90by1wYWdlfHx8fGVufDB8fHx8fA%3D%3D&auto=format&fit=crop&w=733&q=80")
      (Some "inspiration") in
  let this := snd (createArticle this article3 (clock 13%nat)) in
  this.

(** [new MemStorage()] *)
Definition new (clock : nat -> Date) : t :=
  initializeData clock fresh.

(** *** Calls of the [IStorage] interface

    One constructor per method of [IStorage], with the clock readings of
    the methods that call [new Date()]; [run] is the store after the call. *)
Inductive Call :=
| GetUser (id : Z)
| GetUserByUsername (username : string)
| GetUserByEmail (email : string)
| CreateUser (user : InsertUser.t) (now : Date)
| GetProduct (id : Z)
| GetProducts (options : option ProductOptions.t)
| CreateProduct (product : InsertProduct.t) (now : Date)
| UpdateProduct (id : Z) (product : ProductPayload.t)
| DeleteProduct (id : Z)
| GetCategories
| GetCategoryBySlug (slug : string)
| CreateCategory (category : InsertCategory.t)
| GetArticle (id : Z)
| GetArticleBySlug (slug : string)
| GetArticles (options : option ArticleOptions.t)
| CreateArticle (article : InsertArticle.t) (now : Date)
| GetOrder (id : Z)
| GetUserOrders (userId : Z)
| CreateOrder (order : InsertOrder.t) (now : Date)
| UpdateOrderStatus (id : Z) (status : string)
| GetOrderItems (orderId : Z)
| CreateOrderItem (orderItem : InsertOrderItem.t)
| GetSubscribers
| GetSubscriberByEmail (email : string)
| CreateSubscriber (subscriber : InsertSubscriber.t) (now : Date)
| CreateContact (contact : InsertContact.t) (now : Date)
| GetSettings (category : option string)
| GetSettingByKey (key : string)
| CreateSetting (setting : InsertSettings.t) (now now' : Date)
| UpdateSetting (id : Z) (setting : PartialInsertSettings.t) (now : Date)
| DeleteSetting (id : Z).

Definition run (c : Call) (this : t) : t :=
  match c with
  | CreateUser user now => snd (createUser this user now)
  | CreateProduct product now => snd (createProduct this product now)
  | UpdateProduct id product => snd (updateProduct this id product)
  | DeleteProduct id => snd (deleteProduct this id)
  | CreateCategory category => snd (createCategory this category)
  | CreateArticle article now => snd (createArticle this article now)
  | CreateOrder order now => snd (createOrder this order now)
  | UpdateOrderStatus id status => snd (updateOrderStatus this id status)
  | CreateOrderItem orderItem => snd (createOrderItem this orderItem)
  | CreateSubscriber subscriber now =>
      snd (createSubscriber this subscriber now)
  | CreateContact contact now => snd (createContact this contact now)
  | CreateSetting setting now now' =>
      snd (createSetting this setting now now')
  | UpdateSetting id setting now => snd (updateSetting this id setting now)
  | DeleteSetting id => snd (deleteSetting this id)
  | GetUser _ | GetUserByUsername _ | GetUserByEmail _ | GetProduct _
  | GetProducts _ | GetCategories | GetCategoryBySlug _ | GetArticle _
  | GetArticleBySlug _ | GetArticles _ | GetOrder _ | GetUserOrders _
  | GetOrderItems _ | GetSubscribers | GetSubscriberByEmail _
  | GetSettings _ | GetSettingByKey _ => this
  end.

(** The store after a sequence of calls, first call first. *)
Definition runs (cs : list Call) (this : t) : t :=
  fold_left (fun st c => run c st) cs this.

(** The states of a store: a constructed store, then any calls. *)
Inductive reachable : t -> Prop :=
| reachable_new (clock : nat -> Date) : reachable (new clock)
| reachable_run (c : Call) (this : t) :
    reachable this -> reachable (run c this).

(** *** The nine entity kinds, their counters and their mappings *)
Inductive Kind :=
| KUser | KProduct | KCategory | KArticle | KOrder | KOrderItem
| KSubscriber | KContact | KSettings.

Definition counter (k : Kind) (this : t) : Z :=
  match k with
  | KUser => userId this
  | KProduct => productId this
  | KCategory => categoryId this
  | KArticle => articleId this
  | KOrder => orderId this
  | KOrderItem => orderItemId this
  | KSubscriber => subscriberId this
  | KContact => contactId this
  | KSettings => settingId this
  end.

(** The entries of a kind's mapping as pairs of the key and of the [id]
    field of the entity stored under it. *)
Definition entries (k : Kind) (this : t) : list (Z * Z) :=
  match k with
  | KUser => map (fun kv => (fst kv, User.id (snd kv))) (users this)
  | KProduct => map (fun kv => (fst kv, Product.id (snd kv))) (products this)
  | KCategory =>
      map (fun kv => (fst kv, Category.id (snd kv))) (categories this)
  | KArticle => map (fun kv => (fst kv, Article.id (snd kv))) (articles this)
  | KOrder => map (fun kv => (fst kv, Order.id (snd kv))) (orders this)
  | KOrderItem =>
      map (fun kv => (fst kv, OrderItem.id (snd kv))) (orderItems this)
  | KSubscriber =>
      map (fun kv => (fst kv, Subscriber.id (snd kv))) (subscribers this)
  | KContact => map (fun kv => (fst kv, Contact.id (snd kv))) (contacts this)
  | KSettings =>
      map (fun kv => (fst kv, Settings.id (snd kv))) (settings this)
  end.


End MemStorage.

(** ** The query builder and the database behind [DatabaseStorage]

    [drizzle-orm] and PostgreSQL are not part of the repository.  This is the
    fragment [DatabaseStorage.ts] uses: a [select] is the record of the
    clauses the builder has received, [execute] reads it the way SQL does
    (WHERE, ORDER BY, OFFSET, LIMIT), and a table is the list of its rows.
    A statement that fails is [None]: the builder refuses an update with
    nothing to set, and the engine a negative OFFSET or an update that
    breaks a primary key.  The connection itself never fails here. *)
Module Sql.

Inductive Value :=
| Null
| Num (n : Z)
| Text (s : string)
| Boolean (b : bool)
| Timestamp (d : Date).

Definition nullable {A : Type} (inj : A -> Value) (x : option A) : Value :=
  match x with
  | Some v => inj v
  | None => Null
  end.

(** [a = b] in a WHERE clause: not satisfied when either side is NULL. *)
Definition value_eqb (a b : Value) : bool :=
  match a, b with
  | Num x, Num y => x =? y
  | Text x, Text y => String.eqb x y
  | Boolean x, Boolean y => Bool.eqb x y
  | Timestamp x, Timestamp y => x =? y
  | _, _ => false
  end.

(** The order of ORDER BY: NULL sorts as larger than every value, text by
    the collation of the database. *)
Definition value_compare (collate : string -> string -> Z) (a b : Value)
  : Z :=
  match a, b with
  | Null, Null => 0
  | Null, _ => 1
  | _, Null => -1
  | Num x, Num y => x - y
  | Timestamp x, Timestamp y => x - y
  | Text x, Text y => collate x y
  | Boolean x, Boolean y => Z.b2z x - Z.b2z y
  | _, _ => 0
  end.

Section Query.
Context {Column : Type}.

(** [eq(column, value)] *)
Record Condition := eq { eq_column : Column; eq_value : Value }.

(** [asc(column)] and [desc(column)] *)
Inductive Ordering :=
| asc (c : Column)
| desc (c : Column).

(** The clauses of a [select]: [whereClause] holds the conditions joined
    by [and(...)]. *)
Record Select := mkSelect {
  whereClause : option (list Condition);
  limitClause : option Z;
  offsetClause : option Z;
  orderByClause : option Ordering
}.

(** [db.select().from(table)] *)
Definition select_from : Select := mkSelect None None None None.

Definition where_ (q : Select) (conds : list Condition) : Select :=
  mkSelect (Some conds) (limitClause q) (offsetClause q) (orderByClause q).

Definition limit (q : Select) (n : Z) : Select :=
  mkSelect (whereClause q) (Some n) (offsetClause q) (orderByClause q).

Definition offset (q : Select) (n : Z) : Select :=
  mkSelect (whereClause q) (limitClause q) (Some n) (orderByClause q).

Definition orderBy (q : Select) (o : Ordering) : Select :=
  mkSelect (whereClause q) (limitClause q) (offsetClause q) (Some o).

Section Execute.
Context {Row : Type} (cell : Row -> Column -> Value)
        (collate : string -> string -> Z).

Definition holds (r : Row) (c : Condition) : bool :=
  value_eqb (cell r (eq_column c)) (eq_value c).

Definition matches (conds : list Condition) (r : Row) : bool :=
  forallb (holds r) conds.

Definition ordering_compare (o : Ordering) (a b : Row) : Z :=
  match o with
  | asc c => value_compare collate (cell a c) (cell b c)
  | desc c => value_compare collate (cell b c) (cell a c)
  end.

Definition negative (x : option Z) : bool :=
  match x with
  | Some n => n <? 0
  | None => false
  end.

(** The LIMIT of the statement: the builder writes the clause for a limit
    that is not negative and leaves it out otherwise. *)
Definition limitSql (limit : option Z) : option Z :=
  match limit with
  | Some n => if 0 <=? n then Some n else None
  | None => None
  end.

(** [await query].  The engine rejects a negative OFFSET. *)
Definition execute (rows : list Row) (q : Select) : option (list Row) :=
  if negative (offsetClause q) then None
  else
    let rows :=
      match whereClause q with
      | Some conds => filter (matches conds) rows
      | None => rows
      end in
    let rows :=
      match orderByClause q with
      | Some o => Js.sort (ordering_compare o) rows
      | None => rows
      end in
    let rows :=
      match offsetClause q with
      | Some n => skipn (Z.to_nat n) rows
      | None => rows
      end in
    let rows :=
      match limitSql (limitClause q) with
      | Some n => firstn (Z.to_nat n) rows
      | None => rows
      end in
    Some rows.

(** [db.delete(table).where(and(...conds))] *)
Definition delete_where (rows : list Row) (conds : list Condition)
  : list Row :=
  filter (fun r => negb (matches conds r)) rows.

(** [db.update(table).set(values).where(and(...conds)).returning()]:
    the table after the update and the updated rows.  [assign] is what
    [values] does to a row, and [None] for an object without a property:
    the builder then throws (there are no values to set) and no statement
    reaches the database. *)
Definition update_where (rows : list Row) (assign : option (Row -> Row))
  (conds : list Condition) : option (list Row * list Row) :=
  match assign with
  | None => None
  | Some assign =>
      Some (map (fun r => if matches conds r then assign r else r) rows,
            map assign (filter (matches conds) rows))
  end.
End Execute.
End Query.

(** A primary key: no two rows of the table have the same value. *)
Fixpoint distinct (keys : list Z) : bool :=
  match keys with
  | [] => true
  | k :: keys => negb (existsb (Z.eqb k) keys) && distinct keys
  end.
Arguments Condition : clear implicits.
Arguments Ordering : clear implicits.
Arguments Select : clear implicits.

End Sql.

(** ** [DatabaseStorage]: the relational backend of
       [server/DatabaseStorage.ts] *)
Module DatabaseStorage.

(** The tables of [db] that the modelled operations touch. *)
Record t := mk {
  products : list Product.t;
  articles : list Article.t;
  settings : list Settings.t
}.

(** The columns [DatabaseStorage.ts] names in its queries. *)
Inductive ProductColumn :=
| products_id | products_category | products_isFeatured
| products_createdAt.

Inductive ArticleColumn :=
| articles_id | articles_slug | articles_category | articles_createdAt.

Inductive SettingsColumn :=
| settings_id | settings_key | settings_category.

Definition productCell (r : Product.t) (c : ProductColumn) : Sql.Value :=
  match c with
  | products_id => Sql.Num (Product.id r)
  | products_category => Sql.Text (Product.category r)
  | products_isFeatured => Sql.nullable Sql.Boolean (Product.isFeatured r)
  | products_createdAt => Sql.nullable Sql.Timestamp (Product.createdAt r)
  end.

Definition articleCell (r : Article.t) (c : ArticleColumn) : Sql.Value :=
  match c with
  | articles_id => Sql.Num (Article.id r)
  | articles_slug => Sql.Text (Article.slug r)
  | articles_category => Sql.nullable Sql.Text (Article.category r)
  | articles_createdAt => Sql.nullable Sql.Timestamp (Article.createdAt r)
  end.

Definition settingsCell (r : Settings.t) (c : SettingsColumn) : Sql.Value :=
  match c with
  | settings_id => Sql.Num (Settings.id r)
  | settings_key => Sql.Text (Settings.key r)
  | settings_category => Sql.Text (Settings.category r)
  end.

(** *** Products *)
Definition getProductsQuery (options : option ProductOptions.t)
  : Sql.Select ProductColumn :=
  let query := Sql.select_from in
  let filters := [] in
  let filters :=
    match Js.truthy_string (Js.chain options ProductOptions.category) with
    | Some category =>
        filters ++ [Sql.eq products_category (Sql.Text category)]
    | None => filters
    end in
  let filters :=
    match Js.chain options ProductOptions.featured with
    | Some featured =>
        filters ++ [Sql.eq products_isFeatured (Sql.Boolean featured)]
    | None => filters
    end in
  let query :=
    if (0 <? List.length filters)%nat then Sql.where_ query filters
    else query in
  let query :=
    match Js.truthy_num (Js.chain options ProductOptions.limit) with
    | Some limit => Sql.limit query limit
    | None => query
    end in
  let query :=
    match Js.truthy_num (Js.chain options ProductOptions.offset) with
    | Some offset => Sql.offset query offset
    | None => query
    end in
  Sql.orderBy query (Sql.desc products_createdAt).

Definition getProducts (collate : string -> string -> Z) (db : t)
  (options : option ProductOptions.t) : option (list Product.t) :=
  Sql.execute productCell collate (products db) (getProductsQuery options).

Definition deleteProduct (db : t) (id : Z) : bool * t :=
  let db :=
    mk (Sql.delete_where productCell (products db)
          [Sql.eq products_id (Sql.Num id)])
       (articles db) (settings db) in
  (true, db).

(** *** Articles *)
Definition getArticlesQuery (options : option ArticleOptions.t)
  : Sql.Select ArticleColumn :=
  let query := Sql.select_from in
  let query :=
    match Js.truthy_string (Js.chain options ArticleOptions.category) with
    | Some category =>
        Sql.where_ query [Sql.eq articles_category (Sql.Text category)]
    | None => query
    end in
  let query :=
    match Js.truthy_num (Js.chain options ArticleOptions.limit) with
    | Some limit => Sql.limit query limit
    | None => query
    end in
  let query :=
    match Js.truthy_num (Js.chain options ArticleOptions.offset) with
    | Some offset => Sql.offset query offset
    | None => query
    end in
  Sql.orderBy query (Sql.desc articles_createdAt).

Definition getArticles (collate : string -> string -> Z) (db : t)
  (options : option ArticleOptions.t) : option (list Article.t) :=
  Sql.execute articleCell collate (articles db) (getArticlesQuery options).

(** *** Settings *)
Definition getSettingsQuery (category : option string)
  : Sql.Select SettingsColumn :=
  let query := Sql.select_from in
  let query :=
    match Js.truthy_string category with
    | Some category =>
        Sql.where_ query [Sql.eq settings_category (Sql.Text category)]
    | None => query
    end in
  Sql.orderBy query (Sql.asc settings_key).

Definition getSettings (collate : string -> string -> Z) (db : t)
  (category : option string) : option (list Settings.t) :=
  Sql.execute settingsCell collate (settings db) (getSettingsQuery category).

(** [.set(setting)]: the columns of the payload are assigned, the other
    columns of the row keep their values. *)
Definition setSetting (setting : PartialInsertSettings.t)
  (row : Settings.t) : Settings.t :=
  Settings.mk
    (Settings.id row)
    (Js.spread (Settings.key row) (PartialInsertSettings.key setting))
    (Js.spread (Settings.value row) (PartialInsertSettings.value setting))
    (Js.spread (Settings.category row)
               (PartialInsertSettings.category setting))
    (Js.spread (Settings.description row)
               (PartialInsertSettings.description setting))
    (Settings.createdAt row)
    (Settings.updatedAt row).

Definition settingValues (setting : PartialInsertSettings.t)
  : option (Settings.t -> Settings.t) :=
  if PartialInsertSettings.isEmpty setting then None
  else Some (setSetting setting).

(** The outer [option] is the failure of the statement. *)
Definition updateSetting (db : t) (id : Z)
  (setting : PartialInsertSettings.t) : option (option Settings.t * t) :=
  match
    Sql.update_where settingsCell (settings db) (settingValues setting)
      [Sql.eq settings_id (Sql.Num id)]
  with
  | None => None
  | Some (rows, returning) =>
      let updatedSetting := hd_error returning in
      Some (updatedSetting, mk (products db) (articles db) rows)
  end.

Definition deleteSetting (db : t) (id : Z) : bool * t :=
  let db :=
    mk (products db) (articles db)
       (Sql.delete_where settingsCell (settings db)
          [Sql.eq settings_id (Sql.Num id)]) in
  (true, db).

(** *** The read by id and the product update

    [const [product] = await db.select()...] takes the first row of the
    result, [undefined] when there is none; the outer [option] is the
    failure of the statement. *)
Definition getProduct (collate : string -> string -> Z) (db : t) (id : Z)
  : option (option Product.t) :=
  option_map (@hd_error Product.t)
    (Sql.execute productCell collate (products db)
       (Sql.where_ Sql.select_from [Sql.eq products_id (Sql.Num id)])).

(** [.set(product)]: as [setSetting], on the payload [updateProduct]
    receives. *)
Definition setProduct (product : ProductPayload.t) (row : Product.t)
  : Product.t :=
  let fields := ProductPayload.fields product in
  Product.mk
    (Js.spread (Product.id row) (ProductPayload.id product))
    (Js.spread (Product.name row) (PartialInsertProduct.name fields))
    (Js.spread (Product.description row)
               (PartialInsertProduct.description fields))
    (Js.spread (Product.price row) (PartialInsertProduct.price fields))
    (Js.spread (Product.discountPrice row)
               (PartialInsertProduct.discountPrice fields))
    (Js.spread (Product.images row) (PartialInsertProduct.images fields))
    (Js.spread (Product.category row) (PartialInsertProduct.category fields))
    (Js.spread (Product.inStock row) (PartialInsertProduct.inStock fields))
    (Js.spread (Product.isFeatured row)
               (PartialInsertProduct.isFeatured fields))
    (Js.spread (Product.isLimited row)
               (PartialInsertProduct.isLimited fields))
    (Js.spread (Product.limitedCount row)
               (PartialInsertProduct.limitedCount fields))
    (Js.spread (Product.sustainableMaterials row)
               (PartialInsertProduct.sustainableMaterials fields))
    (Js.spread (Product.madeIn row) (PartialInsertProduct.madeIn fields))
    (Js.spread (Product.createdAt row) (ProductPayload.createdAt product)).

Definition productValues (product : ProductPayload.t)
  : option (Product.t -> Product.t) :=
  if ProductPayload.isEmpty product then None
  else Some (setProduct product).

(** [products.id] is the primary key of the table
    ([serial("id").primaryKey()]): an update that would leave two rows
    with one id fails. *)
Definition updateProduct (db : t) (id : Z) (product : ProductPayload.t)
  : option (option Product.t * t) :=
  match
    Sql.update_where productCell (products db) (productValues product)
      [Sql.eq products_id (Sql.Num id)]
  with
  | None => None
  | Some (rows, returning) =>
      if Sql.distinct (map Product.id rows)
      then
        let updatedProduct := hd_error returning in
        Some (updatedProduct, mk rows (articles db) (settings db))
      else None
  end.

End DatabaseStorage.

(** ** The route handlers of [server/routes.ts] that only drive the store

    The handlers run against [storage], the [MemStorage] instance that
    [storage.ts] exports.  A response is the status passed to [res.status]
    (200 when the handler calls [res.json] directly) and the body.  The Zod
    schemas of [shared/schema.ts] are parameters: a parser returns [None]
    where [parse] throws a [ZodError], which [handleZodError] answers with
    status 400 (the list of issues in that body is left out). *)
Module Routes.

Inductive Body (A : Type) :=
| Entity (a : A)
| Message (message : string)
| NoContent.
Arguments Entity {A} a.
Arguments Message {A} message.
Arguments NoContent {A}.

Definition Response (A : Type) : Type := Z * Body A.

Definition handleZodError {A : Type} : Response A :=
  (400, Message "Validation error").

(** [const { password, ...userWithoutPassword } = user] *)
Record UserWithoutPassword := mkUserWithoutPassword {
  id : Z;
  username : string;
  email : string;
  firstName : option string;
  lastName : option string;
  phone : option string;
  createdAt : option Date
}.

Definition withoutPassword (user : User.t) : UserWithoutPassword :=
  mkUserWithoutPassword (User.id user) (User.username user) (User.email user)
    (User.firstName user) (User.lastName user) (User.phone user)
    (User.createdAt user).

(** [!s] on a field of [req.body] that is absent or a string. *)
Definition missing (s : option string) : bool :=
  match Js.truthy_string s with
  | Some _ => false
  | None => true
  end.


Section Handlers.
Context {RawBody : Type}.
Variable insertUserSchema_parse : RawBody -> option InsertUser.t.
Variable insertSubscriberSchema_parse : RawBody -> option InsertSubscriber.t.
Variable insertOrderSchema_parse : RawBody -> option InsertOrder.t.
Variable insertOrderItemSchema_parse :
  InsertOrderItem.t -> option InsertOrderItem.t.

(** [POST /api/auth/register] *)
Definition authRegister (storage : MemStorage.t) (body : RawBody)
  (now : Date) : Response UserWithoutPassword * MemStorage.t :=
  match insertUserSchema_parse body with
  | None => (handleZodError, storage)
  | Some userData =>
      match MemStorage.getUserByEmail storage (InsertUser.email userData) with
      | Some existingUser => ((400, Message "Email already exists"), storage)
      | None =>
          let '(user, storage) := MemStorage.createUser storage userData now in
          ((201, Entity (withoutPassword user)), storage)
      end
  end.

(** [POST /api/auth/login]: the response and [req.session.userId]. *)
Definition authLogin (storage : MemStorage.t) (session : option Z)
  (email password : option string)
  : Response UserWithoutPassword * option Z :=
  if missing email || missing password
  then ((400, Message "Email and password are required"), session)
  else
    let user :=
      MemStorage.getUserByEmail storage (Js.nullish email "") in
    match user with
    | None => ((401, Message "Invalid credentials"), session)
    | Some user =>
        if negb (String.eqb (User.password user) (Js.nullish password ""))
        then ((401, Message "Invalid credentials"), session)
        else ((200, Entity (withoutPassword user)), Some (User.id user))
    end.

(** [GET /api/auth/user] *)
Definition authUser (storage : MemStorage.t) (session : option Z)
  : Response UserWithoutPassword :=
  match Js.truthy_num session with
  | None => (401, Message "Not authenticated")
  | Some userId =>
      match MemStorage.getUser storage userId with
      | None => (404, Message "User not found")
      | Some user => (200, Entity (withoutPassword user))
      end
  end.

(** [POST /api/subscribe] *)
Definition subscribe (storage : MemStorage.t) (body : RawBody) (now : Date)
  : Response Subscriber.t * MemStorage.t :=
  match insertSubscriberSchema_parse body with
  | None => (handleZodError, storage)
  | Some subscriberData =>
      match MemStorage.getSubscriberByEmail storage
              (InsertSubscriber.email subscriberData) with
      | Some existingSubscriber =>
          ((200, Message "Email already subscribed"), storage)
      | None =>
          let '(subscriber, storage) :=
            MemStorage.createSubscriber storage subscriberData now in
          ((201, Entity subscriber), storage)
      end
  end.


End Handlers.


(** [DELETE /api/settings/:key] *)
Definition deleteSetting (storage : MemStorage.t) (key : string)
  : Response unit * MemStorage.t :=
  match MemStorage.getSettingByKey storage key with
  | None => ((404, Message "Setting not found"), storage)
  | Some setting =>
      let storage :=
        snd (MemStorage.deleteSetting storage (Settings.id setting)) in
      ((204, NoContent), storage)
  end.

(** The loop of [POST /api/payment-settings] over
    [Object.entries(paymentData)], whose values are strings here.  The
    [tick]-th read of the clock is [clock tick]; the loop returns [results],
    the store and the next tick. *)
Fixpoint upsertPaymentSettings (storage : MemStorage.t)
  (clock : nat -> Date) (tick : nat) (results : list (option Settings.t))
  (entries : list (string * string))
  : list (option Settings.t) * MemStorage.t * nat :=
  match entries with
  | [] => (results, storage, tick)
  | (key, value) :: entries =>
      let settingKey := ("payment." ++ key)%string in
      match MemStorage.getSettingByKey storage settingKey with
      | Some existingSetting =>
          let settingData :=
            PartialInsertSettings.mk (Some settingKey) (Some (Some value))
              (Some "payment")
              (Some (Some ("Payment setting for " ++ key)%string)) in
          let '(updated, storage) :=
            MemStorage.updateSetting storage (Settings.id existingSetting)
              settingData (clock tick) in
          upsertPaymentSettings storage clock (S tick) (results ++ [updated])
            entries
      | None =>
          let settingData :=
            InsertSettings.mk settingKey (Some value) (Some "payment")
              (Some ("Payment setting for " ++ key)%string) in
          let '(created, storage) :=
            MemStorage.createSetting storage settingData (clock tick)
              (clock (S tick)) in
          upsertPaymentSettings storage clock (S (S tick))
            (results ++ [Some created]) entries
      end
  end.

(** [POST /api/payment-settings] *)
Definition postPaymentSettings (storage : MemStorage.t) (clock : nat -> Date)
  (paymentData : list (string * string))
  : Response (list (option Settings.t)) * MemStorage.t :=
  let '(results, storage, _) :=
    upsertPaymentSettings storage clock 0%nat [] paymentData in
  ((200, Entity results), storage).

End Routes.

(** ** The pagination contract in the words of the specification

    The filters are applied when they are supplied, then [offset] elements
    are dropped, then at most [limit] elements are kept; an absent [offset]
    drops nothing and an absent [limit] keeps everything. *)
Module Spec.

Definition getProducts (products : list Product.t)
  (options : option ProductOptions.t) : list Product.t :=
  let filtered :=
    match Js.chain options ProductOptions.category with
    | Some category =>
        filter (fun product => String.eqb (Product.category product) category)
               products
    | None => products
    end in
  let filtered :=
    match Js.chain options ProductOptions.featured with
    | Some featured =>
        filter (fun product =>
                  Js.nullable_bool_eqb (Product.isFeatured product) featured)
               filtered
    | None => filtered
    end in
  let remaining :=
    match Js.chain options ProductOptions.offset with
    | Some offset => skipn (Z.to_nat offset) filtered
    | None => filtered
    end in
  match Js.chain options ProductOptions.limit with
  | Some limit => firstn (Z.to_nat limit) remaining
  | None => remaining
  end.

(** The options as the code reads them: a [0] limit, a [0] offset and an
    empty category count as absent. *)
Definition effective (options : option ProductOptions.t)
  : option ProductOptions.t :=
  Some (ProductOptions.mk
          (Js.truthy_num (Js.chain options ProductOptions.limit))
          (Js.truthy_num (Js.chain options ProductOptions.offset))
          (Js.truthy_string (Js.chain options ProductOptions.category))
          (Js.chain options ProductOptions.featured)).

(** An optional number that is absent or not negative. *)
Definition natural (x : option Z) : Prop :=
  match x with
  | Some n => 0 <= n
  | None => True
  end.

End Spec.

(** ** Well-formed mappings

    The entries of a mapping, as pairs of key and stored [id]: the keys
    ascend in insertion order and lie below the counter ([keyed]); each
    entity is moreover stored under its own [id] ([wf]).  The products
    are [keyed] in every state, and they are [wf] as long as no payload of
    [updateProduct] has written another id into a stored product
    ([ownIds], [keepsIds]); the other eight kinds are [wf] in every
    state. *)
Module Inv.

Definition ascending (es : list (Z * Z)) : Prop :=
  StronglySorted Z.lt (map fst es).

Definition keysBelow (n : Z) (es : list (Z * Z)) : Prop :=
  Forall (fun key => key < n) (map fst es).

Definition keyed (n : Z) (es : list (Z * Z)) : Prop :=
  ascending es /\ keysBelow n es.

Definition below (n : Z) (es : list (Z * Z)) : Prop :=
  Forall (fun e => fst e < n /\ snd e = fst e) es.

Definition wf (n : Z) (es : list (Z * Z)) : Prop :=
  ascending es /\ below n es.

Definition invariant (this : MemStorage.t) : Prop :=
  keyed (MemStorage.counter MemStorage.KProduct this)
        (MemStorage.entries MemStorage.KProduct this)
  /\ forall k,
       k <> MemStorage.KProduct ->
       wf (MemStorage.counter k this) (MemStorage.entries k this).

(** Every stored product carries the key it is stored under as its id. *)
Definition ownIds (this : MemStorage.t) : Prop :=
  Forall (fun e => snd e = fst e)
         (MemStorage.entries MemStorage.KProduct this).

(** A call that carries no id for a stored product: every call but an
    [updateProduct] whose payload has an [id] property. *)
Definition keepsIds (c : MemStorage.Call) : Prop :=
  match c with
  | MemStorage.UpdateProduct _ product => ProductPayload.id product = None
  | _ => True
  end.

(** The entries of a mapping whose entities carry their id in [idf]. *)
Definition entries_of {V : Type} (idf : V -> Z) (m : JsMap.t V)
  : list (Z * Z) :=
  map (fun kv => (fst kv, idf (snd kv))) m.

End Inv.

(** ** What the operations owe their callers *)
Module Contract.

(** What a lookup by a unique field returns from the values [l] of a
    mapping: the first element that satisfies [p], which is also the one
    with the least id among those that do, or nothing when no element
    satisfies [p]. *)
Definition first_match {A : Type} (idf : A -> Z) (p : A -> bool)
  (l : list A) (r : option A) : Prop :=
  match r with
  | Some e =>
      p e = true
      /\ (exists before after,
            l = before ++ e :: after
            /\ forall x, In x before -> p x = false)
      /\ (forall x, In x l -> p x = true -> idf e <= idf x)
  | None => forall x, In x l -> p x = false
  end.

(** What a create operation of kind [k] owes its caller: the entity it
    returns can be fetched under its id from the store it leaves, the id
    is the one the counter held, the timestamps [stamps] hold the clock
    readings [now], and nothing was stored under that id before. *)
Definition created {E : Type} (k : MemStorage.Kind) (idf : E -> Z)
  (stamps : E -> list (option Date))
  (fetch : MemStorage.t -> Z -> option E)
  (before : MemStorage.t) (result : E * MemStorage.t) (now : list Date)
  : Prop :=
  fetch (snd result) (idf (fst result)) = Some (fst result)
  /\ idf (fst result) = MemStorage.counter k before
  /\ stamps (fst result) = map Some now
  /\ (forall key id,
        In (key, id) (MemStorage.entries k before) ->
        key <> idf (fst result)).


(** One field of a merged entity: the payload's value when the payload has
    the field, the stored value when it does not. *)
Definition merged {A : Type} (stored : A) (payload : option A) (result : A)
  : Prop :=
  match payload with
  | Some v => result = v
  | None => result = stored
  end.

End Contract.

(** ** What the listings select *)
Module Listing.

(** The products that pass the filters of [getProducts]: the category when a
    non-empty one is supplied, the featured flag when one is supplied. *)
Definition selectsProduct (options : option ProductOptions.t)
  (product : Product.t) : bool :=
  match Js.truthy_string (Js.chain options ProductOptions.category) with
  | Some category => String.eqb (Product.category product) category
  | None => true
  end
  && match Js.chain options ProductOptions.featured with
     | Some featured =>
         Js.nullable_bool_eqb (Product.isFeatured product) featured
     | None => true
     end.

Definition selectsArticle (options : option ArticleOptions.t)
  (article : Article.t) : bool :=
  match Js.truthy_string (Js.chain options ArticleOptions.category) with
  | Some category => Js.nullable_eqb (Article.category article) category
  | None => true
  end.

Definition selectsSetting (category : option string) (setting : Settings.t)
  : bool :=
  match Js.truthy_string category with
  | Some category => String.eqb (Settings.category setting) category
  | None => true
  end.

(** [part] is a run of consecutive elements of [whole]. *)
Definition segment {A : Type} (part whole : list A) : Prop :=
  exists before after, whole = before ++ part ++ after.

(** What a lookup by a unique field returns after an entity [created] is
    appended: the entity it returned before when there was one, else the
    new entity when its field is the value looked up. *)
Definition lookupAfterCreate {A : Type} (before : option A) (matches_ : bool)
  (created : A) : option A :=
  match before with
  | Some e => Some e
  | None => if matches_ then Some created else None
  end.



(** [a] may come before [b] when rows are listed newest first: a row
    without a creation time sorts first, as NULL does in a descending
    order. *)
Definition newerOrSame (a b : option Date) : Prop :=
  match a, b with
  | None, _ => True
  | Some _, None => False
  | Some x, Some y => y <= x
  end.

(** The rows a select hands back from the ordered rows: OFFSET, then
    LIMIT. *)
Definition paginate {A : Type} (limit offset : option Z) (rows : list A)
  : list A :=
  let rows :=
    match offset with
    | Some n => skipn (Z.to_nat n) rows
    | None => rows
    end in
  match limit with
  | Some n => firstn (Z.to_nat n) rows
  | None => rows
  end.

(** A setting with its [updatedAt] left out of the comparison. *)
Definition withoutUpdatedAt (setting : Settings.t) : Settings.t :=
  Settings.mk (Settings.id setting) (Settings.key setting)
    (Settings.value setting) (Settings.category setting)
    (Settings.description setting) (Settings.createdAt setting) None.

(** Neither a limit nor an offset is in force. *)
Definition unpaginated (limit offset : option Z) : Prop :=
  Js.truthy_num limit = None /\ Js.truthy_num offset = None.

End Listing.

(** ** Ids start at 1 *)
Module Ids.

(** Every counter and every key of every mapping is at least 1. *)
Definition positive (this : MemStorage.t) : Prop :=
  forall k,
    1 <= MemStorage.counter k this
    /\ Forall (fun e => 1 <= fst e) (MemStorage.entries k this).

End Ids.

(** ** Concrete inputs used by the examples *)
Module Sample.

Definition clock (n : nat) : Date := 1700000000000 + Z.of_nat n.

(** A store right after construction: six categories, eleven products and
    three articles. *)
Definition store : MemStorage.t := MemStorage.new clock.

(** [{ price: 999 }] *)
Definition price999 : PartialInsertProduct.t :=
  PartialInsertProduct.mk None None (Some 999) None None None None None None
    None None None.





(** [{ value: "dark" }] *)
Definition valueDark : PartialInsertSettings.t :=
  PartialInsertSettings.mk None (Some (Some "dark")) None None.

(** A settings row written at time 1000. *)
Definition theme : Settings.t :=
  Settings.mk 1 "site.theme" (Some "light") "site" None (Some 1000)
    (Some 1000).

(** A database whose settings table holds [theme], and the constructed
    in-memory store after the same setting is created at time 1000. *)
Definition db : DatabaseStorage.t := DatabaseStorage.mk [] [] [theme].

Definition memWithTheme : MemStorage.t :=
  MemStorage.run
    (MemStorage.CreateSetting
       (InsertSettings.mk "site.theme" (Some "light") (Some "site") None)
       1000 1000)
    store.

Definition sarong : InsertProduct.t :=
  InsertProduct.mk "Goa Sarong" "A hand-dyed sarong." 90 None None
    "resort-wear" None None None None None None.

Definition limit0 : ProductOptions.t :=
  ProductOptions.mk (Some 0) None None None.

Definition emptyCategory : ProductOptions.t :=
  ProductOptions.mk None None (Some "") None.

Definition offsetMinus1 : ProductOptions.t :=
  ProductOptions.mk None (Some (-1)) None None.

Definition limit2offset1 : ProductOptions.t :=
  ProductOptions.mk (Some 2) (Some 1) None None.

(** The constructed store after one more category is created under a slug
    that is already taken. *)
Definition duplicated : MemStorage.t :=
  MemStorage.run
    (MemStorage.CreateCategory (InsertCategory.mk "Swim again" "swimwear"))
    store.

(** A registration body, already in the shape of the insert schema. *)
Definition asha : InsertUser.t :=
  InsertUser.mk "asha" "asha@example.com" "s3cret" None None None.

Definition ravi : InsertUser.t :=
  InsertUser.mk "ravi" "ravi@example.com" "pa55" None None None.

(** The constructed store after [asha] has registered at time 5. *)
Definition registered : MemStorage.t :=
  MemStorage.run (MemStorage.CreateUser asha 5) store.

(** The body [{ currency: "inr", provider: "stripe" }]. *)
Definition paymentData : list (string * string) :=
  [("currency", "inr"); ("provider", "stripe")].

(** A comparator of keys that orders them by length, and three settings
    created out of that order. *)
Definition byLength (a b : string) : Z :=
  Z.of_nat (String.length a) - Z.of_nat (String.length b).

Definition withSettings : MemStorage.t :=
  MemStorage.runs
    [MemStorage.CreateSetting
       (InsertSettings.mk "payment.currency" (Some "usd") (Some "payment")
          None) 1 1;
     MemStorage.CreateSetting
       (InsertSettings.mk "site.logo" (Some "/logo.png") (Some "site") None)
       2 2;
     MemStorage.CreateSetting
       (InsertSettings.mk "site.theme" (Some "light") None None) 3 3]
    store.

End Sample.

(** * Properties *)

(** ** Lemmas on [JsMap] *)
Section JsMapFacts.
Context {V : Type}.
Implicit Types (m : JsMap.t V) (k j : Z) (v : V).

Lemma JsMap_get_set_eq m k v : JsMap.get (JsMap.set m k v) k = Some v.
Proof.
  induction m as [|[k' v'] m IH]; simpl.
  - now rewrite Z.eqb_refl.
  - destruct (k' =? k) eqn:E; simpl.
    + now rewrite Z.eqb_refl.
    + now rewrite E.
Qed.

Lemma JsMap_get_set_neq m k j v :
  k <> j -> JsMap.get (JsMap.set m k v) j = JsMap.get m j.
Proof.
  intros Hkj. induction m as [|[k' v'] m IH]; simpl.
  - destruct (k =? j) eqn:E; [apply Z.eqb_eq in E; contradiction | reflexivity].
  - destruct (k' =? k) eqn:E; simpl.
    + apply Z.eqb_eq in E; subst k'.
      destruct (k =? j) eqn:E'; [apply Z.eqb_eq in E'; contradiction | reflexivity].
    + now rewrite IH.
Qed.

Lemma JsMap_get_delete_eq m k : JsMap.get (JsMap.delete m k) k = None.
Proof.
  induction m as [|[k' v'] m IH]; simpl; [reflexivity|].
  destruct (k' =? k) eqn:E; simpl; [exact IH | now rewrite E].
Qed.

Lemma JsMap_get_delete_neq m k j :
  k <> j -> JsMap.get (JsMap.delete m k) j = JsMap.get m j.
Proof.
  intros Hkj. induction m as [|[k' v'] m IH]; simpl; [reflexivity|].
  destruct (k' =? k) eqn:E; simpl.
  - apply Z.eqb_eq in E; subst k'.
    destruct (k =? j) eqn:E'; [apply Z.eqb_eq in E'; contradiction | exact IH].
  - now rewrite IH.
Qed.

Lemma JsMap_set_fresh m k v :
  ~ In k (JsMap.keys m) -> JsMap.set m k v = m ++ [(k, v)].
Proof.
  induction m as [|[k' v'] m IH]; simpl; [reflexivity|].
  intros H. destruct (k' =? k) eqn:E.
  - apply Z.eqb_eq in E. tauto.
  - rewrite IH; tauto.
Qed.

Variable idf : V -> Z.

Lemma entries_set_same m k v v0 :
  JsMap.get m k = Some v0 -> idf v = idf v0 ->
  Inv.entries_of idf (JsMap.set m k v) = Inv.entries_of idf m.
Proof.
  induction m as [|[k' v'] m IH]; simpl; [discriminate|].
  destruct (k' =? k) eqn:E; simpl.
  - apply Z.eqb_eq in E; subst k'. intros [= ->] ->. reflexivity.
  - intros H1 H2. now rewrite IH.
Qed.

Lemma below_lt n (es : list (Z * Z)) :
  Inv.below n es -> Forall (fun k => k < n) (map fst es).
Proof.
  unfold Inv.below. rewrite !Forall_forall. intros H k Hk.
  apply in_map_iff in Hk as [e [<- He]]. now apply H.
Qed.

Lemma wf_keys_fresh n m :
  Inv.wf n (Inv.entries_of idf m) -> ~ In n (JsMap.keys m).
Proof.
  intros [_ Hb] Hin. apply below_lt in Hb. rewrite Forall_forall in Hb.
  unfold Inv.entries_of in Hb. rewrite map_map in Hb. simpl in Hb.
  specialize (Hb n Hin). lia.
Qed.

Lemma StronglySorted_snoc (l : list Z) n :
  StronglySorted Z.lt l -> Forall (fun k => k < n) l ->
  StronglySorted Z.lt (l ++ [n]).
Proof.
  induction 1 as [|a l Hs IH Ha]; intros Hn; simpl.
  - constructor; constructor.
  - inversion Hn; subst. constructor; [now apply IH|].
    apply Forall_app; split; [assumption | now constructor].
Qed.

Lemma wf_set_fresh n m v :
  Inv.wf n (Inv.entries_of idf m) -> idf v = n ->
  Inv.wf (n + 1) (Inv.entries_of idf (JsMap.set m n v)).
Proof.
  intros Hwf Hid. pose proof (wf_keys_fresh _ _ Hwf) as Hfresh.
  destruct Hwf as [Ha Hb]. rewrite JsMap_set_fresh by assumption.
  unfold Inv.entries_of. rewrite map_app. simpl. split.
  - unfold Inv.ascending. rewrite map_app. simpl.
    apply StronglySorted_snoc; [exact Ha | now apply below_lt].
  - unfold Inv.below in *. apply Forall_app; split.
    + eapply Forall_impl; [|exact Hb]. simpl. intros e [H1 H2]. split; [lia | assumption].
    + constructor; [simpl; lia | constructor].
Qed.

Lemma wf_set_same n m k v v0 :
  Inv.wf n (Inv.entries_of idf m) ->
  JsMap.get m k = Some v0 -> idf v = idf v0 ->
  Inv.wf n (Inv.entries_of idf (JsMap.set m k v)).
Proof.
  intros Hwf Hget Hid. now rewrite (entries_set_same _ _ _ _ Hget Hid).
Qed.

Lemma wf_delete n m k :
  Inv.wf n (Inv.entries_of idf m) ->
  Inv.wf n (Inv.entries_of idf (JsMap.delete m k)).
Proof.
  intros [Ha Hb]. unfold Inv.wf, Inv.ascending, Inv.below, Inv.entries_of in *.
  induction m as [|[k' v'] m IH]; simpl in *; [split; assumption|].
  inversion Ha as [|? ? Hs Hall]; subst. inversion Hb as [|? ? He Hrest]; subst.
  destruct (IH Hs Hrest) as [IHa IHb].
  destruct (k' =? k); simpl; [split; assumption|].
  split.
  - constructor; [assumption|].
    rewrite Forall_forall in *. intros x Hx. apply Hall.
    rewrite map_map in *. simpl in *. apply in_map_iff in Hx as [e [<- He']].
    apply in_map. unfold JsMap.delete in He'. apply filter_In in He'. tauto.
  - constructor; assumption.
Qed.

Lemma wf_keyed n (es : list (Z * Z)) : Inv.wf n es -> Inv.keyed n es.
Proof.
  intros [Ha Hb]. split; [exact Ha | now apply below_lt].
Qed.

Lemma keys_entries m : map fst (Inv.entries_of idf m) = JsMap.keys m.
Proof.
  unfold Inv.entries_of, JsMap.keys. rewrite map_map. reflexivity.
Qed.

Lemma JsMap_keys_set_same m k v v0 :
  JsMap.get m k = Some v0 -> JsMap.keys (JsMap.set m k v) = JsMap.keys m.
Proof.
  unfold JsMap.keys.
  induction m as [|[k' v'] m IH]; simpl; [discriminate|].
  destruct (k' =? k) eqn:E; simpl.
  - apply Z.eqb_eq in E; subst k'. reflexivity.
  - intros H. now rewrite IH.
Qed.

Lemma keyed_keys_fresh n m :
  Inv.keyed n (Inv.entries_of idf m) -> ~ In n (JsMap.keys m).
Proof.
  intros [_ Hb] Hin. unfold Inv.keysBelow in Hb.
  rewrite keys_entries, Forall_forall in Hb.
  specialize (Hb n Hin). lia.
Qed.

Lemma keyed_set_fresh n m v :
  Inv.keyed n (Inv.entries_of idf m) ->
  Inv.keyed (n + 1) (Inv.entries_of idf (JsMap.set m n v)).
Proof.
  intros Hk. pose proof (keyed_keys_fresh _ _ Hk) as Hfresh.
  destruct Hk as [Ha Hb]. unfold Inv.keyed, Inv.ascending, Inv.keysBelow in *.
  rewrite keys_entries in *. rewrite JsMap_set_fresh by assumption.
  unfold JsMap.keys in *. rewrite map_app. simpl. split.
  - now apply StronglySorted_snoc.
  - apply Forall_app; split.
    + eapply Forall_impl; [|exact Hb]. simpl. intros; lia.
    + constructor; [lia | constructor].
Qed.

Lemma keyed_set_same n m k v v0 :
  Inv.keyed n (Inv.entries_of idf m) ->
  JsMap.get m k = Some v0 ->
  Inv.keyed n (Inv.entries_of idf (JsMap.set m k v)).
Proof.
  unfold Inv.keyed, Inv.ascending, Inv.keysBelow. intros Hk Hget.
  rewrite !keys_entries in *. now rewrite (JsMap_keys_set_same _ _ _ _ Hget).
Qed.

Lemma keyed_delete n m k :
  Inv.keyed n (Inv.entries_of idf m) ->
  Inv.keyed n (Inv.entries_of idf (JsMap.delete m k)).
Proof.
  unfold Inv.keyed, Inv.ascending, Inv.keysBelow. rewrite !keys_entries.
  unfold JsMap.keys. intros [Ha Hb].
  induction m as [|[k' v'] m IH]; simpl in *; [split; assumption|].
  inversion Ha as [|? ? Hs Hall]; subst. inversion Hb as [|? ? He Hrest]; subst.
  destruct (IH Hs Hrest) as [IHa IHb].
  destruct (k' =? k); simpl; [split; assumption|].
  split.
  - constructor; [assumption|].
    rewrite Forall_forall in *. intros x Hx. apply Hall.
    apply in_map_iff in Hx as [e [<- He']].
    apply in_map. unfold JsMap.delete in He'. apply filter_In in He'. tauto.
  - constructor; assumption.
Qed.

End JsMapFacts.

(** ** The invariant of the in-memory store *)

Lemma invariant_fresh : Inv.invariant MemStorage.fresh.
Proof.
  split; [split; constructor|].
  intros k _. destruct k; simpl; split; constructor.
Qed.

(** What the invariant gives for a kind other than the products, and for
    the keys of every kind. *)
Lemma invariant_wf (this : MemStorage.t) :
  Inv.invariant this ->
  forall k,
    k <> MemStorage.KProduct ->
    Inv.wf (MemStorage.counter k this) (MemStorage.entries k this).
Proof. intros [_ H]. exact H. Qed.

Lemma invariant_keyed (this : MemStorage.t) :
  Inv.invariant this ->
  forall k, Inv.keyed (MemStorage.counter k this) (MemStorage.entries k this).
Proof.
  intros [Hp H] k.
  destruct k; try (apply wf_keyed, H; discriminate). exact Hp.
Qed.

(** Closes the goal of a kind whose mapping and counter the call leaves
    alone. *)
Ltac untouched H :=
  match goal with
  | |- Inv.wf (MemStorage.counter ?k _) _ => apply (H k); assumption
  end.

(** The goal of the kind [K] after a create: a fresh key under the counter. *)
Ltac created H K idf :=
  apply (wf_set_fresh idf); [apply (H K); assumption | reflexivity].

Lemma products_keyed_run (c : MemStorage.Call) (this : MemStorage.t) :
  Inv.keyed (MemStorage.counter MemStorage.KProduct this)
            (MemStorage.entries MemStorage.KProduct this) ->
  Inv.keyed (MemStorage.counter MemStorage.KProduct (MemStorage.run c this))
            (MemStorage.entries MemStorage.KProduct (MemStorage.run c this)).
Proof.
  intros Hp. destruct c; simpl MemStorage.run; try exact Hp.
  - apply (keyed_set_fresh Product.id). exact Hp.
  - unfold MemStorage.updateProduct.
    destruct (JsMap.get (MemStorage.products this) id) as [p|] eqn:G;
      [|exact Hp].
    apply (keyed_set_same Product.id _ _ _ _ p); [exact Hp | exact G].
  - unfold MemStorage.deleteProduct.
    destruct (JsMap.has (MemStorage.products this) id); [|exact Hp].
    apply (keyed_delete Product.id). exact Hp.
  - unfold MemStorage.updateOrderStatus.
    destruct (JsMap.get (MemStorage.orders this) id); exact Hp.
  - unfold MemStorage.updateSetting.
    destruct (JsMap.get (MemStorage.settings this) id); exact Hp.
  - unfold MemStorage.deleteSetting.
    destruct (JsMap.has (MemStorage.settings this) id); exact Hp.
Qed.

Lemma invariant_run (c : MemStorage.Call) (this : MemStorage.t) :
  Inv.invariant this -> Inv.invariant (MemStorage.run c this).
Proof.
  intros [Hp H]. split; [now apply products_keyed_run|].
  intros k Hk. destruct c; simpl MemStorage.run; try untouched H.
  - destruct k; try untouched H. created H MemStorage.KUser User.id.
  - destruct k; try untouched H. congruence.
  - unfold MemStorage.updateProduct.
    destruct (JsMap.get (MemStorage.products this) id) as [p|] eqn:G;
      [|untouched H].
    destruct k; try untouched H. congruence.
  - unfold MemStorage.deleteProduct.
    destruct (JsMap.has (MemStorage.products this) id); [|untouched H].
    destruct k; try untouched H. congruence.
  - destruct k; try untouched H. created H MemStorage.KCategory Category.id.
  - destruct k; try untouched H. created H MemStorage.KArticle Article.id.
  - destruct k; try untouched H. created H MemStorage.KOrder Order.id.
  - unfold MemStorage.updateOrderStatus.
    destruct (JsMap.get (MemStorage.orders this) id) as [o|] eqn:G;
      [|untouched H].
    destruct k; try untouched H.
    apply (wf_set_same Order.id _ _ _ _ o);
      [apply (H MemStorage.KOrder); assumption | exact G | reflexivity].
  - destruct k; try untouched H. created H MemStorage.KOrderItem OrderItem.id.
  - destruct k; try untouched H.
    created H MemStorage.KSubscriber Subscriber.id.
  - destruct k; try untouched H. created H MemStorage.KContact Contact.id.
  - destruct k; try untouched H. created H MemStorage.KSettings Settings.id.
  - unfold MemStorage.updateSetting.
    destruct (JsMap.get (MemStorage.settings this) id) as [s|] eqn:G;
      [|untouched H].
    destruct k; try untouched H.
    apply (wf_set_same Settings.id _ _ _ _ s);
      [apply (H MemStorage.KSettings); assumption | exact G | reflexivity].
  - unfold MemStorage.deleteSetting.
    destruct (JsMap.has (MemStorage.settings this) id); [|untouched H].
    destruct k; try untouched H.
    apply (wf_delete Settings.id). apply (H MemStorage.KSettings); assumption.
Qed.

(** One create call of [initializeData], read as a call of the interface. *)
Ltac seeded :=
  match goal with
  | |- Inv.invariant (snd (MemStorage.createArticle ?s ?a ?n)) =>
      apply (invariant_run (MemStorage.CreateArticle a n) s)
  | |- Inv.invariant (snd (MemStorage.createProduct ?s ?p ?n)) =>
      apply (invariant_run (MemStorage.CreateProduct p n) s)
  | |- Inv.invariant (snd (MemStorage.createCategory ?s ?c)) =>
      apply (invariant_run (MemStorage.CreateCategory c) s)
  end.

Lemma invariant_new (clock : nat -> Date) :
  Inv.invariant (MemStorage.new clock).
Proof.
  unfold MemStorage.new, MemStorage.initializeData. cbv zeta.
  repeat seeded.
  apply invariant_fresh.
Qed.

Lemma invariant_reachable (this : MemStorage.t) :
  MemStorage.reachable this -> Inv.invariant this.
Proof.
  induction 1; [apply invariant_new | now apply invariant_run].
Qed.

(** ** Deletion *)

Lemma has_get {V : Type} (m : JsMap.t V) (k : Z) :
  JsMap.has m k = match JsMap.get m k with Some _ => true | None => false end.
Proof. reflexivity. Qed.

(** C1. [MemStorage.deleteProduct] and [MemStorage.deleteSetting] return
    [true] and remove the entity exactly when one was stored under the id,
    and return [false] (leaving the store as it was) otherwise, while
    [DatabaseStorage.deleteProduct] and [DatabaseStorage.deleteSetting]
    return [true] whatever the table holds, also when no row has the id. *)
Theorem C1_delete_reports_existence :
  (forall this id,
      match MemStorage.getProduct this id with
      | Some _ =>
          fst (MemStorage.deleteProduct this id) = true
          /\ MemStorage.getProduct (snd (MemStorage.deleteProduct this id)) id
             = None
      | None => MemStorage.deleteProduct this id = (false, this)
      end)
  /\ (forall this id,
        match JsMap.get (MemStorage.settings this) id with
        | Some _ =>
            fst (MemStorage.deleteSetting this id) = true
            /\ JsMap.get
                 (MemStorage.settings (snd (MemStorage.deleteSetting this id)))
                 id = None
        | None => MemStorage.deleteSetting this id = (false, this)
        end)
  /\ (forall db id,
        fst (DatabaseStorage.deleteProduct db id) = true
        /\ Forall (fun row => Product.id row <> id)
             (DatabaseStorage.products
                (snd (DatabaseStorage.deleteProduct db id))))
  /\ (forall db id,
        fst (DatabaseStorage.deleteSetting db id) = true
        /\ Forall (fun row => Settings.id row <> id)
             (DatabaseStorage.settings
                (snd (DatabaseStorage.deleteSetting db id))))
  /\ fst (DatabaseStorage.deleteProduct (DatabaseStorage.mk [] [] []) 7) = true
  /\ fst (MemStorage.deleteProduct MemStorage.fresh 7) = false.
Proof.
  repeat split.
  - intros this id. unfold MemStorage.getProduct, MemStorage.deleteProduct.
    rewrite has_get.
    destruct (JsMap.get (MemStorage.products this) id) eqn:G; [|reflexivity].
    split; [reflexivity | apply JsMap_get_delete_eq].
  - intros this id. unfold MemStorage.deleteSetting. rewrite has_get.
    destruct (JsMap.get (MemStorage.settings this) id) eqn:G; [|reflexivity].
    split; [reflexivity | apply JsMap_get_delete_eq].
  - simpl. unfold Sql.delete_where. apply Forall_forall. intros row Hin.
    apply filter_In in Hin as [_ Hm]. simpl in Hm.
    rewrite andb_true_r in Hm. apply negb_true_iff in Hm.
    now apply Z.eqb_neq in Hm.
  - simpl. unfold Sql.delete_where. apply Forall_forall. intros row Hin.
    apply filter_In in Hin as [_ Hm]. simpl in Hm.
    rewrite andb_true_r in Hm. apply negb_true_iff in Hm.
    now apply Z.eqb_neq in Hm.
Qed.

(** C10. [MemStorage.deleteProduct i] leaves the product stored under every
    other id as it was, and leaves the eight other mappings and the nine
    counters unchanged. *)
Theorem C10_deleteProduct_frame (this : MemStorage.t) (i : Z) :
  let this' := snd (MemStorage.deleteProduct this i) in
  (forall j, j <> i ->
     MemStorage.getProduct this' j = MemStorage.getProduct this j)
  /\ MemStorage.users this' = MemStorage.users this
  /\ MemStorage.categories this' = MemStorage.categories this
  /\ MemStorage.articles this' = MemStorage.articles this
  /\ MemStorage.orders this' = MemStorage.orders this
  /\ MemStorage.orderItems this' = MemStorage.orderItems this
  /\ MemStorage.subscribers this' = MemStorage.subscribers this
  /\ MemStorage.contacts this' = MemStorage.contacts this
  /\ MemStorage.settings this' = MemStorage.settings this
  /\ (forall k, MemStorage.counter k this' = MemStorage.counter k this).
Proof.
  unfold MemStorage.deleteProduct.
  destruct (JsMap.has (MemStorage.products this) i); simpl.
  - split; [|repeat (split; [reflexivity|]); intros k; destruct k; reflexivity].
    intros j Hj. unfold MemStorage.getProduct. simpl.
    apply JsMap_get_delete_neq. congruence.
  - split; [reflexivity|]. repeat (split; [reflexivity|]). reflexivity.
Qed.

Lemma C10_deleteProduct_frame_witness :
  MemStorage.getProduct (snd (MemStorage.deleteProduct Sample.store 3)) 4
  = MemStorage.getProduct Sample.store 4.
Proof.
  apply (C10_deleteProduct_frame Sample.store 3). lia.
Defined.

(** ** Updates *)

(** Every row [DatabaseStorage.updateSetting] returns carries the
    [updatedAt] of a stored row with that id: the statement never assigns
    the column. *)
Lemma DatabaseStorage_updateSetting_keeps_updatedAt
  (db db' : DatabaseStorage.t) (id : Z) (setting : PartialInsertSettings.t)
  (updated : Settings.t) :
  DatabaseStorage.updateSetting db id setting = Some (Some updated, db') ->
  exists row,
    In row (DatabaseStorage.settings db)
    /\ Settings.id row = id
    /\ Settings.updatedAt updated = Settings.updatedAt row.
Proof.
  unfold DatabaseStorage.updateSetting, DatabaseStorage.settingValues,
    Sql.update_where.
  destruct (PartialInsertSettings.isEmpty setting); [discriminate|].
  intros H. injection H as H _.
  destruct (filter _ (DatabaseStorage.settings db)) as [|row rest] eqn:F;
    [discriminate|].
  simpl in H. injection H as <-.
  assert (Hin : In row (row :: rest)) by now left.
  rewrite <- F in Hin. apply filter_In in Hin as [Hin Hm].
  exists row. split; [exact Hin|]. split; [|reflexivity].
  simpl in Hm. rewrite andb_true_r in Hm. now apply Z.eqb_eq in Hm.
Qed.

(** C2. [MemStorage.updateSetting] returns the setting with [updatedAt] set
    to the time of the update, for every stored id and every payload.
    [DatabaseStorage.updateSetting] does not: on a row written at time 1000,
    the payload [{ value: "dark" }] changes the value and returns the row
    with [updatedAt] still 1000, where the in-memory store updated at time
    2000 returns 2000. *)
Theorem C2_updateSetting_updatedAt :
  (forall this id settingData now,
      match JsMap.get (MemStorage.settings this) id with
      | Some _ =>
          option_map Settings.updatedAt
            (fst (MemStorage.updateSetting this id settingData now))
          = Some (Some now)
      | None => MemStorage.updateSetting this id settingData now = (None, this)
      end)
  /\ JsMap.get (MemStorage.settings Sample.memWithTheme) 1
     = Some Sample.theme
  /\ option_map Settings.updatedAt
       (fst (MemStorage.updateSetting Sample.memWithTheme 1 Sample.valueDark
               2000))
     = Some (Some 2000)
  /\ option_map (fun result => option_map Settings.value (fst result))
       (DatabaseStorage.updateSetting Sample.db 1 Sample.valueDark)
     = Some (Some (Some "dark"))
  /\ option_map (fun result => option_map Settings.updatedAt (fst result))
       (DatabaseStorage.updateSetting Sample.db 1 Sample.valueDark)
     = Some (Some (Some 1000)).
Proof.
  split; [|repeat split].
  intros this id settingData now. unfold MemStorage.updateSetting.
  destruct (JsMap.get (MemStorage.settings this) id); reflexivity.
Qed.

(** C4. On a stored id, [MemStorage.updateProduct id { price: 999 }] returns
    the stored product with [price] 999 and every other field as it was,
    and stores it; for any payload, a field that is not present in the
    payload keeps its stored value and a field that is present takes the
    payload's ([id] and [createdAt], which a payload of the declared type
    does not carry, stay for such a payload); on an id that is not stored
    the result is [undefined] and the store is as it was. *)
Theorem C4_updateProduct_merges
  (this : MemStorage.t) (id : Z) (product : ProductPayload.t) :
  match MemStorage.getProduct this id with
  | None => MemStorage.updateProduct this id product = (None, this)
  | Some existing =>
      fst (MemStorage.updateProduct this id
             (ProductPayload.typed Sample.price999))
      = Some (Product.mk
                (Product.id existing) (Product.name existing)
                (Product.description existing) 999
                (Product.discountPrice existing) (Product.images existing)
                (Product.category existing) (Product.inStock existing)
                (Product.isFeatured existing) (Product.isLimited existing)
                (Product.limitedCount existing)
                (Product.sustainableMaterials existing)
                (Product.madeIn existing) (Product.createdAt existing))
      /\ exists updated,
          fst (MemStorage.updateProduct this id product) = Some updated
          /\ MemStorage.getProduct
               (snd (MemStorage.updateProduct this id product)) id
             = Some updated
          /\ Contract.merged (Product.id existing)
               (ProductPayload.id product) (Product.id updated)
          /\ Contract.merged (Product.createdAt existing)
               (ProductPayload.createdAt product) (Product.createdAt updated)
          /\ Contract.merged (Product.name existing)
               (PartialInsertProduct.name (ProductPayload.fields product))
               (Product.name updated)
          /\ Contract.merged (Product.description existing)
               (PartialInsertProduct.description
                  (ProductPayload.fields product))
               (Product.description updated)
          /\ Contract.merged (Product.price existing)
               (PartialInsertProduct.price (ProductPayload.fields product))
               (Product.price updated)
          /\ Contract.merged (Product.discountPrice existing)
               (PartialInsertProduct.discountPrice
                  (ProductPayload.fields product))
               (Product.discountPrice updated)
          /\ Contract.merged (Product.images existing)
               (PartialInsertProduct.images (ProductPayload.fields product))
               (Product.images updated)
          /\ Contract.merged (Product.category existing)
               (PartialInsertProduct.category (ProductPayload.fields product))
               (Product.category updated)
          /\ Contract.merged (Product.inStock existing)
               (PartialInsertProduct.inStock (ProductPayload.fields product))
               (Product.inStock updated)
          /\ Contract.merged (Product.isFeatured existing)
               (PartialInsertProduct.isFeatured
                  (ProductPayload.fields product))
               (Product.isFeatured updated)
          /\ Contract.merged (Product.isLimited existing)
               (PartialInsertProduct.isLimited (ProductPayload.fields product))
               (Product.isLimited updated)
          /\ Contract.merged (Product.limitedCount existing)
               (PartialInsertProduct.limitedCount
                  (ProductPayload.fields product))
               (Product.limitedCount updated)
          /\ Contract.merged (Product.sustainableMaterials existing)
               (PartialInsertProduct.sustainableMaterials
                  (ProductPayload.fields product))
               (Product.sustainableMaterials updated)
          /\ Contract.merged (Product.madeIn existing)
               (PartialInsertProduct.madeIn (ProductPayload.fields product))
               (Product.madeIn updated)
  end.
Proof.
  unfold MemStorage.getProduct, MemStorage.updateProduct.
  destruct (JsMap.get (MemStorage.products this) id) as [existing|] eqn:G;
    [|reflexivity].
  split; [reflexivity|].
  exists (MemStorage.mergeProduct existing product).
  split; [reflexivity|]. split; [simpl; apply JsMap_get_set_eq|].
  destruct product as [i ca [n d p dp im c s fe l lc sm mi]]. simpl.
  repeat split;
    match goal with
    | |- Contract.merged _ ?x _ => destruct x; reflexivity
    end.
Qed.

(** ** Creation and identity *)

Lemma wf_id_below (n : Z) (es : list (Z * Z)) (key id : Z) :
  Inv.wf n es -> In (key, id) es -> key < n /\ id = key.
Proof.
  intros [_ Hb] Hin. unfold Inv.below in Hb. rewrite Forall_forall in Hb.
  exact (Hb _ Hin).
Qed.



Lemma keyed_own_wf (n : Z) (es : list (Z * Z)) :
  Inv.keyed n es -> Forall (fun e => snd e = fst e) es -> Inv.wf n es.
Proof.
  intros [Ha Hb] Hown. split; [exact Ha|].
  unfold Inv.below, Inv.keysBelow in *. rewrite Forall_forall in *.
  intros e He. split; [|now apply Hown]. apply Hb. now apply in_map.
Qed.




(** *** The ids of the stored products *)

Lemma own_set {V : Type} (idf : V -> Z) (m : JsMap.t V) (k : Z) (v : V) :
  Forall (fun e => snd e = fst e) (Inv.entries_of idf m) ->
  idf v = k ->
  Forall (fun e => snd e = fst e) (Inv.entries_of idf (JsMap.set m k v)).
Proof.
  unfold Inv.entries_of. intros H Hv.
  induction m as [|[k' v'] m IH]; simpl.
  - constructor; [exact Hv | constructor].
  - simpl in H. apply Forall_cons_iff in H as [He Hrest].
    destruct (k' =? k); simpl; constructor; auto.
Qed.

Lemma own_delete {V : Type} (idf : V -> Z) (m : JsMap.t V) (k : Z) :
  Forall (fun e => snd e = fst e) (Inv.entries_of idf m) ->
  Forall (fun e => snd e = fst e) (Inv.entries_of idf (JsMap.delete m k)).
Proof.
  unfold Inv.entries_of, JsMap.delete. rewrite !Forall_forall.
  intros H e He. apply in_map_iff in He as [kv [<- Hkv]].
  apply filter_In in Hkv as [Hkv _]. apply H.
  apply in_map_iff. exists kv. now split.
Qed.

Lemma own_get {V : Type} (idf : V -> Z) (m : JsMap.t V) (k : Z) (v : V) :
  Forall (fun e => snd e = fst e) (Inv.entries_of idf m) ->
  JsMap.get m k = Some v -> idf v = k.
Proof.
  unfold Inv.entries_of.
  induction m as [|[k' v'] m IH]; simpl; [discriminate|].
  intros H. inversion H as [|? ? He Hrest]; subst. simpl in He.
  destruct (k' =? k) eqn:E.
  - apply Z.eqb_eq in E. intros [= <-]. lia.
  - now apply IH.
Qed.

Lemma ownIds_run (c : MemStorage.Call) (this : MemStorage.t) :
  Inv.keepsIds c -> Inv.ownIds this -> Inv.ownIds (MemStorage.run c this).
Proof.
  unfold Inv.ownIds. intros Hc H.
  destruct c; simpl MemStorage.run; try exact H.
  - apply (own_set Product.id); [exact H | reflexivity].
  - unfold MemStorage.updateProduct.
    destruct (JsMap.get (MemStorage.products this) id) as [p|] eqn:G;
      [|exact H].
    apply (own_set Product.id); [exact H|].
    simpl in Hc. cbn. rewrite Hc. cbn.
    exact (own_get Product.id _ _ _ H G).
  - unfold MemStorage.deleteProduct.
    destruct (JsMap.has (MemStorage.products this) id); [|exact H].
    apply (own_delete Product.id). exact H.
  - unfold MemStorage.updateOrderStatus.
    destruct (JsMap.get (MemStorage.orders this) id); exact H.
  - unfold MemStorage.updateSetting.
    destruct (JsMap.get (MemStorage.settings this) id); exact H.
  - unfold MemStorage.deleteSetting.
    destruct (JsMap.has (MemStorage.settings this) id); exact H.
Qed.

Ltac seeded_own :=
  match goal with
  | |- Inv.ownIds (snd (MemStorage.createArticle ?s ?a ?n)) =>
      apply (ownIds_run (MemStorage.CreateArticle a n) s); [exact I|]
  | |- Inv.ownIds (snd (MemStorage.createProduct ?s ?p ?n)) =>
      apply (ownIds_run (MemStorage.CreateProduct p n) s); [exact I|]
  | |- Inv.ownIds (snd (MemStorage.createCategory ?s ?c)) =>
      apply (ownIds_run (MemStorage.CreateCategory c) s); [exact I|]
  end.

Lemma ownIds_new (clock : nat -> Date) : Inv.ownIds (MemStorage.new clock).
Proof.
  unfold MemStorage.new, MemStorage.initializeData. cbv zeta.
  repeat seeded_own.
  constructor.
Qed.











(** ** Lookups by a unique field *)

Section FirstMatch.
Context {V : Type} (idf : V -> Z).

Lemma ids_are_keys (n : Z) (m : JsMap.t V) :
  Inv.below n (Inv.entries_of idf m) ->
  map idf (JsMap.values m) = map fst (Inv.entries_of idf m).
Proof.
  unfold Inv.below, Inv.entries_of, JsMap.values.
  induction m as [|[k v] m IH]; simpl; [reflexivity|].
  intros H. inversion H as [|? ? [_ Hid] Hrest]; subst. simpl in Hid.
  now rewrite Hid, IH.
Qed.

Lemma wf_values_ascending (n : Z) (m : JsMap.t V) :
  Inv.wf n (Inv.entries_of idf m) ->
  StronglySorted Z.lt (map idf (JsMap.values m)).
Proof.
  intros [Ha Hb]. now rewrite (ids_are_keys n m Hb).
Qed.

Lemma find_first_match (p : V -> bool) (l : list V) :
  StronglySorted Z.lt (map idf l) ->
  Contract.first_match idf p l (find p l).
Proof.
  induction l as [|a l IH]; simpl; intros Hs.
  - intros x [].
  - inversion Hs as [|? ? Hs' Hall]; subst. specialize (IH Hs').
    destruct (p a) eqn:Pa.
    + split; [exact Pa|]. split.
      * exists [], l. split; [reflexivity | intros x []].
      * intros x [<- | Hx] _; [lia|].
        rewrite Forall_forall in Hall.
        assert (idf a < idf x) by (apply Hall; now apply in_map). lia.
    + destruct (find p l) as [e|]; simpl in *.
      * destruct IH as [Pe [[before [after [-> Hb]]] Hleast]].
        split; [exact Pe|]. split.
        -- exists (a :: before), after. split; [reflexivity|].
           intros x [<- | Hx]; [exact Pa | now apply Hb].
        -- intros x [<- | Hx] Px; [congruence | now apply Hleast].
      * intros x [<- | Hx]; [exact Pa | now apply IH].
Qed.

Lemma lookup_first_match (n : Z) (m : JsMap.t V) (p : V -> bool) :
  Inv.wf n (Inv.entries_of idf m) ->
  Contract.first_match idf p (JsMap.values m) (find p (JsMap.values m)).
Proof.
  intros Hwf. apply find_first_match. exact (wf_values_ascending n m Hwf).
Qed.
End FirstMatch.

(** C6. In every reachable state of [MemStorage] and for every lookup value,
    each lookup by a unique field ([getUserByEmail], [getUserByUsername],
    [getCategoryBySlug], [getArticleBySlug], [getSubscriberByEmail],
    [getSettingByKey]) returns the first stored entity, in the order of the
    mapping, whose field equals the value, which is the matching entity with
    the least id (the earliest created), and returns [undefined] when no
    stored entity matches. *)
Theorem C6_unique_lookup_first_match
  (this : MemStorage.t) (Hreach : MemStorage.reachable this)
  (value : string) :
  Contract.first_match User.id (fun e => String.eqb (User.email e) value)
    (JsMap.values (MemStorage.users this))
    (MemStorage.getUserByEmail this value)
  /\ Contract.first_match User.id (fun e => String.eqb (User.username e) value)
       (JsMap.values (MemStorage.users this))
       (MemStorage.getUserByUsername this value)
  /\ Contract.first_match Category.id (fun e => String.eqb (Category.slug e) value)
       (JsMap.values (MemStorage.categories this))
       (MemStorage.getCategoryBySlug this value)
  /\ Contract.first_match Article.id (fun e => String.eqb (Article.slug e) value)
       (JsMap.values (MemStorage.articles this))
       (MemStorage.getArticleBySlug this value)
  /\ Contract.first_match Subscriber.id
       (fun e => String.eqb (Subscriber.email e) value)
       (JsMap.values (MemStorage.subscribers this))
       (MemStorage.getSubscriberByEmail this value)
  /\ Contract.first_match Settings.id (fun e => String.eqb (Settings.key e) value)
       (JsMap.values (MemStorage.settings this))
       (MemStorage.getSettingByKey this value).
Proof.
  pose proof (invariant_reachable this Hreach) as Hinv.
  repeat apply conj.
  - exact (lookup_first_match User.id _ _ _ (invariant_wf _ Hinv MemStorage.KUser ltac:(discriminate))).
  - exact (lookup_first_match User.id _ _ _ (invariant_wf _ Hinv MemStorage.KUser ltac:(discriminate))).
  - exact (lookup_first_match Category.id _ _ _ (invariant_wf _ Hinv MemStorage.KCategory ltac:(discriminate))).
  - exact (lookup_first_match Article.id _ _ _ (invariant_wf _ Hinv MemStorage.KArticle ltac:(discriminate))).
  - exact (lookup_first_match Subscriber.id _ _ _
             (invariant_wf _ Hinv MemStorage.KSubscriber ltac:(discriminate))).
  - exact (lookup_first_match Settings.id _ _ _ (invariant_wf _ Hinv MemStorage.KSettings ltac:(discriminate))).
Qed.

Lemma C6_unique_lookup_first_match_witness :
  MemStorage.reachable Sample.duplicated
  /\ In (Category.mk 7 "Swim again" "swimwear")
       (JsMap.values (MemStorage.categories Sample.duplicated))
  /\ MemStorage.getCategoryBySlug Sample.duplicated "swimwear"
     = Some (Category.mk 1 "Swimwear" "swimwear")
  /\ Contract.first_match Category.id
       (fun e => String.eqb (Category.slug e) "swimwear")
       (JsMap.values (MemStorage.categories Sample.duplicated))
       (MemStorage.getCategoryBySlug Sample.duplicated "swimwear").
Proof.
  assert (Hreach : MemStorage.reachable Sample.duplicated)
    by (apply MemStorage.reachable_run, MemStorage.reachable_new).
  split; [exact Hreach|].
  split; [do 6 right; left; reflexivity|].
  split; [reflexivity|].
  exact (proj1 (proj2 (proj2
           (C6_unique_lookup_first_match Sample.duplicated Hreach
              "swimwear")))).
Defined.

(** ** Filtering and pagination *)

Lemma firstn_min_length {A : Type} (n : nat) (l : list A) :
  firstn (Nat.min n (List.length l)) l = firstn n l.
Proof.
  destruct (Nat.le_ge_cases n (List.length l)) as [H | H].
  - now rewrite Nat.min_l.
  - rewrite Nat.min_r by assumption.
    now rewrite firstn_all, firstn_all2.
Qed.

Lemma slice_drop_take {A : Type} (l : list A) (offset limit : Z) :
  0 <= offset -> 0 <= limit ->
  Js.slice l offset (offset + limit)
  = firstn (Z.to_nat limit) (skipn (Z.to_nat offset) l).
Proof.
  intros Ho Hl. unfold Js.slice, Js.clamp_index.
  destruct (offset <? 0) eqn:E1; [apply Z.ltb_lt in E1; lia|].
  destruct (offset + limit <? 0) eqn:E2; [apply Z.ltb_lt in E2; lia|].
  destruct (Z.le_gt_cases offset (Z.of_nat (List.length l))) as [H | H].
  - rewrite (Z.min_l offset) by assumption.
    rewrite <- (firstn_min_length (Z.to_nat limit)).
    f_equal. rewrite length_skipn. lia.
  - rewrite (Z.min_r offset) by lia. rewrite Z.min_r by lia.
    rewrite Z.sub_diag. simpl.
    rewrite (skipn_all2 l) by lia. now rewrite firstn_nil.
Qed.

Lemma slice_drop {A : Type} (l : list A) (offset : Z) :
  0 <= offset ->
  Js.slice l offset (offset + Z.of_nat (List.length l))
  = skipn (Z.to_nat offset) l.
Proof.
  intros Ho. rewrite slice_drop_take by lia.
  apply firstn_all2. rewrite length_skipn. lia.
Qed.

Lemma slice_paginate {A : Type} (l : list A) (offset limit : option Z) :
  Spec.natural offset -> Spec.natural limit ->
  Js.slice l (Js.num_or offset 0)
    (Js.num_or offset 0 + Js.num_or limit (Z.of_nat (List.length l)))
  = let remaining :=
      match Js.truthy_num offset with
      | Some o => skipn (Z.to_nat o) l
      | None => l
      end in
    match Js.truthy_num limit with
    | Some n => firstn (Z.to_nat n) remaining
    | None => remaining
    end.
Proof.
  intros Ho Hl.
  assert (Hoff : 0 <= Js.num_or offset 0
                 /\ match Js.truthy_num offset with
                    | Some o => skipn (Z.to_nat o) l
                    | None => l
                    end = skipn (Z.to_nat (Js.num_or offset 0)) l).
  { destruct offset as [o|]; simpl in *; [|split; [lia | reflexivity]].
    destruct (o =? 0) eqn:E; split; (lia || reflexivity). }
  destruct Hoff as [Hge ->]. cbv zeta.
  destruct limit as [n|]; simpl in *; [|now apply slice_drop].
  destruct (n =? 0) eqn:E; [now apply slice_drop | now apply slice_drop_take].
Qed.

(** C3, as the code has it.  For an offset and a limit that are absent or
    not negative, [MemStorage.getProducts] filters by the category when a
    non-empty one is supplied and by the featured flag when one is supplied,
    then drops the first [offset] elements, then keeps at most [limit]
    elements when the limit is positive; an absent (or [0]) offset drops
    nothing and an absent or [0] limit keeps all that remain.  On any five
    products and no filter, [{ limit: 2, offset: 1 }] returns the elements
    at positions 1 and 2. *)
Theorem C3_getProducts_filters_then_paginates
  (this : MemStorage.t) (options : option ProductOptions.t)
  (Hoffset : Spec.natural (Js.chain options ProductOptions.offset))
  (Hlimit : Spec.natural (Js.chain options ProductOptions.limit)) :
  MemStorage.getProducts this options
  = Spec.getProducts (JsMap.values (MemStorage.products this))
      (Spec.effective options)
  /\ forall k0 p0 k1 p1 k2 p2 k3 p3 k4 p4,
      MemStorage.getProducts
        (MemStorage.set_products this
           [(k0, p0); (k1, p1); (k2, p2); (k3, p3); (k4, p4)])
        (Some Sample.limit2offset1)
      = [p1; p2].
Proof.
  split; [|reflexivity].
  unfold MemStorage.getProducts, Spec.getProducts, Spec.effective.
  cbn [Js.chain ProductOptions.category ProductOptions.featured
       ProductOptions.offset ProductOptions.limit].
  cbv zeta. now rewrite slice_paginate.
Qed.

Lemma C3_getProducts_filters_then_paginates_witness :
  MemStorage.getProducts Sample.store (Some Sample.limit2offset1)
  = Spec.getProducts (JsMap.values (MemStorage.products Sample.store))
      (Spec.effective (Some Sample.limit2offset1)).
Proof.
  refine (proj1 (C3_getProducts_filters_then_paginates Sample.store
                   (Some Sample.limit2offset1) _ _)); simpl; lia.
Defined.

(** The claim C3 as it is written fails on the constructed store: with
    [{ limit: 0 }] the code returns all eleven products where at most zero
    are to be kept, with [{ category: "" }] it returns all eleven where only
    products of the empty category are to pass the filter, and with
    [{ offset: -1 }] it returns none where nothing is to be dropped. *)
Lemma C3_getProducts_counterexample :
  MemStorage.getProducts Sample.store (Some Sample.limit0)
  <> Spec.getProducts (JsMap.values (MemStorage.products Sample.store))
       (Some Sample.limit0)
  /\ MemStorage.getProducts Sample.store (Some Sample.emptyCategory)
     <> Spec.getProducts (JsMap.values (MemStorage.products Sample.store))
          (Some Sample.emptyCategory)
  /\ MemStorage.getProducts Sample.store (Some Sample.offsetMinus1)
     <> Spec.getProducts (JsMap.values (MemStorage.products Sample.store))
          (Some Sample.offsetMinus1).
Proof.
  repeat split; intros H; apply (f_equal (@List.length _)) in H;
    vm_compute in H; discriminate.
Qed.

(** C8. In [MemStorage], [getProducts] and [getArticles] read a limit of [0]
    and an offset of [0] as they read an absent one, so [{ limit: 0 }]
    returns every element and not the empty sequence; in [DatabaseStorage]
    the queries built for a [0] limit or offset are the queries built
    without them, and so are their results. *)
Theorem C8_zero_limit_and_offset_are_absent :
  (forall this offset category featured,
      MemStorage.getProducts this
        (Some (ProductOptions.mk (Some 0) offset category featured))
      = MemStorage.getProducts this
          (Some (ProductOptions.mk None offset category featured)))
  /\ (forall this limit category featured,
        MemStorage.getProducts this
          (Some (ProductOptions.mk limit (Some 0) category featured))
        = MemStorage.getProducts this
            (Some (ProductOptions.mk limit None category featured)))
  /\ (forall this,
        MemStorage.getProducts this (Some Sample.limit0)
        = JsMap.values (MemStorage.products this))
  /\ (forall this offset category,
        MemStorage.getArticles this
          (Some (ArticleOptions.mk (Some 0) offset category))
        = MemStorage.getArticles this
            (Some (ArticleOptions.mk None offset category)))
  /\ (forall this limit category,
        MemStorage.getArticles this
          (Some (ArticleOptions.mk limit (Some 0) category))
        = MemStorage.getArticles this
            (Some (ArticleOptions.mk limit None category)))
  /\ (forall this,
        MemStorage.getArticles this
          (Some (ArticleOptions.mk (Some 0) None None))
        = JsMap.values (MemStorage.articles this))
  /\ (forall offset category featured,
        DatabaseStorage.getProductsQuery
          (Some (ProductOptions.mk (Some 0) offset category featured))
        = DatabaseStorage.getProductsQuery
            (Some (ProductOptions.mk None offset category featured)))
  /\ (forall limit category featured,
        DatabaseStorage.getProductsQuery
          (Some (ProductOptions.mk limit (Some 0) category featured))
        = DatabaseStorage.getProductsQuery
            (Some (ProductOptions.mk limit None category featured)))
  /\ (forall offset category,
        DatabaseStorage.getArticlesQuery
          (Some (ArticleOptions.mk (Some 0) offset category))
        = DatabaseStorage.getArticlesQuery
            (Some (ArticleOptions.mk None offset category)))
  /\ (forall limit category,
        DatabaseStorage.getArticlesQuery
          (Some (ArticleOptions.mk limit (Some 0) category))
        = DatabaseStorage.getArticlesQuery
            (Some (ArticleOptions.mk limit None category)))
  /\ (forall collate db offset category featured,
        DatabaseStorage.getProducts collate db
          (Some (ProductOptions.mk (Some 0) offset category featured))
        = DatabaseStorage.getProducts collate db
            (Some (ProductOptions.mk None offset category featured)))
  /\ (forall collate db limit category,
        DatabaseStorage.getArticles collate db
          (Some (ArticleOptions.mk limit (Some 0) category))
        = DatabaseStorage.getArticles collate db
            (Some (ArticleOptions.mk limit None category))).
Proof.
  repeat apply conj; try reflexivity.
  - intros this. unfold MemStorage.getProducts. simpl.
    exact (slice_drop _ 0 (Z.le_refl 0)).
  - intros this. unfold MemStorage.getArticles. simpl.
    exact (slice_drop _ 0 (Z.le_refl 0)).
Qed.

(** C9. In both backends the empty string as the category imposes no filter:
    [getProducts], [getArticles] and [getSettings] of [MemStorage] return
    what they return without a category, and [DatabaseStorage] builds the
    query it builds without a category, with the same result. *)
Theorem C9_empty_category_is_no_filter :
  (forall this limit offset featured,
      MemStorage.getProducts this
        (Some (ProductOptions.mk limit offset (Some "") featured))
      = MemStorage.getProducts this
          (Some (ProductOptions.mk limit offset None featured)))
  /\ (forall this limit offset,
        MemStorage.getArticles this
          (Some (ArticleOptions.mk limit offset (Some "")))
        = MemStorage.getArticles this
            (Some (ArticleOptions.mk limit offset None)))
  /\ (forall localeCompare this,
        MemStorage.getSettings localeCompare this (Some "")
        = MemStorage.getSettings localeCompare this None)
  /\ (forall limit offset featured,
        DatabaseStorage.getProductsQuery
          (Some (ProductOptions.mk limit offset (Some "") featured))
        = DatabaseStorage.getProductsQuery
            (Some (ProductOptions.mk limit offset None featured)))
  /\ (forall limit offset,
        DatabaseStorage.getArticlesQuery
          (Some (ArticleOptions.mk limit offset (Some "")))
        = DatabaseStorage.getArticlesQuery
            (Some (ArticleOptions.mk limit offset None)))
  /\ DatabaseStorage.getSettingsQuery (Some "")
     = DatabaseStorage.getSettingsQuery None
  /\ (forall collate db limit offset featured,
        DatabaseStorage.getProducts collate db
          (Some (ProductOptions.mk limit offset (Some "") featured))
        = DatabaseStorage.getProducts collate db
            (Some (ProductOptions.mk limit offset None featured)))
  /\ (forall collate db limit offset,
        DatabaseStorage.getArticles collate db
          (Some (ArticleOptions.mk limit offset (Some "")))
        = DatabaseStorage.getArticles collate db
            (Some (ArticleOptions.mk limit offset None)))
  /\ (forall collate db,
        DatabaseStorage.getSettings collate db (Some "")
        = DatabaseStorage.getSettings collate db None).
Proof.
  repeat apply conj; reflexivity.
Qed.


(** * Further properties of the storage code *)

(** ** Listings: what [slice] and the filters let through *)

Lemma slice_segment {A : Type} (l : list A) (start end_ : Z) :
  Listing.segment (Js.slice l start end_) l.
Proof.
  unfold Js.slice.
  set (k := Z.to_nat (Js.clamp_index (Z.of_nat (List.length l)) start)).
  set (n := Z.to_nat (_ - _)).
  exists (firstn k l), (skipn n (skipn k l)).
  now rewrite firstn_skipn, firstn_skipn.
Qed.

Lemma slice_length_le {A : Type} (l : list A) (offset limit : Z) :
  0 < limit ->
  Z.of_nat (List.length (Js.slice l offset (offset + limit))) <= limit.
Proof.
  intros Hl. unfold Js.slice, Js.clamp_index. rewrite length_firstn.
  set (len := Z.of_nat (List.length l)).
  assert (0 <= len) by (subst len; lia).
  destruct (offset <? 0) eqn:E1; destruct (offset + limit <? 0) eqn:E2;
    try apply Z.ltb_lt in E1; try apply Z.ltb_ge in E1;
    try apply Z.ltb_lt in E2; try apply Z.ltb_ge in E2; lia.
Qed.

Lemma filter_filter {A : Type} (f g : A -> bool) (l : list A) :
  filter g (filter f l) = filter (fun x => f x && g x) l.
Proof.
  induction l as [|a l IH]; simpl; [reflexivity|].
  destruct (f a); simpl; [destruct (g a); now rewrite IH | exact IH].
Qed.

Lemma filter_comm {A : Type} (f g : A -> bool) (l : list A) :
  filter g (filter f l) = filter f (filter g l).
Proof.
  rewrite !filter_filter. apply filter_ext. intros a. apply andb_comm.
Qed.

Lemma filter_true {A : Type} (l : list A) : filter (fun _ => true) l = l.
Proof. induction l as [|a l IH]; simpl; [reflexivity | now rewrite IH]. Qed.

Lemma products_filtered (options : option ProductOptions.t)
  (l : list Product.t) :
  match Js.chain options ProductOptions.featured with
  | Some featured =>
      filter (fun product =>
                Js.nullable_bool_eqb (Product.isFeatured product) featured)
        match Js.truthy_string (Js.chain options ProductOptions.category) with
        | Some category =>
            filter (fun product =>
                      String.eqb (Product.category product) category) l
        | None => l
        end
  | None =>
      match Js.truthy_string (Js.chain options ProductOptions.category) with
      | Some category =>
          filter (fun product =>
                    String.eqb (Product.category product) category) l
      | None => l
      end
  end
  = filter (Listing.selectsProduct options) l.
Proof.
  unfold Listing.selectsProduct.
  destruct (Js.chain options ProductOptions.featured) as [fe|];
    destruct (Js.truthy_string (Js.chain options ProductOptions.category))
      as [c|].
  - apply filter_filter.
  - apply filter_ext. reflexivity.
  - apply filter_ext. intros a. now rewrite andb_true_r.
  - symmetry. apply filter_true.
Qed.

Lemma articles_filtered (options : option ArticleOptions.t)
  (l : list Article.t) :
  match Js.truthy_string (Js.chain options ArticleOptions.category) with
  | Some category =>
      filter (fun article =>
                Js.nullable_eqb (Article.category article) category) l
  | None => l
  end
  = filter (Listing.selectsArticle options) l.
Proof.
  unfold Listing.selectsArticle.
  destruct (Js.truthy_string (Js.chain options ArticleOptions.category)).
  - reflexivity.
  - symmetry. apply filter_true.
Qed.

(** The shape of [getProducts]: a slice of the selected products. *)
Lemma getProducts_slice (this : MemStorage.t)
  (options : option ProductOptions.t) :
  let selected :=
    filter (Listing.selectsProduct options)
      (JsMap.values (MemStorage.products this)) in
  MemStorage.getProducts this options
  = Js.slice selected
      (Js.num_or (Js.chain options ProductOptions.offset) 0)
      (Js.num_or (Js.chain options ProductOptions.offset) 0
       + Js.num_or (Js.chain options ProductOptions.limit)
           (Z.of_nat (List.length selected))).
Proof.
  unfold MemStorage.getProducts. cbv zeta.
  now rewrite (products_filtered options).
Qed.

Lemma getArticles_slice (this : MemStorage.t)
  (options : option ArticleOptions.t) :
  let selected :=
    filter (Listing.selectsArticle options)
      (JsMap.values (MemStorage.articles this)) in
  MemStorage.getArticles this options
  = Js.slice selected
      (Js.num_or (Js.chain options ArticleOptions.offset) 0)
      (Js.num_or (Js.chain options ArticleOptions.offset) 0
       + Js.num_or (Js.chain options ArticleOptions.limit)
           (Z.of_nat (List.length selected))).
Proof.
  unfold MemStorage.getArticles. cbv zeta.
  now rewrite (articles_filtered options).
Qed.

(** X1. Whatever the options (also a negative or oversized offset or limit),
    [MemStorage.getProducts] and [MemStorage.getArticles] return a run of
    consecutive elements of the stored values that pass the supplied
    filters, in stored order: nothing is invented, reordered or let through
    a filter. *)
Theorem X1_listing_is_a_segment_of_the_selected
  (this : MemStorage.t) :
  (forall options,
      Listing.segment (MemStorage.getProducts this options)
        (filter (Listing.selectsProduct options)
           (JsMap.values (MemStorage.products this))))
  /\ (forall options,
        Listing.segment (MemStorage.getArticles this options)
          (filter (Listing.selectsArticle options)
             (JsMap.values (MemStorage.articles this)))).
Proof.
  split; intros options.
  - rewrite getProducts_slice. apply slice_segment.
  - rewrite getArticles_slice. apply slice_segment.
Qed.

(** X2. A positive limit bounds the page: with [limit > 0],
    [MemStorage.getProducts] and [MemStorage.getArticles] return at most
    [limit] elements, whatever the offset and the filters. *)
Theorem X2_positive_limit_bounds_the_page
  (this : MemStorage.t) (limit : Z) (Hlimit : 0 < limit) :
  (forall offset category featured,
      Z.of_nat (List.length
                  (MemStorage.getProducts this
                     (Some (ProductOptions.mk (Some limit) offset category
                              featured))))
      <= limit)
  /\ (forall offset category,
        Z.of_nat (List.length
                    (MemStorage.getArticles this
                       (Some (ArticleOptions.mk (Some limit) offset
                                category))))
        <= limit).
Proof.
  assert (Hnum : forall d, Js.num_or (Some limit) d = limit).
  { intros d. unfold Js.num_or.
    destruct (limit =? 0) eqn:E; [apply Z.eqb_eq in E; lia | reflexivity]. }
  split; intros.
  - rewrite getProducts_slice. cbv zeta.
    cbn [Js.chain ProductOptions.limit ProductOptions.offset].
    rewrite Hnum. now apply slice_length_le.
  - rewrite getArticles_slice. cbv zeta.
    cbn [Js.chain ArticleOptions.limit ArticleOptions.offset].
    rewrite Hnum. now apply slice_length_le.
Qed.

Lemma X2_positive_limit_bounds_the_page_witness :
  Z.of_nat (List.length
              (MemStorage.getProducts Sample.store
                 (Some (ProductOptions.mk (Some 3) (Some (-5)) None None))))
  <= 3.
Proof.
  refine (proj1 (X2_positive_limit_bounds_the_page Sample.store 3 _)
            (Some (-5)) None None).
  lia.
Defined.

(** X3. A negative limit is not rejected: without an offset,
    [MemStorage.getProducts] and [MemStorage.getArticles] with
    [limit = -n] return the selected elements without the last [n]. *)
Theorem X3_negative_limit_drops_from_the_end
  (this : MemStorage.t) (limit : Z) (Hlimit : limit < 0) :
  (forall category featured,
      let options :=
        Some (ProductOptions.mk (Some limit) None category featured) in
      let selected :=
        filter (Listing.selectsProduct options)
          (JsMap.values (MemStorage.products this)) in
      MemStorage.getProducts this options
      = firstn (List.length selected - Z.to_nat (- limit)) selected)
  /\ (forall category,
        let options := Some (ArticleOptions.mk (Some limit) None category) in
        let selected :=
          filter (Listing.selectsArticle options)
            (JsMap.values (MemStorage.articles this)) in
        MemStorage.getArticles this options
        = firstn (List.length selected - Z.to_nat (- limit)) selected).
Proof.
  assert (Hnum : forall d, Js.num_or (Some limit) d = limit).
  { intros d. unfold Js.num_or.
    destruct (limit =? 0) eqn:E; [apply Z.eqb_eq in E; lia | reflexivity]. }
  assert (Hslice : forall (A : Type) (l : list A),
             Js.slice l 0 (0 + limit)
             = firstn (List.length l - Z.to_nat (- limit)) l).
  { intros A l. unfold Js.slice, Js.clamp_index.
    change (0 <? 0) with false. cbv iota.
    destruct (0 + limit <? 0) eqn:E; [|apply Z.ltb_ge in E; lia].
    rewrite Z.min_l by lia. simpl skipn. f_equal. lia. }
  split; intros; subst options selected.
  - rewrite getProducts_slice. cbv zeta.
    cbn [Js.chain ProductOptions.limit ProductOptions.offset].
    rewrite Hnum. change (Js.num_or None 0) with 0. apply Hslice.
  - rewrite getArticles_slice. cbv zeta.
    cbn [Js.chain ArticleOptions.limit ArticleOptions.offset].
    rewrite Hnum. change (Js.num_or None 0) with 0. apply Hslice.
Qed.

Lemma X3_negative_limit_drops_from_the_end_witness :
  List.length
    (MemStorage.getProducts Sample.store
       (Some (ProductOptions.mk (Some (-1)) None None None)))
  = 10%nat.
Proof.
  rewrite (proj1 (X3_negative_limit_drops_from_the_end Sample.store (-1)
                    ltac:(lia)) None None).
  reflexivity.
Defined.

(** ** How the writes of the in-memory store compose with its reads *)

Section JsMapWrites.
Context {V : Type}.
Implicit Types (m : JsMap.t V) (k : Z) (v : V).

Lemma JsMap_set_split m k v v0 :
  JsMap.get m k = Some v0 ->
  exists l1 l2,
    m = l1 ++ (k, v0) :: l2
    /\ JsMap.set m k v = l1 ++ (k, v) :: l2
    /\ JsMap.get l1 k = None.
Proof.
  induction m as [|[k' v'] m IH]; simpl; [discriminate|].
  destruct (k' =? k) eqn:E.
  - apply Z.eqb_eq in E; subst k'. intros [= ->].
    exists [], m. repeat split.
  - intros H. destruct (IH H) as [l1 [l2 [-> [Hs Hl1]]]].
    exists ((k', v') :: l1), l2. simpl. rewrite Hs, E. repeat split.
    exact Hl1.
Qed.

Lemma JsMap_keys_set_present m k v v0 :
  JsMap.get m k = Some v0 -> JsMap.keys (JsMap.set m k v) = JsMap.keys m.
Proof.
  intros H. destruct (JsMap_set_split m k v v0 H) as [l1 [l2 [-> [-> _]]]].
  unfold JsMap.keys. now rewrite !map_app.
Qed.

Lemma JsMap_values_set_present m k v v0 :
  JsMap.get m k = Some v0 ->
  exists before after,
    JsMap.values m = before ++ v0 :: after
    /\ JsMap.values (JsMap.set m k v) = before ++ v :: after.
Proof.
  intros H. destruct (JsMap_set_split m k v v0 H) as [l1 [l2 [-> [-> _]]]].
  exists (map snd l1), (map snd l2). unfold JsMap.values.
  now rewrite !map_app.
Qed.

Variable idf : V -> Z.

Lemma JsMap_set_appends n m v :
  Inv.wf n (Inv.entries_of idf m) -> JsMap.set m n v = m ++ [(n, v)].
Proof.
  intros Hwf. apply JsMap_set_fresh. exact (wf_keys_fresh idf n m Hwf).
Qed.

Lemma JsMap_values_set_fresh n m v :
  Inv.keyed n (Inv.entries_of idf m) ->
  JsMap.values (JsMap.set m n v) = JsMap.values m ++ [v].
Proof.
  intros Hk. rewrite (JsMap_set_fresh m n v (keyed_keys_fresh idf n m Hk)).
  unfold JsMap.values. now rewrite map_app.
Qed.

Lemma JsMap_values_set_appends n m v :
  Inv.wf n (Inv.entries_of idf m) ->
  JsMap.values (JsMap.set m n v) = JsMap.values m ++ [v].
Proof.
  intros Hwf. rewrite (JsMap_set_appends n m v Hwf).
  unfold JsMap.values. now rewrite map_app.
Qed.

Lemma JsMap_values_delete_own m k :
  Forall (fun e => snd e = fst e) (Inv.entries_of idf m) ->
  JsMap.values (JsMap.delete m k)
  = filter (fun v => negb (idf v =? k)) (JsMap.values m).
Proof.
  intros Hb. unfold Inv.entries_of in Hb.
  unfold JsMap.values, JsMap.delete.
  induction m as [|[k' v'] m IH]; simpl in *; [reflexivity|].
  apply Forall_cons_iff in Hb as [Hid Hrest]. simpl in Hid.
  rewrite Hid. destruct (k' =? k); simpl; now rewrite IH.
Qed.

Lemma JsMap_get_None_values_own m k :
  Forall (fun e => snd e = fst e) (Inv.entries_of idf m) ->
  JsMap.get m k = None ->
  filter (fun v => negb (idf v =? k)) (JsMap.values m) = JsMap.values m.
Proof.
  intros Hb. unfold Inv.entries_of in Hb.
  unfold JsMap.values.
  induction m as [|[k' v'] m IH]; simpl in *; [reflexivity|].
  apply Forall_cons_iff in Hb as [Hid Hrest]. simpl in Hid.
  rewrite Hid. destruct (k' =? k); simpl; [discriminate|].
  intros H. now rewrite IH.
Qed.

Lemma wf_own n (es : list (Z * Z)) :
  Inv.wf n es -> Forall (fun e => snd e = fst e) es.
Proof.
  intros [_ Hb]. unfold Inv.below in Hb.
  eapply Forall_impl; [|exact Hb]. simpl. tauto.
Qed.

Lemma JsMap_values_delete n m k :
  Inv.wf n (Inv.entries_of idf m) ->
  JsMap.values (JsMap.delete m k)
  = filter (fun v => negb (idf v =? k)) (JsMap.values m).
Proof.
  intros Hwf. apply JsMap_values_delete_own. exact (wf_own _ _ Hwf).
Qed.

Lemma JsMap_get_None_values n m k :
  Inv.wf n (Inv.entries_of idf m) -> JsMap.get m k = None ->
  filter (fun v => negb (idf v =? k)) (JsMap.values m) = JsMap.values m.
Proof.
  intros Hwf. apply JsMap_get_None_values_own. exact (wf_own _ _ Hwf).
Qed.
End JsMapWrites.

Lemma getProducts_unpaginated (this : MemStorage.t)
  (options : option ProductOptions.t) :
  Listing.unpaginated (Js.chain options ProductOptions.limit)
    (Js.chain options ProductOptions.offset) ->
  MemStorage.getProducts this options
  = filter (Listing.selectsProduct options)
      (JsMap.values (MemStorage.products this)).
Proof.
  intros [Hl Ho]. rewrite getProducts_slice. cbv zeta.
  assert (Hoff : Js.num_or (Js.chain options ProductOptions.offset) 0 = 0).
  { destruct (Js.chain options ProductOptions.offset) as [o|];
      [|reflexivity].
    simpl in *. destruct (o =? 0) eqn:E; [reflexivity | discriminate]. }
  assert (Hlim : forall d,
             Js.num_or (Js.chain options ProductOptions.limit) d = d).
  { intros d. destruct (Js.chain options ProductOptions.limit) as [n|];
      [|reflexivity].
    simpl in *. destruct (n =? 0) eqn:E; [reflexivity | discriminate]. }
  rewrite Hoff, Hlim. exact (slice_drop _ 0 (Z.le_refl 0)).
Qed.

(** X4. In a reachable store, [MemStorage.createProduct] appends: an
    unpaginated [getProducts] afterwards returns what it returned before,
    followed by the new product when it passes the filters; every other id
    still fetches what it fetched; the other eight mappings and the other
    eight counters are as they were, and the product counter is one past
    the id of the new product. *)
Theorem X4_createProduct_appends_to_the_listing
  (this : MemStorage.t) (Hreach : MemStorage.reachable this)
  (product : InsertProduct.t) (now : Date) :
  let created := fst (MemStorage.createProduct this product now) in
  let after := snd (MemStorage.createProduct this product now) in
  (forall options,
      Listing.unpaginated (Js.chain options ProductOptions.limit)
        (Js.chain options ProductOptions.offset) ->
      MemStorage.getProducts after options
      = MemStorage.getProducts this options
        ++ filter (Listing.selectsProduct options) [created])
  /\ (forall j, j <> Product.id created ->
        MemStorage.getProduct after j = MemStorage.getProduct this j)
  /\ MemStorage.users after = MemStorage.users this
  /\ MemStorage.categories after = MemStorage.categories this
  /\ MemStorage.articles after = MemStorage.articles this
  /\ MemStorage.orders after = MemStorage.orders this
  /\ MemStorage.orderItems after = MemStorage.orderItems this
  /\ MemStorage.subscribers after = MemStorage.subscribers this
  /\ MemStorage.contacts after = MemStorage.contacts this
  /\ MemStorage.settings after = MemStorage.settings this
  /\ (forall k, k <> MemStorage.KProduct ->
        MemStorage.counter k after = MemStorage.counter k this)
  /\ MemStorage.counter MemStorage.KProduct after = Product.id created + 1.
Proof.
  pose proof (invariant_keyed this (invariant_reachable this Hreach)
                MemStorage.KProduct) as Hkeyed.
  cbv zeta. repeat apply conj; try reflexivity.
  - intros options Hun. rewrite !getProducts_unpaginated by assumption.
    simpl MemStorage.products.
    rewrite (JsMap_values_set_fresh Product.id _ _ _ Hkeyed).
    apply filter_app.
  - intros j Hj. unfold MemStorage.getProduct. simpl.
    apply JsMap_get_set_neq. simpl in Hj. congruence.
  - intros k Hk. destruct k; try contradiction; reflexivity.
Qed.

Lemma X4_createProduct_appends_to_the_listing_witness :
  MemStorage.getProducts
    (snd (MemStorage.createProduct Sample.store Sample.sarong 5))
    (Some (ProductOptions.mk None None (Some "resort-wear") None))
  = MemStorage.getProducts Sample.store
      (Some (ProductOptions.mk None None (Some "resort-wear") None))
    ++ filter
         (Listing.selectsProduct
            (Some (ProductOptions.mk None None (Some "resort-wear") None)))
         [fst (MemStorage.createProduct Sample.store Sample.sarong 5)].
Proof.
  refine (proj1 (X4_createProduct_appends_to_the_listing Sample.store
                   (MemStorage.reachable_new Sample.clock) Sample.sarong 5)
            (Some (ProductOptions.mk None None (Some "resort-wear") None)) _).
  split; reflexivity.
Defined.

(** X5. [MemStorage.updateProduct] never moves, adds or removes an entry:
    the ids of the products and their order are as before, every other id
    fetches what it fetched, and the other eight mappings and the nine
    counters are unchanged. *)
Theorem X5_updateProduct_frame
  (this : MemStorage.t) (id : Z) (product : ProductPayload.t) :
  let after := snd (MemStorage.updateProduct this id product) in
  JsMap.keys (MemStorage.products after)
  = JsMap.keys (MemStorage.products this)
  /\ (forall j, j <> id ->
        MemStorage.getProduct after j = MemStorage.getProduct this j)
  /\ MemStorage.users after = MemStorage.users this
  /\ MemStorage.categories after = MemStorage.categories this
  /\ MemStorage.articles after = MemStorage.articles this
  /\ MemStorage.orders after = MemStorage.orders this
  /\ MemStorage.orderItems after = MemStorage.orderItems this
  /\ MemStorage.subscribers after = MemStorage.subscribers this
  /\ MemStorage.contacts after = MemStorage.contacts this
  /\ MemStorage.settings after = MemStorage.settings this
  /\ (forall k, MemStorage.counter k after = MemStorage.counter k this).
Proof.
  unfold MemStorage.updateProduct.
  destruct (JsMap.get (MemStorage.products this) id) as [existing|] eqn:G;
    cbv zeta; simpl.
  - split; [exact (JsMap_keys_set_present _ _ _ _ G)|].
    split; [intros j Hj; unfold MemStorage.getProduct; simpl;
            now apply JsMap_get_set_neq|].
    repeat (split; [reflexivity|]). intros k. destruct k; reflexivity.
  - split; [reflexivity|]. split; [reflexivity|].
    repeat (split; [reflexivity|]). reflexivity.
Qed.

(** X6. Deleting twice is deleting once: after [MemStorage.deleteProduct i]
    (or [deleteSetting i]) a second call with the same id returns [false]
    and leaves the store as the first call left it. *)
Theorem X6_delete_is_idempotent (this : MemStorage.t) (i : Z) :
  MemStorage.deleteProduct (snd (MemStorage.deleteProduct this i)) i
  = (false, snd (MemStorage.deleteProduct this i))
  /\ MemStorage.deleteSetting (snd (MemStorage.deleteSetting this i)) i
     = (false, snd (MemStorage.deleteSetting this i)).
Proof.
  split.
  - unfold MemStorage.deleteProduct at 2 3. rewrite has_get.
    destruct (JsMap.get (MemStorage.products this) i) eqn:G; simpl.
    + unfold MemStorage.deleteProduct. rewrite has_get. simpl.
      now rewrite JsMap_get_delete_eq.
    + unfold MemStorage.deleteProduct. rewrite has_get. now rewrite G.
  - unfold MemStorage.deleteSetting at 2 3. rewrite has_get.
    destruct (JsMap.get (MemStorage.settings this) i) eqn:G; simpl.
    + unfold MemStorage.deleteSetting. rewrite has_get. simpl.
      now rewrite JsMap_get_delete_eq.
    + unfold MemStorage.deleteSetting. rewrite has_get. now rewrite G.
Qed.

(** X7. In a store whose products carry their keys as ids (which is
    every state that calls without an id in an update payload reach), an
    unpaginated [getProducts] after [MemStorage.deleteProduct i] returns
    what it returned before without the product whose id is [i], the
    others in their order. *)
Theorem X7_deleteProduct_removes_from_the_listing
  (this : MemStorage.t) (Hown : Inv.ownIds this) (i : Z)
  (options : option ProductOptions.t)
  (Hun : Listing.unpaginated (Js.chain options ProductOptions.limit)
           (Js.chain options ProductOptions.offset)) :
  MemStorage.getProducts (snd (MemStorage.deleteProduct this i)) options
  = filter (fun p => negb (Product.id p =? i))
      (MemStorage.getProducts this options).
Proof.
  rewrite !getProducts_unpaginated by assumption.
  rewrite filter_comm. f_equal.
  unfold MemStorage.deleteProduct. rewrite has_get.
  destruct (JsMap.get (MemStorage.products this) i) eqn:G; simpl.
  - now rewrite (JsMap_values_delete_own Product.id _ i Hown).
  - now rewrite (JsMap_get_None_values_own Product.id _ i Hown G).
Qed.

Lemma X7_deleteProduct_removes_from_the_listing_witness :
  Inv.ownIds Sample.store
  /\ map Product.id
       (MemStorage.getProducts (snd (MemStorage.deleteProduct Sample.store 2))
          (Some (ProductOptions.mk None None (Some "swimwear") None)))
     = [1; 3].
Proof.
  split; [exact (ownIds_new Sample.clock)|].
  rewrite (X7_deleteProduct_removes_from_the_listing Sample.store
             (ownIds_new Sample.clock) 2
             (Some (ProductOptions.mk None None (Some "swimwear") None))
             (conj eq_refl eq_refl)).
  reflexivity.
Defined.

Lemma filter_map_fst_set_present {V : Type} (p : V -> bool) (idf : V -> Z)
  (m : JsMap.t V) (k : Z) (v v0 : V) :
  JsMap.get m k = Some v0 -> p v = p v0 -> idf v = idf v0 ->
  map idf (filter p (JsMap.values (JsMap.set m k v)))
  = map idf (filter p (JsMap.values m)).
Proof.
  intros G Hp Hid.
  destruct (JsMap_values_set_present m k v v0 G) as [b [a [-> ->]]].
  rewrite !filter_app, !map_app. simpl. rewrite Hp.
  destruct (p v0); simpl; now rewrite ?Hid.
Qed.

(** X8. [MemStorage.updateOrderStatus] on a stored id returns and stores the
    order with the new status and every other field as it was, leaves the
    orders under other ids alone and keeps every user's list of orders (the
    same order ids in the same sequence); on an id that is not stored it
    returns [undefined] and leaves the store as it was. *)
Theorem X8_updateOrderStatus_changes_only_the_status
  (this : MemStorage.t) (id : Z) (status : string) :
  match MemStorage.getOrder this id with
  | None => MemStorage.updateOrderStatus this id status = (None, this)
  | Some order =>
      let updated :=
        Order.mk (Order.id order) (Order.userId order) status
          (Order.total order) (Order.shippingAddress order)
          (Order.billingAddress order) (Order.paymentMethod order)
          (Order.paymentStatus order) (Order.createdAt order) in
      let after := snd (MemStorage.updateOrderStatus this id status) in
      fst (MemStorage.updateOrderStatus this id status) = Some updated
      /\ MemStorage.getOrder after id = Some updated
      /\ (forall j, j <> id ->
            MemStorage.getOrder after j = MemStorage.getOrder this j)
      /\ (forall userId,
            map Order.id (MemStorage.getUserOrders after userId)
            = map Order.id (MemStorage.getUserOrders this userId))
  end.
Proof.
  unfold MemStorage.getOrder, MemStorage.updateOrderStatus.
  destruct (JsMap.get (MemStorage.orders this) id) as [order|] eqn:G;
    [|reflexivity].
  cbv zeta. simpl. split; [reflexivity|].
  split; [apply JsMap_get_set_eq|].
  split; [intros j Hj; now apply JsMap_get_set_neq|].
  intros userId. unfold MemStorage.getUserOrders. simpl.
  now apply (filter_map_fst_set_present _ Order.id _ _ _ order).
Qed.

(** X9. In a reachable store, [MemStorage.createOrderItem] appends to the
    items of its order and to no other: [getOrderItems o] afterwards is what
    it was before, followed by the new item exactly when the item's
    [orderId] is [o]. *)
Theorem X9_createOrderItem_appends_to_its_order
  (this : MemStorage.t) (Hreach : MemStorage.reachable this)
  (orderItem : InsertOrderItem.t) (orderId : Z) :
  let created := fst (MemStorage.createOrderItem this orderItem) in
  let after := snd (MemStorage.createOrderItem this orderItem) in
  MemStorage.getOrderItems after orderId
  = MemStorage.getOrderItems this orderId
    ++ (if InsertOrderItem.orderId orderItem =? orderId then [created]
        else []).
Proof.
  pose proof (invariant_wf _ (invariant_reachable this Hreach) MemStorage.KOrderItem ltac:(discriminate)) as Hwf.
  cbv zeta. unfold MemStorage.getOrderItems. simpl MemStorage.orderItems.
  rewrite (JsMap_values_set_appends OrderItem.id _ _ _ Hwf).
  rewrite filter_app. reflexivity.
Qed.

Lemma X9_createOrderItem_appends_to_its_order_witness :
  MemStorage.getOrderItems
    (snd (MemStorage.createOrderItem Sample.store
            (InsertOrderItem.mk 4 2 1 225))) 4
  = [OrderItem.mk 1 4 2 1 225].
Proof.
  rewrite (X9_createOrderItem_appends_to_its_order Sample.store
             (MemStorage.reachable_new Sample.clock)
             (InsertOrderItem.mk 4 2 1 225) 4).
  reflexivity.
Defined.

(** ** Settings listing: [sort] keeps every element and orders them *)

Section SortFacts.
Context {A : Type} (cmp : A -> A -> Z).

Lemma insert_sorted_perm (x : A) (l : list A) :
  Permutation (Js.insert_sorted cmp x l) (x :: l).
Proof.
  induction l as [|y l IH]; simpl; [reflexivity|].
  destruct (cmp y x <=? 0); [|reflexivity].
  rewrite IH. apply perm_swap.
Qed.

Lemma sort_fold_perm (l acc : list A) :
  Permutation (fold_left (fun acc x => Js.insert_sorted cmp x acc) l acc)
    (acc ++ l).
Proof.
  revert acc. induction l as [|x l IH]; intros acc; simpl.
  - now rewrite app_nil_r.
  - rewrite IH, insert_sorted_perm. apply Permutation_middle.
Qed.

Lemma sort_perm (l : list A) : Permutation (Js.sort cmp l) l.
Proof. exact (sort_fold_perm l []). Qed.

Hypothesis cmp_total : forall a b, cmp a b <= 0 \/ cmp b a <= 0.

Let le (a b : A) : Prop := cmp a b <= 0.

Lemma insert_sorted_HdRel (x y : A) (l : list A) :
  le y x -> HdRel le y l -> HdRel le y (Js.insert_sorted cmp x l).
Proof.
  intros Hyx Hy. destruct l as [|z l]; simpl; [now constructor|].
  destruct (cmp z x <=? 0); constructor; [now inversion Hy | exact Hyx].
Qed.

Lemma insert_sorted_Sorted (x : A) (l : list A) :
  Sorted le l -> Sorted le (Js.insert_sorted cmp x l).
Proof.
  induction 1 as [|y l Hs IH Hy]; simpl; [repeat constructor|].
  destruct (cmp y x <=? 0) eqn:E.
  - constructor; [exact IH|].
    apply insert_sorted_HdRel; [apply Z.leb_le in E; exact E | exact Hy].
  - apply Z.leb_gt in E. constructor; [now constructor|].
    constructor. unfold le. destruct (cmp_total x y); lia.
Qed.

Lemma sort_fold_Sorted (l acc : list A) :
  Sorted le acc ->
  Sorted le (fold_left (fun acc x => Js.insert_sorted cmp x acc) l acc).
Proof.
  revert acc. induction l as [|x l IH]; intros acc Hacc; simpl;
    [exact Hacc|].
  apply IH. now apply insert_sorted_Sorted.
Qed.

Lemma sort_Sorted (l : list A) : Sorted le (Js.sort cmp l).
Proof. apply sort_fold_Sorted. constructor. Qed.
End SortFacts.

Lemma settings_filtered (category : option string) (l : list Settings.t) :
  match Js.truthy_string category with
  | Some category =>
      filter (fun setting => String.eqb (Settings.category setting) category)
        l
  | None => l
  end
  = filter (Listing.selectsSetting category) l.
Proof.
  unfold Listing.selectsSetting. destruct (Js.truthy_string category).
  - reflexivity.
  - symmetry. apply filter_true.
Qed.

(** X10. Whatever comparator [localeCompare] is, [MemStorage.getSettings]
    returns a rearrangement of the stored settings that pass the category
    filter: each of them once, none lost, none added. *)
Theorem X10_getSettings_is_a_permutation_of_the_selected
  (localeCompare : string -> string -> Z) (this : MemStorage.t)
  (category : option string) :
  Permutation (MemStorage.getSettings localeCompare this category)
    (filter (Listing.selectsSetting category)
       (JsMap.values (MemStorage.settings this))).
Proof.
  unfold MemStorage.getSettings. cbv zeta.
  rewrite settings_filtered. apply sort_perm.
Qed.

(** X11. When [localeCompare] is total (of two keys, one does not compare
    greater than the other), [MemStorage.getSettings] returns the settings
    in ascending order of their keys. *)
Theorem X11_getSettings_is_sorted_by_key
  (localeCompare : string -> string -> Z)
  (Htotal : forall a b, localeCompare a b <= 0 \/ localeCompare b a <= 0)
  (this : MemStorage.t) (category : option string) :
  Sorted
    (fun a b => localeCompare (Settings.key a) (Settings.key b) <= 0)
    (MemStorage.getSettings localeCompare this category).
Proof.
  unfold MemStorage.getSettings. cbv zeta.
  apply (sort_Sorted
           (fun a b => localeCompare (Settings.key a) (Settings.key b))).
  intros a b. apply Htotal.
Qed.

Lemma X11_getSettings_is_sorted_by_key_witness :
  Sorted
    (fun a b => Sample.byLength (Settings.key a) (Settings.key b) <= 0)
    (MemStorage.getSettings Sample.byLength Sample.withSettings None)
  /\ map Settings.key
       (MemStorage.getSettings Sample.byLength Sample.withSettings None)
     = ["site.logo"; "site.theme"; "payment.currency"].
Proof.
  split; [|reflexivity].
  apply (X11_getSettings_is_sorted_by_key Sample.byLength).
  intros a b. unfold Sample.byLength. lia.
Defined.

(** ** Lookups by a unique field after a create *)

Lemma find_snoc {A : Type} (p : A -> bool) (l : list A) (x : A) :
  find p (l ++ [x]) = Listing.lookupAfterCreate (find p l) (p x) x.
Proof.
  induction l as [|a l IH]; simpl; [reflexivity|].
  destruct (p a); [reflexivity | exact IH].
Qed.

(** X12. In a reachable store the in-memory backend never prevents a
    duplicate and the first entity wins: after a create, each lookup by a
    unique field returns the entity it returned before when there was one,
    and otherwise the created entity exactly when its field equals the
    value looked up. *)
Theorem X12_lookup_after_create
  (this : MemStorage.t) (Hreach : MemStorage.reachable this)
  (value : string) :
  (forall user now,
      let created := fst (MemStorage.createUser this user now) in
      let after := snd (MemStorage.createUser this user now) in
      MemStorage.getUserByEmail after value
      = Listing.lookupAfterCreate (MemStorage.getUserByEmail this value)
          (String.eqb (InsertUser.email user) value) created
      /\ MemStorage.getUserByUsername after value
         = Listing.lookupAfterCreate
             (MemStorage.getUserByUsername this value)
             (String.eqb (InsertUser.username user) value) created)
  /\ (forall category,
        let created := fst (MemStorage.createCategory this category) in
        let after := snd (MemStorage.createCategory this category) in
        MemStorage.getCategoryBySlug after value
        = Listing.lookupAfterCreate
            (MemStorage.getCategoryBySlug this value)
            (String.eqb (InsertCategory.slug category) value) created)
  /\ (forall article now,
        let created := fst (MemStorage.createArticle this article now) in
        let after := snd (MemStorage.createArticle this article now) in
        MemStorage.getArticleBySlug after value
        = Listing.lookupAfterCreate (MemStorage.getArticleBySlug this value)
            (String.eqb (InsertArticle.slug article) value) created)
  /\ (forall subscriber now,
        let created :=
          fst (MemStorage.createSubscriber this subscriber now) in
        let after := snd (MemStorage.createSubscriber this subscriber now) in
        MemStorage.getSubscriberByEmail after value
        = Listing.lookupAfterCreate
            (MemStorage.getSubscriberByEmail this value)
            (String.eqb (InsertSubscriber.email subscriber) value) created)
  /\ (forall setting now now',
        let created := fst (MemStorage.createSetting this setting now now') in
        let after := snd (MemStorage.createSetting this setting now now') in
        MemStorage.getSettingByKey after value
        = Listing.lookupAfterCreate (MemStorage.getSettingByKey this value)
            (String.eqb (InsertSettings.key setting) value) created).
Proof.
  pose proof (invariant_reachable this Hreach) as Hinv.
  repeat apply conj; intros;
    repeat match goal with x := _ |- _ => subst x end;
    try apply conj.
  - unfold MemStorage.getUserByEmail. simpl MemStorage.users.
    rewrite (JsMap_values_set_appends User.id _ _ _
               (invariant_wf _ Hinv MemStorage.KUser ltac:(discriminate))).
    exact (find_snoc (fun e => String.eqb (User.email e) value) _ _).
  - unfold MemStorage.getUserByUsername. simpl MemStorage.users.
    rewrite (JsMap_values_set_appends User.id _ _ _
               (invariant_wf _ Hinv MemStorage.KUser ltac:(discriminate))).
    exact (find_snoc (fun e => String.eqb (User.username e) value) _ _).
  - unfold MemStorage.getCategoryBySlug. simpl MemStorage.categories.
    rewrite (JsMap_values_set_appends Category.id _ _ _
               (invariant_wf _ Hinv MemStorage.KCategory ltac:(discriminate))).
    exact (find_snoc (fun e => String.eqb (Category.slug e) value) _ _).
  - unfold MemStorage.getArticleBySlug. simpl MemStorage.articles.
    rewrite (JsMap_values_set_appends Article.id _ _ _
               (invariant_wf _ Hinv MemStorage.KArticle ltac:(discriminate))).
    exact (find_snoc (fun e => String.eqb (Article.slug e) value) _ _).
  - unfold MemStorage.getSubscriberByEmail. simpl MemStorage.subscribers.
    rewrite (JsMap_values_set_appends Subscriber.id _ _ _
               (invariant_wf _ Hinv MemStorage.KSubscriber ltac:(discriminate))).
    exact (find_snoc (fun e => String.eqb (Subscriber.email e) value) _ _).
  - unfold MemStorage.getSettingByKey. simpl MemStorage.settings.
    rewrite (JsMap_values_set_appends Settings.id _ _ _
               (invariant_wf _ Hinv MemStorage.KSettings ltac:(discriminate))).
    exact (find_snoc (fun e => String.eqb (Settings.key e) value) _ _).
Qed.

Lemma X12_lookup_after_create_witness :
  MemStorage.getCategoryBySlug Sample.duplicated "swimwear"
  = Some (Category.mk 1 "Swimwear" "swimwear").
Proof.
  refine (eq_trans
            (proj1 (proj2 (X12_lookup_after_create Sample.store
                             (MemStorage.reachable_new Sample.clock)
                             "swimwear"))
               (InsertCategory.mk "Swim again" "swimwear")) _).
  reflexivity.
Defined.

(** ** Ids are positive *)

Section PositiveFacts.
Context {V : Type} (idf : V -> Z).

Lemma positive_set (m : JsMap.t V) (k : Z) (v : V) :
  1 <= k ->
  Forall (fun e => 1 <= fst e) (Inv.entries_of idf m) ->
  Forall (fun e => 1 <= fst e) (Inv.entries_of idf (JsMap.set m k v)).
Proof.
  intros Hk. unfold Inv.entries_of.
  induction m as [|[k' v'] m IH]; simpl; intros H.
  - repeat constructor. exact Hk.
  - inversion H; subst. destruct (k' =? k); simpl; constructor; auto.
Qed.

Lemma positive_delete (m : JsMap.t V) (k : Z) :
  Forall (fun e => 1 <= fst e) (Inv.entries_of idf m) ->
  Forall (fun e => 1 <= fst e) (Inv.entries_of idf (JsMap.delete m k)).
Proof.
  unfold Inv.entries_of, JsMap.delete.
  induction m as [|[k' v'] m IH]; simpl; intros H; [constructor|].
  inversion H; subst. destruct (k' =? k); simpl; [auto | constructor; auto].
Qed.

Lemma positive_get (m : JsMap.t V) (k : Z) (v : V) :
  Forall (fun e => 1 <= fst e) (Inv.entries_of idf m) ->
  JsMap.get m k = Some v -> 1 <= k.
Proof.
  unfold Inv.entries_of.
  induction m as [|[k' v'] m IH]; simpl; intros H; [discriminate|].
  inversion H; subst. simpl in *.
  destruct (k' =? k) eqn:E; [apply Z.eqb_eq in E; intros _; lia | auto].
Qed.
End PositiveFacts.

Lemma positive_fresh : Ids.positive MemStorage.fresh.
Proof. intros k. destruct k; simpl; split; (lia || constructor). Qed.

(** The goal of a kind that the call leaves alone. *)
Ltac still_positive H :=
  match goal with
  | |- 1 <= MemStorage.counter ?k _ /\ _ => exact (H k)
  end.

(** The goal of the kind [K] after a create. *)
Ltac positive_created H K idf :=
  destruct (H K) as [? ?]; split;
  [simpl in *; lia | apply (positive_set idf); assumption].

Lemma positive_run (c : MemStorage.Call) (this : MemStorage.t) :
  Ids.positive this -> Ids.positive (MemStorage.run c this).
Proof.
  intros H k. destruct c; simpl MemStorage.run; try still_positive H.
  - destruct k; try still_positive H.
    positive_created H MemStorage.KUser User.id.
  - destruct k; try still_positive H.
    positive_created H MemStorage.KProduct Product.id.
  - unfold MemStorage.updateProduct.
    destruct (JsMap.get (MemStorage.products this) id) as [p|] eqn:G;
      [|still_positive H].
    destruct k; try still_positive H.
    destruct (H MemStorage.KProduct) as [Hc Hf]. split; [exact Hc|].
    apply (positive_set Product.id); [|exact Hf].
    exact (positive_get Product.id _ _ _ Hf G).
  - unfold MemStorage.deleteProduct.
    destruct (JsMap.has (MemStorage.products this) id); [|still_positive H].
    destruct k; try still_positive H.
    destruct (H MemStorage.KProduct) as [Hc Hf]. split; [exact Hc|].
    now apply (positive_delete Product.id).
  - destruct k; try still_positive H.
    positive_created H MemStorage.KCategory Category.id.
  - destruct k; try still_positive H.
    positive_created H MemStorage.KArticle Article.id.
  - destruct k; try still_positive H.
    positive_created H MemStorage.KOrder Order.id.
  - unfold MemStorage.updateOrderStatus.
    destruct (JsMap.get (MemStorage.orders this) id) as [o|] eqn:G;
      [|still_positive H].
    destruct k; try still_positive H.
    destruct (H MemStorage.KOrder) as [Hc Hf]. split; [exact Hc|].
    apply (positive_set Order.id); [|exact Hf].
    exact (positive_get Order.id _ _ _ Hf G).
  - destruct k; try still_positive H.
    positive_created H MemStorage.KOrderItem OrderItem.id.
  - destruct k; try still_positive H.
    positive_created H MemStorage.KSubscriber Subscriber.id.
  - destruct k; try still_positive H.
    positive_created H MemStorage.KContact Contact.id.
  - destruct k; try still_positive H.
    positive_created H MemStorage.KSettings Settings.id.
  - unfold MemStorage.updateSetting.
    destruct (JsMap.get (MemStorage.settings this) id) as [s|] eqn:G;
      [|still_positive H].
    destruct k; try still_positive H.
    destruct (H MemStorage.KSettings) as [Hc Hf]. split; [exact Hc|].
    apply (positive_set Settings.id); [|exact Hf].
    exact (positive_get Settings.id _ _ _ Hf G).
  - unfold MemStorage.deleteSetting.
    destruct (JsMap.has (MemStorage.settings this) id); [|still_positive H].
    destruct k; try still_positive H.
    destruct (H MemStorage.KSettings) as [Hc Hf]. split; [exact Hc|].
    now apply (positive_delete Settings.id).
Qed.

Ltac positive_seeded :=
  match goal with
  | |- Ids.positive (snd (MemStorage.createArticle ?s ?a ?n)) =>
      apply (positive_run (MemStorage.CreateArticle a n) s)
  | |- Ids.positive (snd (MemStorage.createProduct ?s ?p ?n)) =>
      apply (positive_run (MemStorage.CreateProduct p n) s)
  | |- Ids.positive (snd (MemStorage.createCategory ?s ?c)) =>
      apply (positive_run (MemStorage.CreateCategory c) s)
  end.

Lemma positive_reachable (this : MemStorage.t) :
  MemStorage.reachable this -> Ids.positive this.
Proof.
  induction 1 as [clock|c this Hr IH]; [|now apply positive_run].
  unfold MemStorage.new, MemStorage.initializeData. cbv zeta.
  repeat positive_seeded. apply positive_fresh.
Qed.

(** X13. In every reachable state of [MemStorage] every counter and every
    key of every mapping is at least 1, and so is the id that a stored
    entity of a kind other than the products carries: such an id is never
    the falsy [0].  (The id a product carries is whatever the last
    [updateProduct] payload with an [id] made it.) *)
Theorem X13_ids_are_positive
  (this : MemStorage.t) (Hreach : MemStorage.reachable this) :
  forall k,
    1 <= MemStorage.counter k this
    /\ (forall key id, In (key, id) (MemStorage.entries k this) ->
          1 <= key /\ (k <> MemStorage.KProduct -> 1 <= id)).
Proof.
  intros k. destruct (positive_reachable this Hreach k) as [Hc Hf].
  split; [exact Hc|]. intros key id Hin.
  rewrite Forall_forall in Hf. pose proof (Hf _ Hin) as Hk. simpl in Hk.
  split; [exact Hk|]. intros Hkind.
  destruct (wf_id_below _ _ _ _
              (invariant_wf _ (invariant_reachable this Hreach) k Hkind) Hin)
    as [_ ->].
  exact Hk.
Qed.

Lemma X13_ids_are_positive_witness :
  MemStorage.reachable Sample.duplicated
  /\ 1 <= MemStorage.counter MemStorage.KCategory Sample.duplicated
  /\ (forall key id,
        In (key, id)
           (MemStorage.entries MemStorage.KCategory Sample.duplicated) ->
        1 <= key /\ 1 <= id).
Proof.
  assert (Hreach : MemStorage.reachable Sample.duplicated)
    by apply MemStorage.reachable_run, MemStorage.reachable_new.
  split; [exact Hreach|].
  destruct (X13_ids_are_positive Sample.duplicated Hreach MemStorage.KCategory)
    as [Hc Hk].
  split; [exact Hc|]. intros key id Hin.
  destruct (Hk key id Hin) as [Hkey Hid].
  split; [exact Hkey | apply Hid; discriminate].
Defined.

(** ** The account routes *)

Lemma wf_get_of_In {V : Type} (idf : V -> Z) (n : Z) (m : JsMap.t V)
  (e : V) :
  Inv.wf n (Inv.entries_of idf m) -> In e (JsMap.values m) ->
  JsMap.get m (idf e) = Some e.
Proof.
  unfold Inv.wf, Inv.ascending, Inv.below, Inv.entries_of, JsMap.values.
  induction m as [|[k v] m IH]; simpl; intros [Ha Hb] Hin; [contradiction|].
  inversion Ha as [|? ? Hs Hall]; subst.
  inversion Hb as [|? ? [_ Hid] Hrest]; subst. simpl in Hid.
  destruct Hin as [<- | Hin].
  - now rewrite Hid, Z.eqb_refl.
  - assert (Hlt : k < idf e).
    { rewrite Forall_forall in Hall, Hrest.
      apply in_map_iff in Hin as [[k' e'] [He Hin]]. simpl in He. subst e'.
      assert (Hkey : idf e = k').
      { apply (Hrest (k', idf e)).
        apply in_map_iff. now exists (k', e). }
      rewrite Hkey. apply Hall. rewrite map_map. simpl.
      apply in_map_iff. now exists (k', e). }
    destruct (k =? idf e) eqn:E; [apply Z.eqb_eq in E; lia|].
    apply IH; [now split|].
    apply in_map_iff in Hin as [[k' e'] [He Hin]].
    apply in_map_iff. now exists (k', e').
Qed.

Lemma getUserByEmail_after_createUser (storage : MemStorage.t)
  (user : InsertUser.t) (now : Date) (value : string) :
  Inv.invariant storage ->
  MemStorage.getUserByEmail (snd (MemStorage.createUser storage user now))
    value
  = Listing.lookupAfterCreate (MemStorage.getUserByEmail storage value)
      (String.eqb (InsertUser.email user) value)
      (fst (MemStorage.createUser storage user now)).
Proof.
  intros Hinv. unfold MemStorage.getUserByEmail. simpl MemStorage.users.
  rewrite (JsMap_values_set_appends User.id _ _ _ (invariant_wf _ Hinv MemStorage.KUser ltac:(discriminate))).
  exact (find_snoc (fun e => String.eqb (User.email e) value) _ _).
Qed.

Lemma getSubscriberByEmail_after_createSubscriber (storage : MemStorage.t)
  (subscriber : InsertSubscriber.t) (now : Date) (value : string) :
  Inv.invariant storage ->
  MemStorage.getSubscriberByEmail
    (snd (MemStorage.createSubscriber storage subscriber now)) value
  = Listing.lookupAfterCreate (MemStorage.getSubscriberByEmail storage value)
      (String.eqb (InsertSubscriber.email subscriber) value)
      (fst (MemStorage.createSubscriber storage subscriber now)).
Proof.
  intros Hinv. unfold MemStorage.getSubscriberByEmail.
  simpl MemStorage.subscribers.
  rewrite (JsMap_values_set_appends Subscriber.id _ _ _
             (invariant_wf _ Hinv MemStorage.KSubscriber ltac:(discriminate))).
  exact (find_snoc (fun e => String.eqb (Subscriber.email e) value) _ _).
Qed.

Lemma getSettingByKey_after_createSetting (storage : MemStorage.t)
  (setting : InsertSettings.t) (now now' : Date) (value : string) :
  Inv.invariant storage ->
  MemStorage.getSettingByKey
    (snd (MemStorage.createSetting storage setting now now')) value
  = Listing.lookupAfterCreate (MemStorage.getSettingByKey storage value)
      (String.eqb (InsertSettings.key setting) value)
      (fst (MemStorage.createSetting storage setting now now')).
Proof.
  intros Hinv. unfold MemStorage.getSettingByKey. simpl MemStorage.settings.
  rewrite (JsMap_values_set_appends Settings.id _ _ _
             (invariant_wf _ Hinv MemStorage.KSettings ltac:(discriminate))).
  exact (find_snoc (fun e => String.eqb (Settings.key e) value) _ _).
Qed.

Lemma missing_false (s : string) : s <> "" -> Routes.missing (Some s) = false.
Proof.
  intros Hs. unfold Routes.missing, Js.truthy_string.
  destruct (String.eqb s "") eqn:E; [apply String.eqb_eq in E; contradiction|].
  reflexivity.
Qed.

Lemma authRegister_created {RawBody : Type}
  (parse : RawBody -> option InsertUser.t) (storage : MemStorage.t)
  (body : RawBody) (now : Date) (userData : InsertUser.t) :
  parse body = Some userData ->
  MemStorage.getUserByEmail storage (InsertUser.email userData) = None ->
  Routes.authRegister parse storage body now
  = ((201, Routes.Entity
             (Routes.withoutPassword
                (fst (MemStorage.createUser storage userData now)))),
     snd (MemStorage.createUser storage userData now)).
Proof.
  intros Hparse Hfree. unfold Routes.authRegister.
  now rewrite Hparse, Hfree.
Qed.

(** X14. Registration round trip.  In a reachable store, when the body
    parses to a user whose email and password are not empty and no stored
    user has that email, [POST /api/auth/register] answers 201 with the
    user without the password; [POST /api/auth/login] with that email and
    password then answers 200 with the same user and puts the user's id in
    the session, and [GET /api/auth/user] with that session answers 200
    with the same user. *)
Theorem X14_register_then_login
  {RawBody : Type} (parse : RawBody -> option InsertUser.t)
  (storage : MemStorage.t) (Hreach : MemStorage.reachable storage)
  (body : RawBody) (now : Date) (userData : InsertUser.t)
  (Hparse : parse body = Some userData)
  (Hemail : InsertUser.email userData <> "")
  (Hpassword : InsertUser.password userData <> "")
  (Hfree : MemStorage.getUserByEmail storage (InsertUser.email userData)
           = None) :
  let user := fst (MemStorage.createUser storage userData now) in
  let after := snd (Routes.authRegister parse storage body now) in
  fst (Routes.authRegister parse storage body now)
  = (201, Routes.Entity (Routes.withoutPassword user))
  /\ (forall session,
        Routes.authLogin after session
          (Some (InsertUser.email userData))
          (Some (InsertUser.password userData))
        = ((200, Routes.Entity (Routes.withoutPassword user)),
           Some (User.id user)))
  /\ Routes.authUser after (Some (User.id user))
     = (200, Routes.Entity (Routes.withoutPassword user)).
Proof.
  pose proof (invariant_reachable storage Hreach) as Hinv.
  pose proof (positive_reachable storage Hreach MemStorage.KUser)
    as [Hpos _].
  cbv zeta. rewrite (authRegister_created _ _ _ _ _ Hparse Hfree).
  cbn [fst snd]. split; [reflexivity|]. split.
  - intros session. unfold Routes.authLogin.
    rewrite (missing_false _ Hemail), (missing_false _ Hpassword).
    cbn [orb Js.nullish].
    rewrite (getUserByEmail_after_createUser _ _ _ _ Hinv).
    rewrite Hfree. unfold Listing.lookupAfterCreate.
    rewrite String.eqb_refl. simpl User.password.
    now rewrite String.eqb_refl.
  - unfold Routes.authUser. simpl User.id. simpl in Hpos.
    unfold Js.truthy_num.
    destruct (MemStorage.userId storage =? 0) eqn:E;
      [apply Z.eqb_eq in E; lia|].
    unfold MemStorage.getUser. simpl MemStorage.users.
    now rewrite JsMap_get_set_eq.
Qed.

Lemma X14_register_then_login_witness :
  fst (fst (Routes.authLogin
              (snd (Routes.authRegister (@Some InsertUser.t) Sample.store
                      Sample.asha 5))
              None (Some "asha@example.com") (Some "s3cret")))
  = 200.
Proof.
  destruct (X14_register_then_login (@Some InsertUser.t) Sample.store
              (MemStorage.reachable_new Sample.clock) Sample.asha 5
              Sample.asha eq_refl ltac:(discriminate) ltac:(discriminate)
              eq_refl) as [_ [Hlogin _]].
  change "asha@example.com" with (InsertUser.email Sample.asha).
  change "s3cret" with (InsertUser.password Sample.asha).
  rewrite (Hlogin None). reflexivity.
Defined.

Lemma find_none_not_in {A : Type} (field : A -> string) (value : string)
  (l : list A) :
  find (fun e => String.eqb (field e) value) l = None ->
  ~ In value (map field l).
Proof.
  intros Hnone Hin. apply in_map_iff in Hin as [e [He Hin]].
  pose proof (find_none _ _ Hnone e Hin) as H. simpl in H.
  rewrite He, String.eqb_refl in H. discriminate.
Qed.

Lemma NoDup_snoc {A : Type} (l : list A) (x : A) :
  NoDup l -> ~ In x l -> NoDup (l ++ [x]).
Proof.
  intros Hl Hx. apply (Permutation_NoDup (l := x :: l)).
  - apply Permutation_cons_append.
  - now constructor.
Qed.

(** X15. [POST /api/auth/register] keeps emails unique: from a reachable
    store in which no two users share an email, the store it leaves has no
    two users sharing an email either, whatever the body; and when a stored
    user already has the email of the parsed body, it answers 400 and
    leaves the store as it was. *)
Theorem X15_register_keeps_emails_unique
  {RawBody : Type} (parse : RawBody -> option InsertUser.t)
  (storage : MemStorage.t) (Hreach : MemStorage.reachable storage)
  (Hunique : NoDup (map User.email
                      (JsMap.values (MemStorage.users storage))))
  (body : RawBody) (now : Date) :
  NoDup (map User.email
           (JsMap.values
              (MemStorage.users
                 (snd (Routes.authRegister parse storage body now)))))
  /\ (forall userData existing,
        parse body = Some userData ->
        MemStorage.getUserByEmail storage (InsertUser.email userData)
        = Some existing ->
        Routes.authRegister parse storage body now
        = ((400, Routes.Message "Email already exists"), storage)).
Proof.
  pose proof (invariant_wf _ (invariant_reachable storage Hreach) MemStorage.KUser ltac:(discriminate)) as Hwf.
  split.
  - unfold Routes.authRegister.
    destruct (parse body) as [userData|]; [|exact Hunique].
    destruct (MemStorage.getUserByEmail storage (InsertUser.email userData))
      eqn:Hfind; [exact Hunique|].
    simpl MemStorage.users.
    rewrite (JsMap_values_set_appends User.id _ _ _ Hwf), map_app.
    apply NoDup_snoc; [exact Hunique|].
    exact (find_none_not_in User.email _ _ Hfind).
  - intros userData existing Hparse Hfind. unfold Routes.authRegister.
    now rewrite Hparse, Hfind.
Qed.

Lemma X15_register_keeps_emails_unique_witness :
  MemStorage.reachable Sample.registered
  /\ map User.email (JsMap.values (MemStorage.users Sample.registered))
     = ["asha@example.com"]
  /\ NoDup (map User.email
              (JsMap.values
                 (MemStorage.users
                    (snd (Routes.authRegister (@Some InsertUser.t)
                            Sample.registered Sample.ravi 6)))))
  /\ Routes.authRegister (@Some InsertUser.t) Sample.registered Sample.asha 6
     = ((400, Routes.Message "Email already exists"), Sample.registered).
Proof.
  assert (Hreach : MemStorage.reachable Sample.registered)
    by apply MemStorage.reachable_run, MemStorage.reachable_new.
  assert (Hunique : NoDup (map User.email
                             (JsMap.values
                                (MemStorage.users Sample.registered)))).
  { repeat constructor. simpl. tauto. }
  split; [exact Hreach|]. split; [reflexivity|]. split.
  - exact (proj1 (X15_register_keeps_emails_unique (@Some InsertUser.t)
                    Sample.registered Hreach Hunique Sample.ravi 6)).
  - exact (proj2 (X15_register_keeps_emails_unique (@Some InsertUser.t)
                    Sample.registered Hreach Hunique Sample.asha 6)
             Sample.asha
             (fst (MemStorage.createUser Sample.store Sample.asha 5))
             eq_refl eq_refl).
Defined.

(** X16. [POST /api/auth/login] answers 200 only with the credentials of a
    stored user: the body is that user without the password, the email and
    the password sent are the user's, and the session receives the user's
    id; on every other answer the session is left as it was. *)
Theorem X16_login_only_with_stored_credentials
  (storage : MemStorage.t) (session : option Z)
  (email password : option string) :
  let response := fst (Routes.authLogin storage session email password) in
  let session' := snd (Routes.authLogin storage session email password) in
  (fst response = 200
   /\ exists user,
       In user (JsMap.values (MemStorage.users storage))
       /\ snd response = Routes.Entity (Routes.withoutPassword user)
       /\ email = Some (User.email user)
       /\ password = Some (User.password user)
       /\ session' = Some (User.id user))
  \/ (fst response <> 200 /\ session' = session).
Proof.
  cbv zeta. unfold Routes.authLogin.
  destruct (Routes.missing email || Routes.missing password) eqn:Hm;
    [right; split; [discriminate | reflexivity]|].
  apply orb_false_iff in Hm as [He Hp].
  destruct email as [e|]; [|discriminate].
  destruct password as [pw|]; [|discriminate].
  cbn [Js.nullish].
  destruct (MemStorage.getUserByEmail storage e) as [user|] eqn:Hfind;
    [|right; split; [discriminate | reflexivity]].
  destruct (String.eqb (User.password user) pw) eqn:Hpw; simpl;
    [|right; split; [discriminate | reflexivity]].
  left. split; [reflexivity|]. exists user.
  unfold MemStorage.getUserByEmail in Hfind.
  apply find_some in Hfind as [Hin Heq]. simpl in Heq.
  apply String.eqb_eq in Heq, Hpw. subst. repeat split. exact Hin.
Qed.

Lemma subscribe_created {RawBody : Type}
  (parse : RawBody -> option InsertSubscriber.t) (storage : MemStorage.t)
  (body : RawBody) (now : Date) (subscriberData : InsertSubscriber.t) :
  parse body = Some subscriberData ->
  MemStorage.getSubscriberByEmail storage
    (InsertSubscriber.email subscriberData) = None ->
  Routes.subscribe parse storage body now
  = ((201, Routes.Entity
             (fst (MemStorage.createSubscriber storage subscriberData now))),
     snd (MemStorage.createSubscriber storage subscriberData now)).
Proof.
  intros Hparse Hfree. unfold Routes.subscribe. now rewrite Hparse, Hfree.
Qed.

Lemma subscribe_existing {RawBody : Type}
  (parse : RawBody -> option InsertSubscriber.t) (storage : MemStorage.t)
  (body : RawBody) (now : Date) (subscriberData : InsertSubscriber.t)
  (existing : Subscriber.t) :
  parse body = Some subscriberData ->
  MemStorage.getSubscriberByEmail storage
    (InsertSubscriber.email subscriberData) = Some existing ->
  Routes.subscribe parse storage body now
  = ((200, Routes.Message "Email already subscribed"), storage).
Proof.
  intros Hparse Hfind. unfold Routes.subscribe. now rewrite Hparse, Hfind.
Qed.

(** X17. [POST /api/subscribe] is idempotent: from a reachable store,
    sending the same body a second time leaves the store as the first
    request left it, and when the body parses the second answer is 200
    "Email already subscribed". *)
Theorem X17_subscribe_twice_subscribes_once
  {RawBody : Type} (parse : RawBody -> option InsertSubscriber.t)
  (storage : MemStorage.t) (Hreach : MemStorage.reachable storage)
  (body : RawBody) (now now' : Date) :
  let after := snd (Routes.subscribe parse storage body now) in
  snd (Routes.subscribe parse after body now') = after
  /\ (forall subscriberData,
        parse body = Some subscriberData ->
        fst (Routes.subscribe parse after body now')
        = (200, Routes.Message "Email already subscribed")).
Proof.
  pose proof (invariant_reachable storage Hreach) as Hinv.
  cbv zeta.
  assert (Hsecond :
            forall subscriberData, parse body = Some subscriberData ->
            Routes.subscribe parse
              (snd (Routes.subscribe parse storage body now)) body now'
            = ((200, Routes.Message "Email already subscribed"),
               snd (Routes.subscribe parse storage body now))).
  { intros subscriberData Hparse.
    destruct (MemStorage.getSubscriberByEmail storage
                (InsertSubscriber.email subscriberData)) as [existing|]
      eqn:Hfind.
    - rewrite (subscribe_existing parse storage _ now _ _ Hparse Hfind).
      cbn [snd]. exact (subscribe_existing _ _ _ _ _ _ Hparse Hfind).
    - rewrite (subscribe_created parse storage _ now _ Hparse Hfind).
      cbn [snd].
      refine (subscribe_existing parse _ _ _ _
                (fst (MemStorage.createSubscriber storage subscriberData now))
                Hparse _).
      rewrite (getSubscriberByEmail_after_createSubscriber _ _ _ _ Hinv).
      rewrite Hfind. unfold Listing.lookupAfterCreate.
      now rewrite String.eqb_refl. }
  split.
  - destruct (parse body) as [subscriberData|] eqn:Hparse.
    + now rewrite (Hsecond subscriberData eq_refl).
    + unfold Routes.subscribe. now rewrite Hparse.
  - intros subscriberData Hparse. now rewrite (Hsecond subscriberData Hparse).
Qed.

Lemma X17_subscribe_twice_subscribes_once_witness :
  snd (Routes.subscribe (@Some InsertSubscriber.t)
         (snd (Routes.subscribe (@Some InsertSubscriber.t) Sample.store
                 (InsertSubscriber.mk "asha@example.com") 5))
         (InsertSubscriber.mk "asha@example.com") 6)
  = snd (Routes.subscribe (@Some InsertSubscriber.t) Sample.store
           (InsertSubscriber.mk "asha@example.com") 5).
Proof.
  exact (proj1 (X17_subscribe_twice_subscribes_once (@Some InsertSubscriber.t)
                  Sample.store (MemStorage.reachable_new Sample.clock)
                  (InsertSubscriber.mk "asha@example.com") 5 6)).
Defined.

(** ** The order route *)





(** ** The settings routes *)

Section UniqueField.
Context {A : Type} (field : A -> string).

Lemma unique_field_eq (l : list A) (a b : A) :
  NoDup (map field l) -> In a l -> In b l -> field a = field b -> a = b.
Proof.
  induction l as [|x l IH]; simpl; intros Hnd Ha Hb Hf; [contradiction|].
  inversion Hnd as [|? ? Hx Hl]; subst.
  destruct Ha as [<- | Ha]; destruct Hb as [<- | Hb]; auto.
  - exfalso. apply Hx. rewrite Hf. now apply in_map.
  - exfalso. apply Hx. rewrite <- Hf. now apply in_map.
Qed.

Lemma find_none_intro (p : A -> bool) (l : list A) :
  (forall x, In x l -> p x = false) -> find p l = None.
Proof.
  induction l as [|x l IH]; simpl; intros H; [reflexivity|].
  rewrite (H x (or_introl eq_refl)). apply IH. intros y Hy. apply H. now right.
Qed.

Lemma find_filter_same (p q : A -> bool) (l : list A) :
  (forall x, In x l -> p x = true -> q x = true) ->
  find p (filter q l) = find p l.
Proof.
  induction l as [|x l IH]; simpl; intros H; [reflexivity|].
  assert (IH' : find p (filter q l) = find p l)
    by (apply IH; intros y Hy; apply H; now right).
  destruct (p x) eqn:Px.
  - rewrite (H x (or_introl eq_refl) Px). simpl. now rewrite Px.
  - destruct (q x); simpl; [now rewrite Px | exact IH'].
Qed.

Lemma find_replace_other (p : A -> bool) (before after : list A) (x y : A) :
  p x = false -> p y = false ->
  find p (before ++ x :: after) = find p (before ++ y :: after).
Proof.
  intros Px Py. induction before as [|b before IH]; simpl.
  - now rewrite Px, Py.
  - destruct (p b); [reflexivity | exact IH].
Qed.

Lemma find_replace_hit (p : A -> bool) (before after : list A) (y : A) :
  (forall e, In e before -> p e = false) -> p y = true ->
  find p (before ++ y :: after) = Some y.
Proof.
  intros Hb Py. induction before as [|b before IH]; simpl.
  - now rewrite Py.
  - rewrite (Hb b (or_introl eq_refl)). apply IH.
    intros e He. apply Hb. now right.
Qed.
End UniqueField.

Lemma deleteSetting_values (storage : MemStorage.t) (setting : Settings.t) :
  Inv.invariant storage ->
  In setting (JsMap.values (MemStorage.settings storage)) ->
  MemStorage.deleteSetting storage (Settings.id setting)
  = (true,
     MemStorage.set_settings storage
       (JsMap.delete (MemStorage.settings storage) (Settings.id setting)))
  /\ JsMap.values
       (JsMap.delete (MemStorage.settings storage) (Settings.id setting))
     = filter (fun s => negb (Settings.id s =? Settings.id setting))
         (JsMap.values (MemStorage.settings storage)).
Proof.
  intros Hinv Hin.
  pose proof (invariant_wf _ Hinv MemStorage.KSettings ltac:(discriminate)) as Hwf.
  split.
  - unfold MemStorage.deleteSetting. rewrite has_get.
    now rewrite (wf_get_of_In Settings.id _ _ _ Hwf Hin).
  - exact (JsMap_values_delete Settings.id _ _ _ Hwf).
Qed.

(** X19. [DELETE /api/settings/:key] in a reachable store whose settings
    have distinct keys: when no setting has the key it answers 404 and
    leaves the store as it was; otherwise it answers 204, the lookup of the
    key then finds nothing, a second [DELETE] of the key answers 404 and
    changes nothing more, and the lookup of every other key returns what
    it returned before. *)
Theorem X19_delete_setting_by_key
  (storage : MemStorage.t) (Hreach : MemStorage.reachable storage)
  (Hunique : NoDup (map Settings.key
                      (JsMap.values (MemStorage.settings storage))))
  (key : string) :
  match MemStorage.getSettingByKey storage key with
  | None =>
      Routes.deleteSetting storage key
      = ((404, Routes.Message "Setting not found"), storage)
  | Some _ =>
      let after := snd (Routes.deleteSetting storage key) in
      fst (Routes.deleteSetting storage key) = (204, Routes.NoContent)
      /\ MemStorage.getSettingByKey after key = None
      /\ Routes.deleteSetting after key
         = ((404, Routes.Message "Setting not found"), after)
      /\ forall other, other <> key ->
           MemStorage.getSettingByKey after other
           = MemStorage.getSettingByKey storage other
  end.
Proof.
  pose proof (invariant_reachable storage Hreach) as Hinv.
  destruct (MemStorage.getSettingByKey storage key) as [setting|] eqn:Hfind;
    [|unfold Routes.deleteSetting; now rewrite Hfind].
  assert (Hroute :
    Routes.deleteSetting storage key
    = ((204, Routes.NoContent),
       snd (MemStorage.deleteSetting storage (Settings.id setting))))
    by (unfold Routes.deleteSetting; now rewrite Hfind).
  unfold MemStorage.getSettingByKey in Hfind.
  apply find_some in Hfind as [Hin Hkey]. simpl in Hkey.
  apply String.eqb_eq in Hkey.
  destruct (deleteSetting_values storage setting Hinv Hin) as [Hdel Hvalues].
  cbv zeta. rewrite Hroute, Hdel. cbn [fst snd].
  assert (Hgone :
    MemStorage.getSettingByKey
      (MemStorage.set_settings storage
         (JsMap.delete (MemStorage.settings storage) (Settings.id setting)))
      key = None).
  { unfold MemStorage.getSettingByKey. simpl MemStorage.settings.
    rewrite Hvalues. apply find_none_intro.
    intros x Hx. apply filter_In in Hx as [Hx Hid].
    destruct (String.eqb (Settings.key x) key) eqn:E; [|reflexivity].
    apply String.eqb_eq in E.
    assert (x = setting)
      by (apply (unique_field_eq Settings.key _ _ _ Hunique Hx Hin);
          congruence).
    subst x. rewrite Z.eqb_refl in Hid. discriminate. }
  split; [reflexivity|]. split; [exact Hgone|]. split.
  - unfold Routes.deleteSetting. now rewrite Hgone.
  - unfold MemStorage.getSettingByKey. simpl MemStorage.settings.
    rewrite Hvalues.
    intros other Hother. apply find_filter_same.
    intros x Hx Hk. apply String.eqb_eq in Hk.
    destruct (Settings.id x =? Settings.id setting) eqn:E; [|reflexivity].
    apply Z.eqb_eq in E.
    pose proof (invariant_wf _ Hinv MemStorage.KSettings ltac:(discriminate))
      as Hwf.
    pose proof (wf_get_of_In Settings.id _ _ _ Hwf Hx) as Gx.
    pose proof (wf_get_of_In Settings.id _ _ _ Hwf Hin) as Gs.
    rewrite E, Gs in Gx. injection Gx as <-. congruence.
Qed.

Lemma X19_delete_setting_by_key_witness :
  MemStorage.reachable Sample.withSettings
  /\ map Settings.key (JsMap.values (MemStorage.settings Sample.withSettings))
     = ["payment.currency"; "site.logo"; "site.theme"]
  /\ fst (Routes.deleteSetting Sample.withSettings "site.logo")
     = (204, Routes.NoContent)
  /\ fst (Routes.deleteSetting
            (snd (Routes.deleteSetting Sample.withSettings "site.logo"))
            "site.logo")
     = (404, Routes.Message "Setting not found").
Proof.
  assert (Hreach : MemStorage.reachable Sample.withSettings).
  { unfold Sample.withSettings.
    repeat (apply MemStorage.reachable_run).
    apply MemStorage.reachable_new. }
  assert (Hunique : NoDup (map Settings.key
                             (JsMap.values
                                (MemStorage.settings Sample.withSettings)))).
  { repeat constructor; simpl; intuition discriminate. }
  split; [exact Hreach|]. split; [reflexivity|].
  pose proof (X19_delete_setting_by_key Sample.withSettings Hreach Hunique
                "site.logo") as H.
  change (MemStorage.getSettingByKey Sample.withSettings "site.logo")
    with (Some (Settings.mk 2 "site.logo" (Some "/logo.png") "site" None
                  (Some 2) (Some 2))) in H.
  cbv beta iota zeta in H. destruct H as [H204 [_ [H404 _]]].
  split; [exact H204|]. now rewrite H404.
Defined.

Lemma payment_key_injective (a b : string) :
  ("payment." ++ a)%string = ("payment." ++ b)%string -> a = b.
Proof. simpl. intros H. now injection H. Qed.

Lemma NoDup_app_l {A : Type} (l1 l2 : list A) (x : A) :
  NoDup (l1 ++ x :: l2) -> ~ In x l1.
Proof.
  intros H Hin. apply NoDup_remove_2 in H. apply H.
  apply in_or_app. now left.
Qed.

(** One round of the loop of [POST /api/payment-settings]. *)
Lemma upsert_step (storage : MemStorage.t) (clock : nat -> Date)
  (tick : nat) (results : list (option Settings.t)) (key value : string)
  (entries : list (string * string)) :
  Inv.invariant storage ->
  NoDup (map Settings.key (JsMap.values (MemStorage.settings storage))) ->
  exists storage' tick' results',
    Routes.upsertPaymentSettings storage clock tick results
      ((key, value) :: entries)
    = Routes.upsertPaymentSettings storage' clock tick' results' entries
    /\ Inv.invariant storage'
    /\ NoDup (map Settings.key
                (JsMap.values (MemStorage.settings storage')))
    /\ (exists setting,
          MemStorage.getSettingByKey storage' ("payment." ++ key)%string
          = Some setting
          /\ Settings.value setting = Some value
          /\ Settings.category setting = "payment")
    /\ (forall other, other <> ("payment." ++ key)%string ->
          MemStorage.getSettingByKey storage' other
          = MemStorage.getSettingByKey storage other).
Proof.
  intros Hinv Hunique.
  pose proof (invariant_wf _ Hinv MemStorage.KSettings ltac:(discriminate)) as Hwf.
  cbn [Routes.upsertPaymentSettings].
  set (settingKey := ("payment." ++ key)%string).
  destruct (MemStorage.getSettingByKey storage settingKey)
    as [existing|] eqn:Hfind.
  - (* update *)
    pose proof Hfind as Hfound. unfold MemStorage.getSettingByKey in Hfound.
    apply find_some in Hfound as [Hin Hkey]. simpl in Hkey.
    apply String.eqb_eq in Hkey.
    pose proof (wf_get_of_In Settings.id _ _ _ Hwf Hin) as Hget.
    set (settingData :=
           PartialInsertSettings.mk (Some settingKey) (Some (Some value))
             (Some "payment")
             (Some (Some ("Payment setting for " ++ key)%string))).
    set (updated := MemStorage.mergeSetting existing settingData (clock tick)).
    assert (Hupd :
              MemStorage.updateSetting storage (Settings.id existing)
                settingData (clock tick)
              = (Some updated,
                 MemStorage.set_settings storage
                   (JsMap.set (MemStorage.settings storage)
                      (Settings.id existing) updated))).
    { unfold MemStorage.updateSetting. now rewrite Hget. }
    rewrite Hupd.
    destruct (JsMap_values_set_present _ _ updated _ Hget)
      as [before [after [Hvalues Hvalues']]].
    exists (MemStorage.set_settings storage
              (JsMap.set (MemStorage.settings storage)
                 (Settings.id existing) updated)),
      (S tick), (results ++ [Some updated]).
    split; [reflexivity|]. split.
    { change (MemStorage.set_settings storage
                (JsMap.set (MemStorage.settings storage)
                   (Settings.id existing) updated))
        with (snd (Some updated,
                   MemStorage.set_settings storage
                     (JsMap.set (MemStorage.settings storage)
                        (Settings.id existing) updated))).
      rewrite <- Hupd.
      exact (invariant_run
               (MemStorage.UpdateSetting (Settings.id existing) settingData
                  (clock tick)) storage Hinv). }
    unfold MemStorage.getSettingByKey. simpl MemStorage.settings.
    rewrite Hvalues'. rewrite Hvalues in Hunique.
    assert (Hukey : Settings.key updated = settingKey) by reflexivity.
    split.
    { rewrite map_app. rewrite map_app in Hunique. cbn [map] in *.
      now rewrite Hukey, <- Hkey. }
    split.
    { exists updated. split; [|split; reflexivity].
      apply find_replace_hit; [|exact (String.eqb_refl settingKey)].
      intros e He. cbv beta.
      destruct (String.eqb (Settings.key e) settingKey) eqn:E; [|reflexivity].
      apply String.eqb_eq in E. exfalso.
      rewrite map_app in Hunique. simpl in Hunique.
      apply NoDup_app_l in Hunique. apply Hunique.
      rewrite Hkey, <- E. now apply in_map. }
    intros other Hother. rewrite Hvalues.
    apply find_replace_other; cbv beta.
    + rewrite Hukey. now apply String.eqb_neq.
    + rewrite Hkey. now apply String.eqb_neq.
  - (* create *)
    set (settingData :=
           InsertSettings.mk settingKey (Some value) (Some "payment")
             (Some ("Payment setting for " ++ key)%string)).
    set (created :=
           fst (MemStorage.createSetting storage settingData (clock tick)
                  (clock (S tick)))).
    set (storage' :=
           snd (MemStorage.createSetting storage settingData (clock tick)
                  (clock (S tick)))).
    exists storage', (S (S tick)), (results ++ [Some created]).
    split; [reflexivity|]. split.
    { exact (invariant_run
               (MemStorage.CreateSetting settingData (clock tick)
                  (clock (S tick))) storage Hinv). }
    split.
    { subst storage'. simpl MemStorage.settings.
      rewrite (JsMap_values_set_appends Settings.id _ _ _ Hwf), map_app.
      apply NoDup_snoc; [exact Hunique|].
      exact (find_none_not_in Settings.key _ _ Hfind). }
    split.
    { exists created. split; [|split; reflexivity].
      subst storage' created.
      rewrite (getSettingByKey_after_createSetting _ _ _ _ _ Hinv).
      rewrite Hfind. simpl. now rewrite String.eqb_refl. }
    intros other Hother. subst storage'.
    rewrite (getSettingByKey_after_createSetting _ _ _ _ _ Hinv).
    simpl InsertSettings.key.
    destruct (String.eqb settingKey other) eqn:E;
      [apply String.eqb_eq in E; congruence|].
    now destruct (MemStorage.getSettingByKey storage other).
Qed.

Lemma upsert_loop (clock : nat -> Date) (entries : list (string * string)) :
  NoDup (map fst entries) ->
  forall storage tick results,
  Inv.invariant storage ->
  NoDup (map Settings.key (JsMap.values (MemStorage.settings storage))) ->
  let after :=
    snd (fst (Routes.upsertPaymentSettings storage clock tick results
                entries)) in
  NoDup (map Settings.key (JsMap.values (MemStorage.settings after)))
  /\ (forall key value, In (key, value) entries ->
        exists setting,
          MemStorage.getSettingByKey after ("payment." ++ key)%string
          = Some setting
          /\ Settings.value setting = Some value
          /\ Settings.category setting = "payment")
  /\ (forall other,
        (forall key, In key (map fst entries) ->
                     other <> ("payment." ++ key)%string) ->
        MemStorage.getSettingByKey after other
        = MemStorage.getSettingByKey storage other).
Proof.
  induction entries as [|[key value] entries IH];
    intros Hnd storage tick results Hinv Hunique; cbv zeta.
  - simpl. split; [exact Hunique|]. split; [intros ? ? []|reflexivity].
  - inversion Hnd as [|? ? Hkey Hnd']; subst.
    destruct (upsert_step storage clock tick results key value entries
                Hinv Hunique)
      as [storage' [tick' [results' [Heq [Hinv' [Hunique' [Hhit Hother]]]]]]].
    rewrite Heq.
    destruct (IH Hnd' storage' tick' results' Hinv' Hunique')
      as [Hfinal [Hall Hframe]].
    split; [exact Hfinal|]. split.
    + intros k v [[= <- <-] | Hin]; [|now apply Hall].
      rewrite Hframe; [exact Hhit|].
      intros k' Hk' Heq'. apply payment_key_injective in Heq'. subst k'.
      contradiction.
    + intros other Hnot. rewrite Hframe.
      * apply Hother. apply Hnot. now left.
      * intros k Hk. apply Hnot. now right.
Qed.

(** X20. [POST /api/payment-settings] upserts.  From a reachable store whose
    settings have distinct keys, and for a body whose property names are
    distinct (as those of an object are), the handler answers 200 and
    leaves a store whose settings still have distinct keys: for every
    property [key: value] of the body the lookup of ["payment." + key]
    returns a setting with that value in the category ["payment"], and the
    lookup of every other key returns what it returned before. *)
Theorem X20_payment_settings_upsert
  (storage : MemStorage.t) (Hreach : MemStorage.reachable storage)
  (Hunique : NoDup (map Settings.key
                      (JsMap.values (MemStorage.settings storage))))
  (clock : nat -> Date) (paymentData : list (string * string))
  (Hnames : NoDup (map fst paymentData)) :
  let response := fst (Routes.postPaymentSettings storage clock paymentData) in
  let after := snd (Routes.postPaymentSettings storage clock paymentData) in
  fst response = 200
  /\ NoDup (map Settings.key (JsMap.values (MemStorage.settings after)))
  /\ (forall key value, In (key, value) paymentData ->
        exists setting,
          MemStorage.getSettingByKey after ("payment." ++ key)%string
          = Some setting
          /\ Settings.value setting = Some value
          /\ Settings.category setting = "payment")
  /\ (forall other,
        (forall key, In key (map fst paymentData) ->
                     other <> ("payment." ++ key)%string) ->
        MemStorage.getSettingByKey after other
        = MemStorage.getSettingByKey storage other).
Proof.
  pose proof (invariant_reachable storage Hreach) as Hinv.
  pose proof (upsert_loop clock paymentData Hnames storage 0%nat [] Hinv
                Hunique) as Hloop.
  cbv zeta in *. unfold Routes.postPaymentSettings.
  destruct (Routes.upsertPaymentSettings storage clock 0 [] paymentData)
    as [[results after] tick].
  cbn [fst snd] in *. split; [reflexivity | exact Hloop].
Qed.

Lemma X20_payment_settings_upsert_witness :
  option_map Settings.value
    (MemStorage.getSettingByKey
       (snd (Routes.postPaymentSettings Sample.withSettings Sample.clock
               Sample.paymentData))
       "payment.currency")
  = Some (Some "inr").
Proof.
  assert (Hreach : MemStorage.reachable Sample.withSettings).
  { unfold Sample.withSettings.
    repeat (apply MemStorage.reachable_run).
    apply MemStorage.reachable_new. }
  assert (Hunique : NoDup (map Settings.key
                             (JsMap.values
                                (MemStorage.settings Sample.withSettings)))).
  { repeat constructor; simpl; intuition discriminate. }
  assert (Hnames : NoDup (map fst Sample.paymentData)).
  { repeat constructor; simpl; intuition discriminate. }
  destruct (proj1 (proj2 (proj2
              (X20_payment_settings_upsert Sample.withSettings Hreach Hunique
                 Sample.clock Sample.paymentData Hnames)))
              "currency" "inr" (or_introl eq_refl))
    as [setting [Hget [Hvalue _]]].
  change "payment.currency" with ("payment." ++ "currency")%string.
  rewrite Hget. simpl. now rewrite Hvalue.
Defined.

(** ** The relational backend: listing *)

Lemma In_firstn_In {A : Type} (n : nat) (l : list A) (x : A) :
  In x (firstn n l) -> In x l.
Proof.
  intros H. rewrite <- (firstn_skipn n l). apply in_or_app. now left.
Qed.

Lemma In_skipn_In {A : Type} (n : nat) (l : list A) (x : A) :
  In x (skipn n l) -> In x l.
Proof.
  intros H. rewrite <- (firstn_skipn n l). apply in_or_app. now right.
Qed.

Lemma paginate_In {A : Type} (limit offset : option Z) (rows : list A)
  (x : A) : In x (Listing.paginate limit offset rows) -> In x rows.
Proof.
  unfold Listing.paginate. destruct limit, offset; intros H;
    repeat (apply In_firstn_In in H || apply In_skipn_In in H); exact H.
Qed.

Lemma products_where (options : option ProductOptions.t)
  (rows : list Product.t) :
  match Sql.whereClause (DatabaseStorage.getProductsQuery options) with
  | Some conds => filter (Sql.matches DatabaseStorage.productCell conds) rows
  | None => rows
  end
  = filter (Listing.selectsProduct options) rows.
Proof.
  unfold DatabaseStorage.getProductsQuery, Listing.selectsProduct.
  destruct (Js.truthy_string (Js.chain options ProductOptions.category))
    as [c|];
    destruct (Js.chain options ProductOptions.featured) as [fe|];
    destruct (Js.truthy_num (Js.chain options ProductOptions.limit));
    destruct (Js.truthy_num (Js.chain options ProductOptions.offset));
    simpl;
    try (symmetry; apply filter_true);
    apply filter_ext; intros r; unfold Sql.matches, Sql.holds; simpl;
    rewrite ?andb_true_r; try reflexivity;
    destruct (Product.isFeatured r); reflexivity.
Qed.

Lemma products_clauses (options : option ProductOptions.t) :
  Sql.limitClause (DatabaseStorage.getProductsQuery options)
  = Js.truthy_num (Js.chain options ProductOptions.limit)
  /\ Sql.offsetClause (DatabaseStorage.getProductsQuery options)
     = Js.truthy_num (Js.chain options ProductOptions.offset)
  /\ Sql.orderByClause (DatabaseStorage.getProductsQuery options)
     = Some (Sql.desc DatabaseStorage.products_createdAt).
Proof.
  unfold DatabaseStorage.getProductsQuery.
  destruct (Js.truthy_string (Js.chain options ProductOptions.category));
    destruct (Js.chain options ProductOptions.featured);
    destruct (Js.truthy_num (Js.chain options ProductOptions.limit));
    destruct (Js.truthy_num (Js.chain options ProductOptions.offset));
    repeat split.
Qed.

Lemma database_getProducts_shape (collate : string -> string -> Z)
  (db : DatabaseStorage.t) (options : option ProductOptions.t) :
  let limit := Js.truthy_num (Js.chain options ProductOptions.limit) in
  let offset := Js.truthy_num (Js.chain options ProductOptions.offset) in
  DatabaseStorage.getProducts collate db options
  = if Sql.negative offset then None
    else
      Some (Listing.paginate (Sql.limitSql limit) offset
              (Js.sort
                 (Sql.ordering_compare DatabaseStorage.productCell collate
                    (Sql.desc DatabaseStorage.products_createdAt))
                 (filter (Listing.selectsProduct options)
                    (DatabaseStorage.products db)))).
Proof.
  cbv zeta. unfold DatabaseStorage.getProducts, Sql.execute.
  destruct (products_clauses options) as [-> [-> ->]].
  rewrite products_where. reflexivity.
Qed.

(** X21. [DatabaseStorage.getProducts] succeeds when the offset that
    reaches the query is not negative; every row of a successful call is a
    row of the table that passes the supplied filters, and a positive limit
    bounds the number of rows. *)
Theorem X21_database_getProducts_rows
  (collate : string -> string -> Z) (db : DatabaseStorage.t)
  (options : option ProductOptions.t) :
  let limit := Js.chain options ProductOptions.limit in
  let offset := Js.chain options ProductOptions.offset in
  (0 <= Js.nullish offset 0 ->
   exists rows, DatabaseStorage.getProducts collate db options = Some rows)
  /\ (forall rows,
        DatabaseStorage.getProducts collate db options = Some rows ->
        Forall (fun row =>
                  In row (DatabaseStorage.products db)
                  /\ Listing.selectsProduct options row = true) rows
        /\ (0 < Js.nullish limit 0 ->
            Z.of_nat (List.length rows) <= Js.nullish limit 0)).
Proof.
  cbv zeta. rewrite database_getProducts_shape. cbv zeta.
  set (limit := Js.chain options ProductOptions.limit).
  set (offset := Js.chain options ProductOptions.offset).
  assert (Hneg : forall x : option Z,
             Sql.negative (Js.truthy_num x) = (Js.nullish x 0 <? 0)).
  { intros [n|]; simpl; [|reflexivity].
    destruct (n =? 0) eqn:E; simpl; [|reflexivity].
    apply Z.eqb_eq in E. now subst. }
  rewrite !Hneg. split.
  - intros Ho. apply Z.ltb_ge in Ho. rewrite Ho. eexists. reflexivity.
  - intros rows.
    destruct (Js.nullish offset 0 <? 0); [discriminate|].
    intros [= <-]. split.
    + apply Forall_forall. intros row Hin.
      apply paginate_In in Hin.
      apply (Permutation_in _ (sort_perm _ _)) in Hin.
      apply filter_In in Hin. exact Hin.
    + intros Hpos. unfold Listing.paginate.
      destruct limit as [n|]; simpl in *; [|lia].
      destruct (n =? 0) eqn:E; [apply Z.eqb_eq in E; lia|].
      simpl. destruct (0 <=? n) eqn:E'; [|apply Z.leb_gt in E'; lia].
      rewrite length_firstn. lia.
Qed.

Lemma X21_database_getProducts_rows_witness :
  exists rows,
    DatabaseStorage.getProducts Sample.byLength
      (DatabaseStorage.mk (JsMap.values (MemStorage.products Sample.store))
         [] [])
      (Some Sample.limit2offset1)
    = Some rows
    /\ Z.of_nat (List.length rows) <= 2.
Proof.
  pose proof (X21_database_getProducts_rows Sample.byLength
                (DatabaseStorage.mk
                   (JsMap.values (MemStorage.products Sample.store)) [] [])
                (Some Sample.limit2offset1)) as [Hsome Hrows].
  destruct (Hsome ltac:(simpl; lia)) as [rows Hr].
  exists rows. split; [exact Hr|].
  exact (proj2 (Hrows rows Hr) ltac:(simpl; lia)).
Defined.

Lemma articles_where (options : option ArticleOptions.t)
  (rows : list Article.t) :
  match Sql.whereClause (DatabaseStorage.getArticlesQuery options) with
  | Some conds => filter (Sql.matches DatabaseStorage.articleCell conds) rows
  | None => rows
  end
  = filter (Listing.selectsArticle options) rows.
Proof.
  unfold DatabaseStorage.getArticlesQuery, Listing.selectsArticle.
  destruct (Js.truthy_string (Js.chain options ArticleOptions.category))
    as [c|];
    destruct (Js.truthy_num (Js.chain options ArticleOptions.limit));
    destruct (Js.truthy_num (Js.chain options ArticleOptions.offset));
    simpl;
    try (symmetry; apply filter_true);
    apply filter_ext; intros r; unfold Sql.matches, Sql.holds; simpl;
    rewrite ?andb_true_r; destruct (Article.category r); reflexivity.
Qed.

Lemma articles_clauses (options : option ArticleOptions.t) :
  Sql.limitClause (DatabaseStorage.getArticlesQuery options)
  = Js.truthy_num (Js.chain options ArticleOptions.limit)
  /\ Sql.offsetClause (DatabaseStorage.getArticlesQuery options)
     = Js.truthy_num (Js.chain options ArticleOptions.offset)
  /\ Sql.orderByClause (DatabaseStorage.getArticlesQuery options)
     = Some (Sql.desc DatabaseStorage.articles_createdAt).
Proof.
  unfold DatabaseStorage.getArticlesQuery.
  destruct (Js.truthy_string (Js.chain options ArticleOptions.category));
    destruct (Js.truthy_num (Js.chain options ArticleOptions.limit));
    destruct (Js.truthy_num (Js.chain options ArticleOptions.offset));
    repeat split.
Qed.

Lemma database_getArticles_shape (collate : string -> string -> Z)
  (db : DatabaseStorage.t) (options : option ArticleOptions.t) :
  let limit := Js.truthy_num (Js.chain options ArticleOptions.limit) in
  let offset := Js.truthy_num (Js.chain options ArticleOptions.offset) in
  DatabaseStorage.getArticles collate db options
  = if Sql.negative offset then None
    else
      Some (Listing.paginate (Sql.limitSql limit) offset
              (Js.sort
                 (Sql.ordering_compare DatabaseStorage.articleCell collate
                    (Sql.desc DatabaseStorage.articles_createdAt))
                 (filter (Listing.selectsArticle options)
                    (DatabaseStorage.articles db)))).
Proof.
  cbv zeta. unfold DatabaseStorage.getArticles, Sql.execute.
  destruct (articles_clauses options) as [-> [-> ->]].
  rewrite articles_where. reflexivity.
Qed.

Lemma database_getSettings_shape (collate : string -> string -> Z)
  (db : DatabaseStorage.t) (category : option string) :
  DatabaseStorage.getSettings collate db category
  = Some (Js.sort
            (Sql.ordering_compare DatabaseStorage.settingsCell collate
               (Sql.asc DatabaseStorage.settings_key))
            (filter (Listing.selectsSetting category)
               (DatabaseStorage.settings db))).
Proof.
  unfold DatabaseStorage.getSettings, DatabaseStorage.getSettingsQuery,
    Listing.selectsSetting, Sql.execute.
  destruct (Js.truthy_string category) as [c|]; simpl.
  - do 2 f_equal. apply filter_ext. intros r.
    unfold Sql.matches, Sql.holds. simpl. now rewrite andb_true_r.
  - now rewrite filter_true.
Qed.

Lemma getArticles_unpaginated (this : MemStorage.t)
  (options : option ArticleOptions.t) :
  Listing.unpaginated (Js.chain options ArticleOptions.limit)
    (Js.chain options ArticleOptions.offset) ->
  MemStorage.getArticles this options
  = filter (Listing.selectsArticle options)
      (JsMap.values (MemStorage.articles this)).
Proof.
  intros [Hl Ho]. rewrite getArticles_slice. cbv zeta.
  assert (Hoff : Js.num_or (Js.chain options ArticleOptions.offset) 0 = 0).
  { destruct (Js.chain options ArticleOptions.offset) as [o|];
      [|reflexivity].
    simpl in *. destruct (o =? 0) eqn:E; [reflexivity | discriminate]. }
  assert (Hlim : forall d,
             Js.num_or (Js.chain options ArticleOptions.limit) d = d).
  { intros d. destruct (Js.chain options ArticleOptions.limit) as [n|];
      [|reflexivity].
    simpl in *. destruct (n =? 0) eqn:E; [reflexivity | discriminate]. }
  rewrite Hoff, Hlim. exact (slice_drop _ 0 (Z.le_refl 0)).
Qed.

(** X22. The two backends return the same entities up to order.  When the
    tables of the database hold the values of the in-memory mappings, an
    unpaginated [getProducts] or [getArticles] and any [getSettings] of
    [DatabaseStorage] succeed with a rearrangement of what [MemStorage]
    returns for the same arguments. *)
Theorem X22_backends_list_the_same_entities
  (collate localeCompare : string -> string -> Z)
  (this : MemStorage.t) (db : DatabaseStorage.t)
  (Hproducts : DatabaseStorage.products db
               = JsMap.values (MemStorage.products this))
  (Harticles : DatabaseStorage.articles db
               = JsMap.values (MemStorage.articles this))
  (Hsettings : DatabaseStorage.settings db
               = JsMap.values (MemStorage.settings this)) :
  (forall options,
      Listing.unpaginated (Js.chain options ProductOptions.limit)
        (Js.chain options ProductOptions.offset) ->
      exists rows,
        DatabaseStorage.getProducts collate db options = Some rows
        /\ Permutation rows (MemStorage.getProducts this options))
  /\ (forall options,
        Listing.unpaginated (Js.chain options ArticleOptions.limit)
          (Js.chain options ArticleOptions.offset) ->
        exists rows,
          DatabaseStorage.getArticles collate db options = Some rows
          /\ Permutation rows (MemStorage.getArticles this options))
  /\ (forall category,
        exists rows,
          DatabaseStorage.getSettings collate db category = Some rows
          /\ Permutation rows
               (MemStorage.getSettings localeCompare this category)).
Proof.
  repeat apply conj.
  - intros options Hun. rewrite database_getProducts_shape. cbv zeta.
    rewrite (getProducts_unpaginated this options Hun).
    destruct Hun as [-> ->]. simpl. eexists. split; [reflexivity|].
    rewrite Hproducts. apply sort_perm.
  - intros options Hun. rewrite database_getArticles_shape. cbv zeta.
    rewrite (getArticles_unpaginated this options Hun).
    destruct Hun as [-> ->]. simpl. eexists. split; [reflexivity|].
    rewrite Harticles. apply sort_perm.
  - intros category. rewrite database_getSettings_shape.
    eexists. split; [reflexivity|].
    rewrite Hsettings, sort_perm. symmetry.
    unfold MemStorage.getSettings. cbv zeta.
    rewrite settings_filtered. apply sort_perm.
Qed.

Lemma X22_backends_list_the_same_entities_witness :
  exists rows,
    DatabaseStorage.getProducts Sample.byLength
      (DatabaseStorage.mk (JsMap.values (MemStorage.products Sample.store))
         (JsMap.values (MemStorage.articles Sample.store))
         (JsMap.values (MemStorage.settings Sample.store)))
      (Some (ProductOptions.mk None None (Some "jewelry") None))
    = Some rows
    /\ Permutation rows
         (MemStorage.getProducts Sample.store
            (Some (ProductOptions.mk None None (Some "jewelry") None))).
Proof.
  apply (proj1 (X22_backends_list_the_same_entities Sample.byLength
                  Sample.byLength Sample.store
                  (DatabaseStorage.mk
                     (JsMap.values (MemStorage.products Sample.store))
                     (JsMap.values (MemStorage.articles Sample.store))
                     (JsMap.values (MemStorage.settings Sample.store)))
                  eq_refl eq_refl eq_refl)).
  split; reflexivity.
Defined.

(** ** The relational backend: order *)

Section SortedFacts.
Context {A : Type} (R : A -> A -> Prop).

Lemma Sorted_skipn (n : nat) (l : list A) :
  Sorted R l -> Sorted R (skipn n l).
Proof.
  revert l. induction n as [|n IH]; intros l H; [exact H|].
  destruct l as [|a l]; [constructor|]. simpl. apply IH. now inversion H.
Qed.

Lemma Sorted_firstn (n : nat) (l : list A) :
  Sorted R l -> Sorted R (firstn n l).
Proof.
  revert l. induction n as [|n IH]; intros l H; [constructor|].
  destruct l as [|a l]; [constructor|]. simpl.
  inversion H as [|? ? Hs Hh]; subst. constructor; [now apply IH|].
  destruct l as [|b l]; [destruct n; constructor|].
  destruct n; constructor. now inversion Hh.
Qed.

Lemma Sorted_paginate (limit offset : option Z) (l : list A) :
  Sorted R l -> Sorted R (Listing.paginate limit offset l).
Proof.
  intros H. unfold Listing.paginate.
  destruct limit, offset;
    repeat (apply Sorted_firstn || apply Sorted_skipn); exact H.
Qed.

Lemma Sorted_weaken (R' : A -> A -> Prop) (l : list A) :
  (forall a b, R a b -> R' a b) -> Sorted R l -> Sorted R' l.
Proof.
  intros HR. induction 1 as [|a l Hs IH Hh]; constructor; [exact IH|].
  destruct Hh; constructor. now apply HR.
Qed.
End SortedFacts.

Lemma newest_first_compare (collate : string -> string -> Z)
  (a b : option Date) :
  Sql.value_compare collate (Sql.nullable Sql.Timestamp b)
    (Sql.nullable Sql.Timestamp a) <= 0
  <-> Listing.newerOrSame a b.
Proof.
  destruct a as [x|], b as [y|]; simpl; lia.
Qed.

(** X23. [DatabaseStorage.getProducts] and [DatabaseStorage.getArticles]
    list newest first: in the rows of a successful call each row was
    created no earlier than the next (a row without a creation time comes
    before the others), also after OFFSET and LIMIT are applied. *)
Theorem X23_database_lists_newest_first
  (collate : string -> string -> Z) (db : DatabaseStorage.t) :
  (forall options rows,
      DatabaseStorage.getProducts collate db options = Some rows ->
      Sorted (fun a b =>
                Listing.newerOrSame (Product.createdAt a)
                  (Product.createdAt b)) rows)
  /\ (forall options rows,
        DatabaseStorage.getArticles collate db options = Some rows ->
        Sorted (fun a b =>
                  Listing.newerOrSame (Article.createdAt a)
                    (Article.createdAt b)) rows).
Proof.
  split; intros options rows.
  - rewrite database_getProducts_shape. cbv zeta.
    destruct (Sql.negative _); [discriminate|]. intros [= <-].
    apply Sorted_paginate.
    eapply Sorted_weaken; [|apply sort_Sorted].
    + intros a b H. apply (newest_first_compare collate). exact H.
    + intros a b. simpl.
      destruct (Product.createdAt a), (Product.createdAt b); simpl; lia.
  - rewrite database_getArticles_shape. cbv zeta.
    destruct (Sql.negative _); [discriminate|]. intros [= <-].
    apply Sorted_paginate.
    eapply Sorted_weaken; [|apply sort_Sorted].
    + intros a b H. apply (newest_first_compare collate). exact H.
    + intros a b. simpl.
      destruct (Article.createdAt a), (Article.createdAt b); simpl; lia.
Qed.

Lemma X23_database_lists_newest_first_witness :
  option_map (map Product.id)
    (DatabaseStorage.getProducts Sample.byLength
       (DatabaseStorage.mk (JsMap.values (MemStorage.products Sample.store))
          [] [])
       (Some (ProductOptions.mk (Some 2) None (Some "swimwear") None)))
  = Some [3; 2]
  /\ Sorted (fun a b =>
               Listing.newerOrSame (Product.createdAt a)
                 (Product.createdAt b))
       (Listing.paginate (Some 2) None
          (Js.sort
             (Sql.ordering_compare DatabaseStorage.productCell
                Sample.byLength
                (Sql.desc DatabaseStorage.products_createdAt))
             (filter
                (Listing.selectsProduct
                   (Some (ProductOptions.mk (Some 2) None (Some "swimwear")
                            None)))
                (JsMap.values (MemStorage.products Sample.store))))).
Proof.
  split; [reflexivity|].
  apply (proj1 (X23_database_lists_newest_first Sample.byLength
                  (DatabaseStorage.mk
                     (JsMap.values (MemStorage.products Sample.store)) [] []))
           (Some (ProductOptions.mk (Some 2) None (Some "swimwear") None))).
  apply database_getProducts_shape.
Defined.

(** ** The relational backend: reads by id, delete and update *)

Lemma hd_error_filter {A : Type} (p : A -> bool) (l : list A) :
  hd_error (filter p l) = find p l.
Proof.
  induction l as [|a l IH]; simpl; [reflexivity|].
  destruct (p a); [reflexivity | exact IH].
Qed.

Lemma filter_idem {A : Type} (p : A -> bool) (l : list A) :
  filter p (filter p l) = filter p l.
Proof.
  rewrite filter_filter. apply filter_ext. intros a. apply andb_diag.
Qed.

Lemma find_ext_eq {A : Type} (p q : A -> bool) (l : list A) :
  (forall a, p a = q a) -> find p l = find q l.
Proof.
  intros H. induction l as [|a l IH]; simpl; [reflexivity|].
  rewrite H. destruct (q a); [reflexivity | exact IH].
Qed.

Lemma product_id_matches (id : Z) (row : Product.t) :
  Sql.matches DatabaseStorage.productCell
    [Sql.eq DatabaseStorage.products_id (Sql.Num id)] row
  = (Product.id row =? id).
Proof. unfold Sql.matches, Sql.holds. simpl. apply andb_true_r. Qed.

Lemma database_getProduct_find (collate : string -> string -> Z)
  (db : DatabaseStorage.t) (id : Z) :
  DatabaseStorage.getProduct collate db id
  = Some (find (fun row => Product.id row =? id)
            (DatabaseStorage.products db)).
Proof.
  unfold DatabaseStorage.getProduct, Sql.execute. simpl.
  rewrite hd_error_filter. f_equal.
  apply find_ext_eq. apply product_id_matches.
Qed.

Lemma database_deleteProduct_rows (db : DatabaseStorage.t) (id : Z) :
  DatabaseStorage.products (snd (DatabaseStorage.deleteProduct db id))
  = filter (fun row => negb (Product.id row =? id))
      (DatabaseStorage.products db).
Proof.
  simpl. unfold Sql.delete_where. apply filter_ext. intros row.
  now rewrite product_id_matches.
Qed.

(** X24. [DatabaseStorage.deleteProduct]: afterwards [getProduct] of the id
    finds no row while every other id finds the row it found before, the
    articles and the settings are untouched, and a second delete of the
    same id changes nothing more (and still returns [true]). *)
Theorem X24_database_deleteProduct
  (collate : string -> string -> Z) (db : DatabaseStorage.t) (id : Z) :
  let after := snd (DatabaseStorage.deleteProduct db id) in
  DatabaseStorage.getProduct collate after id = Some None
  /\ (forall other, other <> id ->
        DatabaseStorage.getProduct collate after other
        = DatabaseStorage.getProduct collate db other)
  /\ DatabaseStorage.articles after = DatabaseStorage.articles db
  /\ DatabaseStorage.settings after = DatabaseStorage.settings db
  /\ DatabaseStorage.deleteProduct after id = (true, after).
Proof.
  cbv zeta. rewrite !database_getProduct_find.
  rewrite database_deleteProduct_rows. repeat apply conj.
  - f_equal. apply find_none_intro. intros row Hin.
    apply filter_In in Hin as [_ Hid]. now apply negb_true_iff in Hid.
  - intros other Hother. rewrite !database_getProduct_find.
    rewrite database_deleteProduct_rows. f_equal. apply find_filter_same.
    intros row _ Hid. apply Z.eqb_eq in Hid. apply negb_true_iff.
    apply Z.eqb_neq. congruence.
  - reflexivity.
  - reflexivity.
  - unfold DatabaseStorage.deleteProduct. f_equal. simpl. f_equal.
    unfold Sql.delete_where. apply filter_idem.
Qed.


Section RowsOfAMapping.
Context {V : Type} (idf : V -> Z).

Lemma wf_tail (n k : Z) (v : V) (m : JsMap.t V) :
  Inv.wf n (Inv.entries_of idf ((k, v) :: m)) ->
  idf v = k
  /\ Inv.wf n (Inv.entries_of idf m)
  /\ Forall (fun k' => k < k') (JsMap.keys m).
Proof.
  unfold Inv.wf, Inv.ascending, Inv.below, Inv.entries_of, JsMap.keys.
  simpl. intros [Ha Hb].
  inversion Ha as [|? ? Hs Hall]; subst.
  inversion Hb as [|? ? [_ Hid] Hrest]; subst. simpl in Hid.
  rewrite map_map in Hall. simpl in Hall. auto.
Qed.

Lemma keys_above_get_None (j : Z) (m : JsMap.t V) :
  Forall (fun k => j < k) (JsMap.keys m) -> JsMap.get m j = None.
Proof.
  unfold JsMap.keys. induction m as [|[k v] m IH]; simpl; intros H;
    [reflexivity|].
  inversion H; subst.
  destruct (k =? j) eqn:E; [apply Z.eqb_eq in E; lia | auto].
Qed.

Lemma wf_find_by_id (n j : Z) (m : JsMap.t V) :
  Inv.wf n (Inv.entries_of idf m) ->
  find (fun r => idf r =? j) (JsMap.values m) = JsMap.get m j.
Proof.
  induction m as [|[k v] m IH]; intros Hwf; [reflexivity|].
  destruct (wf_tail _ _ _ _ Hwf) as [Hid [Hwf' _]].
  simpl. rewrite Hid. destruct (k =? j); [reflexivity | now apply IH].
Qed.

Lemma wf_rows_absent (n j : Z) (f : V -> V) (m : JsMap.t V) :
  Inv.wf n (Inv.entries_of idf m) -> JsMap.get m j = None ->
  map (fun r => if idf r =? j then f r else r) (JsMap.values m)
  = JsMap.values m
  /\ filter (fun r => idf r =? j) (JsMap.values m) = [].
Proof.
  induction m as [|[k v] m IH]; intros Hwf Hget; [split; reflexivity|].
  destruct (wf_tail _ _ _ _ Hwf) as [Hid [Hwf' _]].
  simpl in *. rewrite Hid.
  destruct (k =? j); [discriminate|].
  destruct (IH Hwf' Hget) as [Hmap Hfilter].
  split; [now f_equal | exact Hfilter].
Qed.

Lemma wf_rows_present (n j : Z) (f : V -> V) (m : JsMap.t V) (v : V) :
  Inv.wf n (Inv.entries_of idf m) -> JsMap.get m j = Some v ->
  map (fun r => if idf r =? j then f r else r) (JsMap.values m)
  = JsMap.values (JsMap.set m j (f v))
  /\ filter (fun r => idf r =? j) (JsMap.values m) = [v].
Proof.
  induction m as [|[k v'] m IH]; intros Hwf Hget; [discriminate|].
  destruct (wf_tail _ _ _ _ Hwf) as [Hid [Hwf' Habove]].
  simpl in *. rewrite Hid.
  destruct (k =? j) eqn:E.
  - apply Z.eqb_eq in E. subst k. injection Hget as ->.
    pose proof (keys_above_get_None j m Habove) as Hnone.
    destruct (wf_rows_absent n j f m Hwf' Hnone) as [Hmap Hfilter].
    simpl. split; [now f_equal | now f_equal].
  - destruct (IH Hwf' Hget) as [Hmap Hfilter].
    simpl. split; [now f_equal | exact Hfilter].
Qed.
End RowsOfAMapping.

Lemma distinct_ascending (l : list Z) :
  StronglySorted Z.lt l -> Sql.distinct l = true.
Proof.
  induction 1 as [|a l Hs IH Ha]; simpl; [reflexivity|].
  rewrite IH, andb_true_r. apply negb_true_iff.
  destruct (existsb (Z.eqb a) l) eqn:E; [|reflexivity].
  apply existsb_exists in E as [x [Hx Heq]]. apply Z.eqb_eq in Heq. subst x.
  rewrite Forall_forall in Ha. specialize (Ha a Hx). lia.
Qed.

Lemma mergeProduct_empty (existing : Product.t) (product : ProductPayload.t) :
  ProductPayload.isEmpty product = true ->
  MemStorage.mergeProduct existing product = existing.
Proof.
  destruct product as [i ca [n d p dp im c s fe l lc sm mi]].
  destruct existing. unfold ProductPayload.isEmpty. simpl. intros H.
  destruct i; [discriminate|]. destruct ca; [discriminate|].
  destruct n; [discriminate|]. destruct d; [discriminate|].
  destruct p; [discriminate|]. destruct dp; [discriminate|].
  destruct im; [discriminate|]. destruct c; [discriminate|].
  destruct s; [discriminate|]. destruct fe; [discriminate|].
  destruct l; [discriminate|]. destruct lc; [discriminate|].
  destruct sm; [discriminate|]. destruct mi; [discriminate|].
  reflexivity.
Qed.

(** X25. The two backends stay in step on products.  When the products
    table holds the values of a reachable in-memory store whose products
    carry their keys as ids, [getProduct] finds the same product in both;
    for a payload that has a property and carries no [id],
    [updateProduct] succeeds in the database and returns the same result
    in both, and the table then still holds the values of the in-memory
    store; for the payload without a property the database update fails,
    where the in-memory update returns the stored product; and after
    [deleteProduct] the table still holds the values of the in-memory
    store. *)
Theorem X25_backends_in_step_on_products
  (collate : string -> string -> Z)
  (this : MemStorage.t) (Hreach : MemStorage.reachable this)
  (Hown : Inv.ownIds this)
  (db : DatabaseStorage.t)
  (Hrows : DatabaseStorage.products db
           = JsMap.values (MemStorage.products this)) :
  (forall id,
      DatabaseStorage.getProduct collate db id
      = Some (MemStorage.getProduct this id))
  /\ (forall id product,
        ProductPayload.id product = None ->
        ProductPayload.isEmpty product = false ->
        exists after,
          DatabaseStorage.updateProduct db id product
          = Some (fst (MemStorage.updateProduct this id product), after)
          /\ DatabaseStorage.products after
             = JsMap.values
                 (MemStorage.products
                    (snd (MemStorage.updateProduct this id product))))
  /\ (forall id product,
        ProductPayload.isEmpty product = true ->
        DatabaseStorage.updateProduct db id product = None
        /\ fst (MemStorage.updateProduct this id product)
           = MemStorage.getProduct this id)
  /\ (forall id,
        DatabaseStorage.products (snd (DatabaseStorage.deleteProduct db id))
        = JsMap.values
            (MemStorage.products (snd (MemStorage.deleteProduct this id)))).
Proof.
  pose proof (invariant_reachable this Hreach) as Hinv.
  pose proof (keyed_own_wf _ _
                (invariant_keyed this Hinv MemStorage.KProduct) Hown) as Hwf.
  repeat apply conj.
  - intros id. rewrite database_getProduct_find, Hrows. f_equal.
    exact (wf_find_by_id Product.id _ _ _ Hwf).
  - intros id product Hid Hfull.
    assert (Hafter :
      StronglySorted Z.lt
        (map Product.id
           (JsMap.values
              (MemStorage.products
                 (snd (MemStorage.updateProduct this id product)))))).
    { apply (wf_values_ascending Product.id
               (MemStorage.counter MemStorage.KProduct
                  (MemStorage.run (MemStorage.UpdateProduct id product) this))).
      apply keyed_own_wf.
      - exact (invariant_keyed _
                 (invariant_run (MemStorage.UpdateProduct id product) this
                    Hinv)
                 MemStorage.KProduct).
      - exact (ownIds_run (MemStorage.UpdateProduct id product) this Hid
                 Hown). }
    unfold DatabaseStorage.updateProduct, DatabaseStorage.productValues,
      Sql.update_where.
    rewrite Hfull, Hrows.
    rewrite (map_ext
               (fun r => if Sql.matches DatabaseStorage.productCell
                               [Sql.eq DatabaseStorage.products_id
                                  (Sql.Num id)] r
                         then DatabaseStorage.setProduct product r
                         else r)
               (fun r => if Product.id r =? id
                         then DatabaseStorage.setProduct product r
                         else r))
      by (intros r; now rewrite product_id_matches).
    rewrite (filter_ext _ (fun r => Product.id r =? id))
      by (intros r; apply product_id_matches).
    revert Hafter. unfold MemStorage.updateProduct.
    destruct (JsMap.get (MemStorage.products this) id) as [existing|] eqn:G;
      cbn [fst snd]; intros Hafter.
    + destruct (wf_rows_present Product.id _ id
                  (DatabaseStorage.setProduct product) _ _ Hwf G)
        as [Hmap Hfilter].
      rewrite Hmap, Hfilter.
      change (DatabaseStorage.setProduct product existing)
        with (MemStorage.mergeProduct existing product).
      cbn [MemStorage.products MemStorage.set_products] in Hafter.
      rewrite (distinct_ascending _ Hafter).
      eexists. split; reflexivity.
    + destruct (wf_rows_absent Product.id _ id
                  (DatabaseStorage.setProduct product) _ Hwf G)
        as [Hmap Hfilter].
      rewrite Hmap, Hfilter. rewrite (distinct_ascending _ Hafter).
      eexists. split; reflexivity.
  - intros id product Hempty. split.
    + unfold DatabaseStorage.updateProduct, DatabaseStorage.productValues.
      now rewrite Hempty.
    + unfold MemStorage.updateProduct, MemStorage.getProduct.
      destruct (JsMap.get (MemStorage.products this) id) as [existing|];
        [|reflexivity].
      cbn [fst]. now rewrite mergeProduct_empty.
  - intros id. rewrite database_deleteProduct_rows, Hrows.
    unfold MemStorage.deleteProduct. rewrite has_get.
    destruct (JsMap.get (MemStorage.products this) id) eqn:G; simpl.
    + symmetry. exact (JsMap_values_delete Product.id _ _ id Hwf).
    + exact (JsMap_get_None_values Product.id _ _ id Hwf G).
Qed.

Lemma X25_backends_in_step_on_products_witness :
  MemStorage.reachable Sample.store
  /\ Inv.ownIds Sample.store
  /\ exists after,
       DatabaseStorage.updateProduct
         (DatabaseStorage.mk (JsMap.values (MemStorage.products Sample.store))
            [] [])
         3 (ProductPayload.typed Sample.price999)
       = Some (fst (MemStorage.updateProduct Sample.store 3
                      (ProductPayload.typed Sample.price999)),
               after)
       /\ DatabaseStorage.products after
          = JsMap.values
              (MemStorage.products
                 (snd (MemStorage.updateProduct Sample.store 3
                         (ProductPayload.typed Sample.price999)))).
Proof.
  split; [exact (MemStorage.reachable_new Sample.clock)|].
  split; [exact (ownIds_new Sample.clock)|].
  exact (proj1 (proj2
           (X25_backends_in_step_on_products Sample.byLength Sample.store
              (MemStorage.reachable_new Sample.clock)
              (ownIds_new Sample.clock)
              (DatabaseStorage.mk
                 (JsMap.values (MemStorage.products Sample.store)) [] [])
              eq_refl))
           3 (ProductPayload.typed Sample.price999) eq_refl eq_refl).
Defined.

Lemma settings_id_matches (id : Z) (row : Settings.t) :
  Sql.matches DatabaseStorage.settingsCell
    [Sql.eq DatabaseStorage.settings_id (Sql.Num id)] row
  = (Settings.id row =? id).
Proof. unfold Sql.matches, Sql.holds. simpl. apply andb_true_r. Qed.

Lemma values_set_congr {V W : Type} (g : V -> W) (m : JsMap.t V) (k : Z)
  (a b : V) :
  g a = g b ->
  map g (JsMap.values (JsMap.set m k a))
  = map g (JsMap.values (JsMap.set m k b)).
Proof.
  intros Hg. unfold JsMap.values.
  induction m as [|[k' v'] m IH]; simpl; [now rewrite Hg|].
  destruct (k' =? k); simpl; [now rewrite Hg | now rewrite IH].
Qed.

(** X26. On settings the two backends differ in [updatedAt] and in the
    payload without a property.  When the settings table holds the values
    of a reachable in-memory store and the payload has a property,
    [DatabaseStorage.updateSetting] succeeds and returns the setting that
    [MemStorage.updateSetting] returns up to [updatedAt] (or [undefined]
    in both), and afterwards the table still holds the values of the
    in-memory store up to [updatedAt]; for the payload without a property
    the database update fails, where the in-memory update returns the
    stored setting with a new [updatedAt]. *)
Theorem X26_updateSetting_differs_only_in_updatedAt
  (this : MemStorage.t) (Hreach : MemStorage.reachable this)
  (db : DatabaseStorage.t)
  (Hrows : DatabaseStorage.settings db
           = JsMap.values (MemStorage.settings this))
  (id : Z) (setting : PartialInsertSettings.t) (now : Date) :
  (PartialInsertSettings.isEmpty setting = false ->
   exists result after,
     DatabaseStorage.updateSetting db id setting = Some (result, after)
     /\ option_map Listing.withoutUpdatedAt result
        = option_map Listing.withoutUpdatedAt
            (fst (MemStorage.updateSetting this id setting now))
     /\ map Listing.withoutUpdatedAt (DatabaseStorage.settings after)
        = map Listing.withoutUpdatedAt
            (JsMap.values
               (MemStorage.settings
                  (snd (MemStorage.updateSetting this id setting now)))))
  /\ (PartialInsertSettings.isEmpty setting = true ->
      DatabaseStorage.updateSetting db id setting = None
      /\ option_map Listing.withoutUpdatedAt
           (fst (MemStorage.updateSetting this id setting now))
         = option_map Listing.withoutUpdatedAt
             (JsMap.get (MemStorage.settings this) id)
      /\ option_map Settings.updatedAt
           (fst (MemStorage.updateSetting this id setting now))
         = option_map (fun _ => Some now)
             (JsMap.get (MemStorage.settings this) id)).
Proof.
  pose proof (invariant_wf _ (invariant_reachable this Hreach)
                MemStorage.KSettings ltac:(discriminate)) as Hwf.
  split.
  - intros Hfull.
    unfold DatabaseStorage.updateSetting, DatabaseStorage.settingValues,
      Sql.update_where.
    rewrite Hfull, Hrows.
    rewrite (map_ext
               (fun r => if Sql.matches DatabaseStorage.settingsCell
                               [Sql.eq DatabaseStorage.settings_id
                                  (Sql.Num id)] r
                         then DatabaseStorage.setSetting setting r
                         else r)
               (fun r => if Settings.id r =? id
                         then DatabaseStorage.setSetting setting r
                         else r))
      by (intros r; now rewrite settings_id_matches).
    rewrite (filter_ext _ (fun r => Settings.id r =? id))
      by (intros r; apply settings_id_matches).
    unfold MemStorage.updateSetting.
    destruct (JsMap.get (MemStorage.settings this) id) as [existing|] eqn:G.
    + destruct (wf_rows_present Settings.id _ id
                  (DatabaseStorage.setSetting setting) _ _ Hwf G)
        as [Hmap Hfilter].
      rewrite Hmap, Hfilter. cbn [fst snd MemStorage.settings].
      eexists. eexists. split; [reflexivity|].
      split; [reflexivity|].
      cbn [DatabaseStorage.settings]. now apply values_set_congr.
    + destruct (wf_rows_absent Settings.id _ id
                  (DatabaseStorage.setSetting setting) _ Hwf G)
        as [Hmap Hfilter].
      rewrite Hmap, Hfilter.
      eexists. eexists. split; [reflexivity|]. split; reflexivity.
  - intros Hempty. split.
    + unfold DatabaseStorage.updateSetting, DatabaseStorage.settingValues.
      now rewrite Hempty.
    + unfold MemStorage.updateSetting.
      destruct (JsMap.get (MemStorage.settings this) id) as [existing|];
        [|split; reflexivity].
      destruct setting as [[k|] [v|] [c|] [d|]]; try discriminate.
      split; reflexivity.
Qed.

Lemma X26_updateSetting_differs_only_in_updatedAt_witness :
  MemStorage.reachable Sample.memWithTheme
  /\ exists result after,
       DatabaseStorage.updateSetting
         (DatabaseStorage.mk [] []
            (JsMap.values (MemStorage.settings Sample.memWithTheme)))
         1 Sample.valueDark
       = Some (result, after)
       /\ option_map Listing.withoutUpdatedAt result
          = option_map Listing.withoutUpdatedAt
              (fst (MemStorage.updateSetting Sample.memWithTheme 1
                      Sample.valueDark 2000))
       /\ map Listing.withoutUpdatedAt (DatabaseStorage.settings after)
          = map Listing.withoutUpdatedAt
              (JsMap.values
                 (MemStorage.settings
                    (snd (MemStorage.updateSetting Sample.memWithTheme 1
                            Sample.valueDark 2000)))).
Proof.
  assert (Hreach : MemStorage.reachable Sample.memWithTheme)
    by apply MemStorage.reachable_run, MemStorage.reachable_new.
  split; [exact Hreach|].
  exact (proj1 (X26_updateSetting_differs_only_in_updatedAt
                  Sample.memWithTheme Hreach
                  (DatabaseStorage.mk [] []
                     (JsMap.values (MemStorage.settings Sample.memWithTheme)))
                  eq_refl 1 Sample.valueDark 2000)
           eq_refl).
Defined.

(** ** Pages *)

Lemma firstn_add_split {A : Type} (n m : nat) (l : list A) :
  firstn (n + m) l = firstn n l ++ firstn m (skipn n l).
Proof.
  revert l. induction n as [|n IH]; intros l; simpl; [reflexivity|].
  destruct l as [|a l]; simpl; [now rewrite firstn_nil | now rewrite IH].
Qed.

Lemma num_or_positive (n d : Z) : 0 < n -> Js.num_or (Some n) d = n.
Proof.
  intros H. unfold Js.num_or.
  destruct (n =? 0) eqn:E; [apply Z.eqb_eq in E; lia | reflexivity].
Qed.

Lemma num_or_offset (n : Z) : Js.num_or (Some n) 0 = n.
Proof.
  unfold Js.num_or.
  destruct (n =? 0) eqn:E; [apply Z.eqb_eq in E; now subst | reflexivity].
Qed.

(** X27. Consecutive pages concatenate: for an offset that is not negative
    and positive limits [n] and [m], the page of [n] products at [offset]
    followed by the page of [m] products at [offset + n] is the page of
    [n + m] products at [offset], under the same filters. *)
Theorem X27_consecutive_pages_concatenate
  (this : MemStorage.t) (offset n m : Z)
  (Hoffset : 0 <= offset) (Hn : 0 < n) (Hm : 0 < m)
  (category : option string) (featured : option bool) :
  MemStorage.getProducts this
    (Some (ProductOptions.mk (Some n) (Some offset) category featured))
  ++ MemStorage.getProducts this
       (Some (ProductOptions.mk (Some m) (Some (offset + n)) category
                featured))
  = MemStorage.getProducts this
      (Some (ProductOptions.mk (Some (n + m)) (Some offset) category
               featured)).
Proof.
  rewrite !getProducts_slice. cbv zeta.
  cbn [Js.chain ProductOptions.limit ProductOptions.offset].
  rewrite !num_or_offset, !num_or_positive by lia.
  change (Listing.selectsProduct
            (Some (ProductOptions.mk (Some m) (Some (offset + n)) category
                     featured)))
    with (Listing.selectsProduct
            (Some (ProductOptions.mk (Some n) (Some offset) category
                     featured))).
  change (Listing.selectsProduct
            (Some (ProductOptions.mk (Some (n + m)) (Some offset) category
                     featured)))
    with (Listing.selectsProduct
            (Some (ProductOptions.mk (Some n) (Some offset) category
                     featured))).
  rewrite !slice_drop_take by lia.
  rewrite (Z2Nat.inj_add n m) by lia.
  rewrite (Z2Nat.inj_add offset n) by lia.
  rewrite firstn_add_split. f_equal. f_equal.
  rewrite skipn_skipn. f_equal. lia.
Qed.

Lemma X27_consecutive_pages_concatenate_witness :
  map Product.id
    (MemStorage.getProducts Sample.store
       (Some (ProductOptions.mk (Some 2) (Some 1) None None))
     ++ MemStorage.getProducts Sample.store
          (Some (ProductOptions.mk (Some 3) (Some 3) None None)))
  = [2; 3; 4; 5; 6].
Proof.
  refine (eq_trans
            (f_equal (map Product.id)
               (X27_consecutive_pages_concatenate Sample.store 1 2 3
                  ltac:(lia) ltac:(lia) ltac:(lia) None None)) _).
  reflexivity.
Defined.
